(** * DocScoop: crawl engine and anonymous transport, verified model

    A shallow embedding of [docscoop.py] (class [DocScoop]) and
    [anonymous_connection.py] (class [AnonymousConnection]).

    - Python [str] is [string]; the sets [visited_urls] and
      [document_urls] are [gset string]; [os.environ] is a
      [gmap string string].
    - The objects are records and every method is a function that takes
      the program state and returns the new one.
    - Library and operating-system calls ([urlparse], [urljoin],
      [session.get], the Tor control port, [random.choice], ...) are the
      fields of one record, [world]. Their answers may depend on the
      whole history of the run, kept in the state as a chronological log
      of events.
    - The two recursive methods that Python does not bound
      ([crawl_page], [download_document]) take a fuel argument. *)

From stdpp Require Import gmap strings list pretty.
From Stdlib Require Import Ascii String ZArith Lia.

Local Open Scope string_scope.
Local Open Scope list_scope.
Local Open Scope Z_scope.

(** ** Python string primitives *)

Module PyStr.

(** [needle in hay] on [str]. *)
Fixpoint contains (needle hay : string) : bool :=
  String.prefix needle hay ||
  match hay with
  | EmptyString => false
  | String _ rest => contains needle rest
  end.

(** [s.rfind(c)] for a one-character [c]: [-1] when absent. The
    accumulator [i] is the index of the head of [s]. *)
Fixpoint rfind_from (c : ascii) (s : string) (i : Z) : Z :=
  match s with
  | EmptyString => -1
  | String a rest =>
      let r := rfind_from c rest (i + 1) in
      if 0 <=? r then r else if Ascii.eqb a c then i else -1
  end.

Definition rfind (c : ascii) (s : string) : Z := rfind_from c s 0.

(** [s[i:]] *)
Definition drop (i : Z) (s : string) : string :=
  String.substring (Z.to_nat i) (String.length s - Z.to_nat i)%nat s.

(** [c.lower()] on ASCII letters; other bytes are left as they are. *)
Definition lower_ascii (c : ascii) : ascii :=
  let n := nat_of_ascii c in
  if ((65 <=? n) && (n <=? 90))%nat then ascii_of_nat (n + 32) else c.

Fixpoint lower (s : string) : string :=
  match s with
  | EmptyString => EmptyString
  | String c rest => String (lower_ascii c) (lower rest)
  end.

(** Truth value of a [str]: [bool(s)]. *)
Definition truthy (s : string) : bool :=
  match s with EmptyString => false | _ => true end.

End PyStr.

(** ** [os.path.splitext] (posixpath) *)

Module PosixPath.

(** The loop of [genericpath._splitext] that skips leading dots:
    is some character of [p] at an index in [[lo, lo + n)] not a dot? *)
Fixpoint some_non_dot (p : string) (lo : Z) (n : nat) : bool :=
  match n with
  | O => false
  | S n' =>
      match String.get (Z.to_nat lo) p with
      | Some c => if Ascii.eqb c "."%char then some_non_dot p (lo + 1) n' else true
      | None => true
      end
  end.

(** [os.path.splitext(p)[1]] *)
Definition splitext_ext (p : string) : string :=
  let sepIndex := PyStr.rfind "/"%char p in
  let dotIndex := PyStr.rfind "."%char p in
  if sepIndex <? dotIndex then
    if some_non_dot p (sepIndex + 1) (Z.to_nat (dotIndex - (sepIndex + 1)))
    then PyStr.drop dotIndex p
    else EmptyString
  else EmptyString.

End PosixPath.

Example splitext_pdf : PosixPath.splitext_ext "/a/b.c/doc.PDF" = ".PDF".
Proof. reflexivity. Qed.
Example splitext_hidden : PosixPath.splitext_ext "/a/.bashrc" = EmptyString.
Proof. reflexivity. Qed.
Example splitext_dir_dot : PosixPath.splitext_ext "/a.d/readme" = EmptyString.
Proof. reflexivity. Qed.
Example contains_ct : PyStr.contains "text/html" "text/html; charset=utf-8" = true.
Proof. reflexivity. Qed.

(** ** Data model *)

(** The three fields of [urllib.parse.urlparse]'s result that the
    program reads. *)
Record ParseResult := mkParse {
  scheme : string;
  netloc : string;
  path : string
}.

(** A [requests.Session]: only its header table is observed. *)
Record Session := mkSession { headers : gmap string string }.

(** What [session.get] can do: raise, or hand back a response. Of the
    response the program reads [status_code], the [Content-Type] header
    (the empty string when absent), the [href] of every [<a href=...>]
    of the body, in document order, and the body stream of
    [iter_content], which may break off with an exception. *)
Inductive http_result :=
| HttpRaise
| HttpResponse (status_code : Z) (content_type : string)
               (hrefs : list string) (stream_ok : bool).

(** Observable actions, in the order they happen. *)
Inductive event :=
| EvProbe (port : Z)                       (* sock.connect_ex(('127.0.0.1', port)) *)
| EvLaunch (socks_port ctl_port : Z)       (* stem.process.launch_tor_with_config *)
| EvKill                                   (* tor_process.kill() *)
| EvTestGet                                (* test_session.get('https://www.google.com', timeout=5) *)
| EvControl (port : Z)                     (* Controller.from_port(port=...) *)
| EvAuth (password : option string)        (* controller.authenticate(...) *)
| EvNewnym                                 (* controller.signal("NEWNYM") *)
| EvSleep (seconds : Z)                    (* time.sleep(...) *)
| EvRandom                                 (* random.choice(user_agents) *)
| EvVisit (url : string)                   (* self.visited_urls.add(url) *)
| EvGet (s : Session) (url : string) (timeout : Z) (* self.session.get(url, ...) *)
| EvLinks (url : string)                   (* soup.find_all('a', href=True) *)
| EvDocument (url : string)                (* self.document_urls.add(...) *)
| EvTempFile (path : string).              (* tempfile.NamedTemporaryFile(suffix=ext, delete=False) *)

(** Everything outside the two classes. Each oracle sees the log of the
    run so far, so the same request can be answered differently the
    second time. *)
Record world := mkWorld {
  (* urllib.parse *)
  urlparse : string -> ParseResult;
  urljoin : string -> string -> string;
  (* do urlparse(url) and urljoin(base, url) raise ValueError? *)
  urlparse_raises : string -> bool;
  urljoin_raises : string -> string -> bool;
  (* the headers of a new requests.Session() *)
  requests_default_headers : gmap string string;
  (* does connect_ex on the SOCKS port return 0? *)
  tor_reachable : list event -> bool;
  (* does launch_tor_with_config return a process (rather than raise)? *)
  tor_launch_ok : list event -> bool;
  (* has the socket module an attribute _socketobject or _orig_socket? *)
  socket_orig_available : bool;
  (* do Controller.from_port, authenticate and signal return? *)
  control_connect_ok : list event -> bool;
  control_auth_ok : list event -> bool;
  control_signal_ok : list event -> bool;
  (* the index random.choice draws *)
  random_choice : list event -> nat;
  (* the answer to a GET request, for the crawl, the download and the
     check of the activation alike *)
  http_get : list event -> string -> http_result;
  (* the path of a new temporary file, without its suffix *)
  mkstemp_name : list event -> string
}.

(** [self.previous_proxy], once it is a dict. *)
Record ProxySnapshot := mkSnapshot {
  prev_http : option string;
  prev_https : option string
}.

Record AnonymousConnection := mkConn {
  use_tor : bool;
  tor_port : Z;
  control_port : Z;
  tor_password : option string;
  tor_process : bool;                       (* is a launched process held? *)
  previous_proxy : option ProxySnapshot
}.

(** The [DocScoop] object together with the process-wide state its
    methods touch. *)
Record state := mkState {
  visited_urls : gset string;
  document_urls : gset string;
  anonymous : bool;
  anonymous_conn : AnonymousConnection;
  session : Session;
  environ : gmap string string;             (* os.environ *)
  socket_patched : bool;                    (* socket.socket is socks.socksocket *)
  log : list event
}.

(** An exception that leaves a method carries the state it leaves
    behind. *)
Inductive outcome :=
| Ok (st : state)
| Exn (st : state).

Definition outcome_state (o : outcome) : state :=
  match o with Ok st | Exn st => st end.

(** *** Field updates *)

Definition set_use_tor (b : bool) (c : AnonymousConnection) : AnonymousConnection :=
  mkConn b (tor_port c) (control_port c) (tor_password c) (tor_process c) (previous_proxy c).
Definition set_tor_process (b : bool) (c : AnonymousConnection) : AnonymousConnection :=
  mkConn (use_tor c) (tor_port c) (control_port c) (tor_password c) b (previous_proxy c).
Definition set_previous_proxy (p : option ProxySnapshot) (c : AnonymousConnection)
  : AnonymousConnection :=
  mkConn (use_tor c) (tor_port c) (control_port c) (tor_password c) (tor_process c) p.

Definition with_conn (f : AnonymousConnection -> AnonymousConnection) (st : state) : state :=
  mkState (visited_urls st) (document_urls st) (anonymous st) (f (anonymous_conn st))
          (session st) (environ st) (socket_patched st) (log st).
Definition with_visited (f : gset string -> gset string) (st : state) : state :=
  mkState (f (visited_urls st)) (document_urls st) (anonymous st) (anonymous_conn st)
          (session st) (environ st) (socket_patched st) (log st).
Definition with_documents (f : gset string -> gset string) (st : state) : state :=
  mkState (visited_urls st) (f (document_urls st)) (anonymous st) (anonymous_conn st)
          (session st) (environ st) (socket_patched st) (log st).
Definition set_session (s : Session) (st : state) : state :=
  mkState (visited_urls st) (document_urls st) (anonymous st) (anonymous_conn st)
          s (environ st) (socket_patched st) (log st).
Definition with_environ (f : gmap string string -> gmap string string) (st : state) : state :=
  mkState (visited_urls st) (document_urls st) (anonymous st) (anonymous_conn st)
          (session st) (f (environ st)) (socket_patched st) (log st).
Definition set_socket_patched (b : bool) (st : state) : state :=
  mkState (visited_urls st) (document_urls st) (anonymous st) (anonymous_conn st)
          (session st) (environ st) b (log st).
Definition emit (e : event) (st : state) : state :=
  mkState (visited_urls st) (document_urls st) (anonymous st) (anonymous_conn st)
          (session st) (environ st) (socket_patched st) (log st ++ [e]).

(** ** [anonymous_connection.py]: class [AnonymousConnection] *)

Section Transport.

Variable W : world.

(** [AnonymousConnection.__init__] *)
Definition AnonymousConnection_init (use_tor : bool) (tor_port control_port : Z)
    (tor_password : option string) : AnonymousConnection :=
  mkConn use_tor tor_port control_port tor_password false None.

(** [_is_tor_running]: the raw connection attempt; an exception counts
    as "not running". *)
Definition _is_tor_running (st : state) : bool * state :=
  (tor_reachable W (log st), emit (EvProbe (tor_port (anonymous_conn st))) st).

(** [f'socks5://127.0.0.1:{self.tor_port}'] *)
Definition tor_proxy_url (c : AnonymousConnection) : string :=
  "socks5://127.0.0.1:" +:+ pretty (tor_port c).

(** [_configure_tor_for_requests] *)
Definition _configure_tor_for_requests (st : state) : outcome :=
  (* try: *)
  let st := with_environ (insert "HTTP_PROXY" (tor_proxy_url (anonymous_conn st))) st in
  let st := with_environ (insert "HTTPS_PROXY" (tor_proxy_url (anonymous_conn st))) st in
  let st := set_socket_patched true st in
  let answer := http_get W (log st) "https://www.google.com" in
  let st := emit EvTestGet st in
  match answer with
  | HttpResponse _ _ _ _ => Ok st
  | HttpRaise =>
      (* except Exception: *)
      let st := with_environ (delete "HTTP_PROXY") st in
      let st := with_environ (delete "HTTPS_PROXY") st in
      (* socket.socket = socket._socketobject if hasattr(...) else socket._orig_socket *)
      if socket_orig_available W then
        let st := set_socket_patched false st in
        Ok (with_conn (set_use_tor false) st)
      else Exn st
  end.

(** [start_tor(launch)] *)
Definition start_tor (launch : bool) (st : state) : outcome :=
  if negb (use_tor (anonymous_conn st)) then Ok st
  else
    let '(running, st) := _is_tor_running st in
    if negb running then Ok (with_conn (set_use_tor false) st)
    else
      let st := with_conn (set_previous_proxy
                  (Some (mkSnapshot (environ st !! "HTTP_PROXY")
                                    (environ st !! "HTTPS_PROXY")))) st in
      if launch then
        let started := tor_launch_ok W (log st) in
        let st := emit (EvLaunch (tor_port (anonymous_conn st))
                                 (control_port (anonymous_conn st))) st in
        if started then
          _configure_tor_for_requests (with_conn (set_tor_process true) st)
        else Ok (with_conn (set_use_tor false) st)
      else _configure_tor_for_requests st.

(** One arm of the restoration in [stop_tor]: a truthy saved value is
    written back, anything else removes the variable. *)
Definition restore_var (name : string) (saved : option string)
    (env : gmap string string) : gmap string string :=
  match saved with
  | Some v => if PyStr.truthy v then <[name := v]> env else delete name env
  | None => delete name env
  end.

(** [stop_tor] *)
Definition stop_tor (st : state) : state :=
  if negb (use_tor (anonymous_conn st)) then st
  else
    let st :=
      if tor_process (anonymous_conn st)
      then with_conn (set_tor_process false) (emit EvKill st)
      else st in
    match previous_proxy (anonymous_conn st) with
    | Some saved =>
        (* the dict always has its two keys, so it is truthy *)
        let st := with_environ (restore_var "HTTP_PROXY" (prev_http saved)) st in
        with_environ (restore_var "HTTPS_PROXY" (prev_https saved)) st
    | None => st
    end.

(** [renew_tor_identity]: every exception on the way is caught by the
    one handler, which only prints. *)
Definition renew_tor_identity (st : state) : state :=
  if negb (use_tor (anonymous_conn st)) then st
  else
    (* try: with Controller.from_port(port=self.control_port) as controller: *)
    let connected := control_connect_ok W (log st) in
    let st := emit (EvControl (control_port (anonymous_conn st))) st in
    if negb connected then st
    else
      let authenticated := control_auth_ok W (log st) in
      let st := emit (EvAuth (tor_password (anonymous_conn st))) st in
      if negb authenticated then st
      else
        let signalled := control_signal_ok W (log st) in
        let st := emit EvNewnym st in
        if negb signalled then st
        else emit (EvSleep 5) st.

Definition user_agents : list string := [
  "Mozilla/5.0 (Windows NT 10.0; Win64; x64) AppleWebKit/537.36 (KHTML, like Gecko) Chrome/91.0.4472.124 Safari/537.36";
  "Mozilla/5.0 (Windows NT 10.0; Win64; x64; rv:89.0) Gecko/20100101 Firefox/89.0";
  "Mozilla/5.0 (Macintosh; Intel Mac OS X 10_15_7) AppleWebKit/605.1.15 (KHTML, like Gecko) Version/14.1.1 Safari/605.1.15";
  "Mozilla/5.0 (X11; Linux x86_64; rv:89.0) Gecko/20100101 Firefox/89.0";
  "Mozilla/5.0 (Windows NT 10.0; Win64; x64) AppleWebKit/537.36 (KHTML, like Gecko) Chrome/91.0.4472.124 Safari/537.36 Edg/91.0.864.59"
].

(** [_get_random_user_agent] *)
Definition _get_random_user_agent (st : state) : string * state :=
  (nth (random_choice W (log st) mod List.length user_agents)%nat user_agents EmptyString,
   emit EvRandom st).

(** [requests.Session()] *)
Definition requests_Session : Session := mkSession (requests_default_headers W).

(** [session.headers.update(d)]: the keys of [d] win. *)
Definition headers_update (d : gmap string string) (s : Session) : Session :=
  mkSession (d ∪ headers s).

Definition anonymous_profile (ua : string) : gmap string string :=
  <["User-Agent" := ua]> (<["Accept-Language" := "en-US,en;q=0.5"]>
    (<["DNT" := "1"]> (<["Upgrade-Insecure-Requests" := "1"]> ∅))).

Definition stable_user_agent : string :=
  "Mozilla/5.0 (Windows NT 10.0; Win64; x64) AppleWebKit/537.36 (KHTML, like Gecko) Chrome/91.0.4472.124 Safari/537.36".

Definition direct_profile : gmap string string :=
  {["User-Agent" := stable_user_agent]}.

(** [get_session] *)
Definition get_session (st : state) : Session * state :=
  if use_tor (anonymous_conn st) then
    let '(ua, st) := _get_random_user_agent st in
    (headers_update (anonymous_profile ua) requests_Session, st)
  else
    (headers_update direct_profile requests_Session, st).

End Transport.

(** ** [docscoop.py]: class [DocScoop] *)

(** The class attributes as the source initialises them; the command
    line may extend both lists before a scan starts. *)
Definition default_DOCUMENT_EXTENSIONS : list string :=
  [".pdf"; ".txt"; ".doc"; ".docx"; ".rtf"; ".csv"; ".xls"; ".xlsx"].
Definition default_IGNORE_EXTENSIONS : list string :=
  [".jpg"; ".jpeg"; ".png"; ".gif"; ".bmp"; ".svg"; ".mp4"; ".avi"; ".mov"].

(** How a call of [download_document] ends: it returns ([None] or the
    temporary path), or the nested retries reach the recursion limit
    of the interpreter and [RecursionError] leaves the method. *)
Inductive download_result :=
| Returned (temp_path : option string) (st : state)
| RecursionError (st : state).

Definition download_state (r : download_result) : state :=
  match r with Returned _ st | RecursionError st => st end.

Section Crawler.

Variable W : world.
Variables DOCUMENT_EXTENSIONS IGNORE_EXTENSIONS : list string.

(** [DocScoop.__init__], run in a process whose environment is [env].
    The session field is only meaningful once the last line has
    assigned it. *)
Definition DocScoop_init (use_tor launch_tor : bool) (tor_port control_port : Z)
    (env : gmap string string) : outcome :=
  let st := mkState ∅ ∅ use_tor
              (AnonymousConnection_init use_tor tor_port control_port None)
              (requests_Session W) env false [] in
  if use_tor then
    match start_tor W launch_tor st with
    | Exn st => Exn st
    | Ok st => let '(s, st) := get_session W st in Ok (set_session s st)
    end
  else Ok (set_session (requests_Session W) st).

(** [__del__] *)
Definition DocScoop_del (st : state) : state :=
  if anonymous st then stop_tor st else st.

(** [is_valid_url(url)]: [true] exactly when the method returns
    [True]. [false] stands for [False] and for the [ValueError] that
    [urlparse] raises on some strings; [urlparse_raises] tells the two
    apart where it matters (see [crawl_page]). *)
Definition is_valid_url (st : state) (url : string) : bool :=
  negb (urlparse_raises W url) &&
  let parsed := urlparse W url in
  PyStr.truthy (netloc parsed) && PyStr.truthy (scheme parsed)
  && negb (bool_decide (url ∈ visited_urls st)).

Definition get_file_extension (url : string) : string :=
  let parsed := urlparse W url in
  PyStr.lower (PosixPath.splitext_ext (path parsed)).

Definition is_document_url (url : string) : bool :=
  bool_decide (get_file_extension url ∈ DOCUMENT_EXTENSIONS).

Definition should_ignore_url (url : string) : bool :=
  bool_decide (get_file_extension url ∈ IGNORE_EXTENSIONS).

(** [self.session.get(url, timeout=...)] *)
Definition session_get (url : string) (timeout : Z) (st : state) : http_result * state :=
  (http_get W (log st) url, emit (EvGet (session st) url timeout) st).

(** The content-type half of the document test of [crawl_page]. *)
Definition is_document_type (content_type : string) : bool :=
  PyStr.contains "application/pdf" content_type
  || PyStr.contains "application/msword" content_type
  || PyStr.contains "application/vnd.openxmlformats" content_type.

Definition visit (url : string) (st : state) : state :=
  emit (EvVisit url) (with_visited (union {[url]}) st).

Definition add_document (url : string) (st : state) : state :=
  emit (EvDocument url) (with_documents (union {[url]}) st).

(** The two lines that both [except] branches run before they call
    the method again: [self.anonymous_conn.renew_tor_identity()] and
    [self.session = self.anonymous_conn.get_session()]. *)
Definition rotate_session (st : state) : state :=
  let st := renew_tor_identity W st in
  let '(s, st) := get_session W st in
  set_session s st.

(** The [for link in links] loop of [crawl_page] over references on
    which nothing raises (see [links_before_raise]); [recurse] is the
    call [self.crawl_page(next_url, depth + 1, max_depth)]. *)
Fixpoint crawl_links (recurse : string -> state -> option state)
    (url : string) (depth max_depth : Z) (hrefs : list string) (st : state)
    : option state :=
  match hrefs with
  | [] => Some st
  | href :: rest =>
      let next_url := urljoin W url href in
      if should_ignore_url next_url then
        crawl_links recurse url depth max_depth rest st
      else if is_document_url next_url then
        crawl_links recurse url depth max_depth rest (add_document next_url st)
      else if depth <? max_depth then
        match recurse next_url st with
        | Some st => crawl_links recurse url depth max_depth rest st
        | None => None
        end
      else crawl_links recurse url depth max_depth rest st
  end.

(** Does the body of the loop raise [ValueError] on this reference,
    at [urljoin] or at the [urlparse] behind [should_ignore_url]? *)
Definition link_raises (url href : string) : bool :=
  urljoin_raises W url href || urlparse_raises W (urljoin W url href).

(** The references the loop gets through: those before the first one
    that raises. Whether one raises depends on the page and on the
    reference alone, so the cut is known before the loop runs. *)
Fixpoint links_before_raise (url : string) (hrefs : list string) : list string :=
  match hrefs with
  | [] => []
  | href :: rest =>
      if link_raises url href then [] else href :: links_before_raise url rest
  end.

(** [crawl_page(url, depth, max_depth)]: the state in which the call
    ends; [None] only when the fuel runs out. Inside the [try],
    [session.get] can raise, and so can [urljoin] and [urlparse] in
    the link loop, which then stops at that reference; the one
    handler takes them all. The HTML parser is total, and the nested
    call cannot raise, its URL having been parsed by
    [should_ignore_url] just before. The call itself ends by an
    exception in one case only, the [ValueError] of [urlparse] in the
    guard, before the [try] and with the state untouched: that is
    [crawl_page_raises], and it can happen to the first call of a
    crawl only. *)
Fixpoint crawl_page (fuel : nat) (url : string) (depth max_depth : Z) (st : state)
    : option state :=
  match fuel with
  | O => None
  | S fuel =>
      if (max_depth <? depth) || negb (is_valid_url st url) then Some st
      else
        let st := visit url st in
        (* except Exception: *)
        let handler := fun st =>
          if anonymous st && (depth <=? 1) then
            crawl_page fuel url depth max_depth (rotate_session st)
          else Some st in
        (* try: *)
        let '(response, st) := session_get url 10 st in
        match response with
        | HttpResponse status_code content_type hrefs _ =>
            if negb (status_code =? 200) then Some st
            else if is_document_url url || is_document_type content_type then
              Some (add_document url st)
            else if PyStr.contains "text/html" content_type then
              match
                crawl_links (fun next_url st => crawl_page fuel next_url (depth + 1) max_depth st)
                            url depth max_depth (links_before_raise url hrefs)
                            (emit (EvLinks url) st)
              with
              | Some st => if existsb (link_raises url) hrefs then handler st else Some st
              | None => None
              end
            else Some st
        | HttpRaise => handler st
        end
  end.

(** Does the call end by the [ValueError] of the guard? *)
Definition crawl_page_raises (url : string) (depth max_depth : Z) : bool :=
  (depth <=? max_depth) && urlparse_raises W url.

(** Fuel that always suffices (see [crawl_page_total]). *)
Definition crawl_fuel (depth max_depth : Z) : nat :=
  S (S (Z.to_nat (max_depth - depth))).

(** The suffix chosen from the declared content type in
    [download_document] when the URL has no extension. *)
Definition content_type_suffix (content_type : string) : string :=
  if PyStr.contains "application/pdf" content_type then ".pdf"
  else if PyStr.contains "application/msword" content_type then ".doc"
  else if PyStr.contains "application/vnd.openxmlformats" content_type then ".docx"
  else ".txt".

(** The [try] block of [download_document]: [inl] when it returns
    (with Python's return value), [inr] when it raises, either in
    [session.get] or while the body is streamed into the temporary
    file. The URL is one that [urlparse] accepts, as every member of
    [document_urls] is, and the temporary file is taken to be
    created, which needs a suffix that fits a file name. *)
Definition download_attempt (url : string) (st : state) : (option string * state) + state :=
  let '(response, st) := session_get url 30 st in
  match response with
  | HttpRaise => inr st
  | HttpResponse status_code content_type _ stream_ok =>
      if negb (status_code =? 200) then inl (None, st)
      else
        let ext := get_file_extension url in
        let ext := if negb (PyStr.truthy ext)
                   then content_type_suffix content_type else ext in
        let temp_path := mkstemp_name W (log st) +:+ ext in
        let st := emit (EvTempFile temp_path) st in
        if stream_ok then inl (Some temp_path, st) else inr st
  end.

(** [download_document(url)]. The retry is a call of the method
    from inside its own handler, so every retry is one frame deeper;
    [fuel] is the number of nested calls the interpreter's stack still
    has room for ([sys.getrecursionlimit()], 1000 by default, less
    the frames in use), and with none left [RecursionError] goes up
    through all the handlers. *)
Fixpoint download_document (fuel : nat) (url : string) (st : state) : download_result :=
  match fuel with
  | O => RecursionError st
  | S fuel =>
      match download_attempt url st with
      | inl (temp_path, st) => Returned temp_path st
      | inr st =>
          (* except Exception: *)
          if anonymous st then download_document fuel url (rotate_session st)
          else Returned None st
      end
  end.

(** The crawl step of [scan_url]: [self.crawl_page(start_url,
    max_depth=max_depth)], so [depth] takes its default, 1. *)
Definition crawl (start_url : string) (max_depth : Z) (st : state) : option state :=
  crawl_page (crawl_fuel 1 max_depth) start_url 1 max_depth st.

End Crawler.

(** ** A small concrete world

    Used to run the model on explicit inputs. [simple_urlparse] and
    [simple_urljoin] agree with [urllib.parse] on the URLs used below:
    [scheme://host/path] without query, fragment or parameters, and
    references that are absolute or start with a slash; the hosts
    have no square bracket, or one without the other. *)

Module Sample.

Fixpoint split_on (sep s : string) : option (string * string) :=
  if String.prefix sep s then
    Some (EmptyString, PyStr.drop (Z.of_nat (String.length sep)) s)
  else
    match s with
    | EmptyString => None
    | String c rest =>
        match split_on sep rest with
        | Some (a, b) => Some (String c a, b)
        | None => None
        end
    end.

Definition simple_urlparse (url : string) : ParseResult :=
  match split_on "://" url with
  | Some (sch, rest) =>
      match split_on "/" rest with
      | Some (host, p) => mkParse sch host ("/" +:+ p)
      | None => mkParse sch rest EmptyString
      end
  | None => mkParse EmptyString EmptyString url
  end.

Definition simple_urljoin (base href : string) : string :=
  match split_on "://" href with
  | Some _ => href
  | None =>
      let b := simple_urlparse base in
      if String.prefix "/" href then scheme b +:+ "://" +:+ netloc b +:+ href
      else scheme b +:+ "://" +:+ netloc b +:+ "/" +:+ href
  end.

(** [urlsplit] raises [ValueError] (Invalid IPv6 URL) when the host
    has one square bracket without the other; [urljoin] parses both
    of its arguments. *)
Definition simple_urlparse_raises (url : string) : bool :=
  let host := netloc (simple_urlparse url) in
  xorb (PyStr.contains "[" host) (PyStr.contains "]" host).

Definition simple_urljoin_raises (base href : string) : bool :=
  simple_urlparse_raises base || simple_urlparse_raises href.

(** A world in which Tor answers as [tor_up] says, the control port
    as [ctl] says, and the network as [net] says. The [socket] module
    is Python 3's, which has neither [_socketobject] nor
    [_orig_socket]. *)
Definition sample_world (tor_up : bool) (ctl : bool * bool * bool)
    (net : list event -> string -> http_result) : world :=
  mkWorld simple_urlparse simple_urljoin simple_urlparse_raises simple_urljoin_raises
          {["User-Agent" := "python-requests"]}
          (fun _ => tor_up) (fun _ => true) false
          (fun _ => ctl.1.1) (fun _ => ctl.1.2) (fun _ => ctl.2)
          (fun _ => 1%nat) net (fun _ => "/tmp/tmpk3x9").

(** A freshly built, non-anonymous [DocScoop] in an empty
    environment. *)
Definition fresh (W : world) (anon : bool) : state :=
  mkState ∅ ∅ anon (AnonymousConnection_init anon 9050 9051 None)
          (requests_Session W) ∅ false [].

End Sample.

Example parse_plain : Sample.simple_urlparse "https://example.com/path/file.docx"
  = mkParse "https" "example.com" "/path/file.docx".
Proof. reflexivity. Qed.
Example parse_not_a_url : Sample.simple_urlparse "not-a-url"
  = mkParse EmptyString EmptyString "not-a-url".
Proof. reflexivity. Qed.
Example join_rooted : Sample.simple_urljoin "http://a.example/index.html" "/report.pdf"
  = "http://a.example/report.pdf".
Proof. reflexivity. Qed.

(** ** Reading the log *)

(** The URLs marked visited, and the URLs requested, in the order of
    the log. *)
Definition visits (l : list event) : list string :=
  omap (fun e => match e with EvVisit u => Some u | _ => None end) l.
Definition gets (l : list event) : list string :=
  omap (fun e => match e with EvGet _ u _ => Some u | _ => None end) l.
Definition links_extracted (l : list event) : list string :=
  omap (fun e => match e with EvLinks u => Some u | _ => None end) l.

(** The number of [NEWNYM] signals of a log. *)
Definition newnyms (l : list event) : nat :=
  List.length (omap (fun e => match e with EvNewnym => Some tt | _ => None end) l).

(** Events of the control channel and of session creation: neither a
    request nor a change of the frontier. *)
Definition transport_event (e : event) : Prop :=
  match e with
  | EvControl _ | EvAuth _ | EvNewnym | EvSleep _ | EvRandom => True
  | _ => False
  end.

(** Every network request of [l] is preceded, in [l], by the marking of
    its URL. *)
Definition marked_before_get (l : list event) : Prop :=
  forall before s u t after,
    l = before ++ EvGet s u t :: after -> EvVisit u ∈ before.

Lemma visits_app l1 l2 : visits (l1 ++ l2) = visits l1 ++ visits l2.
Proof. apply omap_app. Qed.

Lemma gets_app l1 l2 : gets (l1 ++ l2) = gets l1 ++ gets l2.
Proof. apply omap_app. Qed.

Lemma links_extracted_app l1 l2 :
  links_extracted (l1 ++ l2) = links_extracted l1 ++ links_extracted l2.
Proof. apply omap_app. Qed.

Lemma transport_events_silent l :
  Forall transport_event l ->
  visits l = [] /\ gets l = [] /\ links_extracted l = [].
Proof.
  induction 1 as [|e l He _ IH]; [done|].
  destruct IH as (Hv & Hg & Hl).
  destruct e; simpl in He; try done; cbn; rewrite ?Hv, ?Hg, ?Hl; done.
Qed.

Lemma marked_before_get_nil : marked_before_get [].
Proof. intros [|??] ?????; discriminate. Qed.

Lemma marked_before_get_app l1 l2 :
  marked_before_get l1 -> marked_before_get l2 -> marked_before_get (l1 ++ l2).
Proof.
  intros H1 H2 before s u t after Heq.
  apply app_eq_app in Heq as [k [[-> Hk] | [-> Hk]]].
  - destruct k as [|e k]; simpl in Hk.
    + specialize (H2 [] s u t after (eq_sym Hk)). by apply elem_of_nil in H2.
    + injection Hk as <- ->. apply (H1 before s u t k eq_refl).
  - apply elem_of_app. right. apply (H2 k s u t after). exact Hk.
Qed.

Lemma marked_before_get_no_get l : gets l = [] -> marked_before_get l.
Proof.
  intros Hg before s u t after ->.
  rewrite gets_app in Hg. apply app_eq_nil in Hg as [_ Hg]. discriminate.
Qed.

Lemma marked_before_get_pair s u t : marked_before_get [EvVisit u; EvGet s u t].
Proof.
  intros before s' u' t' after Heq.
  destruct before as [|e1 [|e2 [|e3 before]]]; simplify_eq/=.
  apply list_elem_of_singleton. reflexivity.
Qed.

(** ** Frame of the transport calls made during a scan *)

(** [st'] differs from [st] at most in its session and by [new] events
    appended to the log. *)
Definition only_logs (st st' : state) (new : list event) : Prop :=
  visited_urls st' = visited_urls st /\
  document_urls st' = document_urls st /\
  anonymous st' = anonymous st /\
  anonymous_conn st' = anonymous_conn st /\
  environ st' = environ st /\
  socket_patched st' = socket_patched st /\
  log st' = log st ++ new.

Lemma only_logs_emit e st : only_logs st (emit e st) [e].
Proof. by repeat split. Qed.

Lemma only_logs_refl st : only_logs st st [].
Proof. repeat split; try done. cbn. by rewrite app_nil_r. Qed.

Lemma only_logs_trans st1 st2 st3 l1 l2 :
  only_logs st1 st2 l1 -> only_logs st2 st3 l2 -> only_logs st1 st3 (l1 ++ l2).
Proof.
  intros (?&?&?&?&?&?&?) (?&?&?&?&?&?&?).
  repeat split; try congruence.
  rewrite app_assoc. congruence.
Qed.

Lemma only_logs_session s st st' new :
  only_logs st st' new -> only_logs st (set_session s st') new.
Proof. intros (?&?&?&?&?&?&?). by repeat split. Qed.

Section TransportFacts.

Variable W : world.

Lemma renew_tor_identity_frame st :
  session (renew_tor_identity W st) = session st /\
  exists new, only_logs st (renew_tor_identity W st) new /\ Forall transport_event new.
Proof.
  unfold renew_tor_identity.
  destruct (use_tor (anonymous_conn st)); cbn [negb].
  2: { split; [done|]. exists []. split; [apply only_logs_refl | constructor]. }
  destruct (control_connect_ok W (log st)); cbn [negb].
  2: { split; [done|]. eexists. split; [apply only_logs_emit | by repeat constructor]. }
  destruct (control_auth_ok W _); cbn [negb].
  2: { split; [done|]. eexists. split.
       - eapply only_logs_trans; apply only_logs_emit.
       - by repeat constructor. }
  destruct (control_signal_ok W _); cbn [negb].
  - split; [done|]. eexists. split.
    + eapply only_logs_trans; [|apply only_logs_emit].
      eapply only_logs_trans; [|apply only_logs_emit].
      eapply only_logs_trans; apply only_logs_emit.
    + by repeat constructor.
  - split; [done|]. eexists. split.
    + eapply only_logs_trans; [|apply only_logs_emit].
      eapply only_logs_trans; apply only_logs_emit.
    + by repeat constructor.
Qed.

Lemma get_session_frame st :
  exists new, only_logs st (get_session W st).2 new /\ Forall transport_event new.
Proof.
  unfold get_session. destruct (use_tor (anonymous_conn st)); cbn.
  - exists [EvRandom]. split; [apply only_logs_emit | by repeat constructor].
  - exists []. split; [apply only_logs_refl | constructor].
Qed.

End TransportFacts.

Section CrawlerFacts.

Variable W : world.
Variables DOCUMENT_EXTENSIONS IGNORE_EXTENSIONS : list string.

Abbreviation should_ignore_url := (should_ignore_url W IGNORE_EXTENSIONS).
Abbreviation is_document_url := (is_document_url W DOCUMENT_EXTENSIONS).
Abbreviation crawl_links := (crawl_links W DOCUMENT_EXTENSIONS IGNORE_EXTENSIONS).
Abbreviation download_document := (download_document W).

Lemma rotate_session_frame st :
  exists new, only_logs st (rotate_session W st) new /\ Forall transport_event new.
Proof.
  unfold rotate_session.
  destruct (renew_tor_identity_frame W st) as (_ & l1 & H1 & F1).
  destruct (get_session_frame W (renew_tor_identity W st)) as (l2 & H2 & F2).
  destruct (get_session W (renew_tor_identity W st)) as [s st2]. cbn in H2.
  exists (l1 ++ l2). split.
  - apply only_logs_session. eapply only_logs_trans; eassumption.
  - by apply Forall_app.
Qed.

Lemma is_valid_url_visited st url :
  url ∈ visited_urls st -> is_valid_url W st url = false.
Proof.
  intros Hin. unfold is_valid_url.
  rewrite (bool_decide_eq_true_2 _ Hin). cbn. by rewrite !andb_false_r.
Qed.

Lemma is_valid_url_fresh st url :
  is_valid_url W st url = true -> url ∉ visited_urls st.
Proof.
  unfold is_valid_url. intros H.
  apply andb_true_iff in H as [_ H].
  apply andb_true_iff in H as [_ H]. apply negb_true_iff in H.
  by apply bool_decide_eq_false in H.
Qed.

(** *** An induction principle for [crawl_page]

    [R] relates the state before a call to the state after it; [ok]
    is what is known of the URL a call is made on. Whatever holds of
    the four kinds of step of the method, and composes, holds of the
    whole recursive crawl. *)
Section Induction.

Variable R : state -> state -> Prop.
Variable ok : string -> Prop.

Hypothesis R_refl : forall st, R st st.
Hypothesis R_trans : forall st1 st2 st3, R st1 st2 -> R st2 st3 -> R st1 st3.
Hypothesis ok_link : forall u, should_ignore_url u = false -> ok u.
Hypothesis R_fetch : forall url st,
  ok url -> is_valid_url W st url = true ->
  R st (session_get W url 10 (visit url st)).2.
Hypothesis R_document : forall url st, ok url -> R st (add_document url st).
Hypothesis R_links : forall url st, R st (emit (EvLinks url) st).
Hypothesis R_rotate : forall st, R st (rotate_session W st).

Lemma crawl_links_preserves recurse url depth max_depth hrefs :
  (forall u st st', ok u -> recurse u st = Some st' -> R st st') ->
  forall st st',
    crawl_links recurse url depth max_depth hrefs st = Some st' -> R st st'.
Proof.
  intros Hrec. induction hrefs as [|href rest IH]; intros st st' Hrun; cbn in Hrun.
  - by simplify_eq.
  - destruct (should_ignore_url (urljoin W url href)) eqn:Hign; [by apply IH|].
    destruct (is_document_url (urljoin W url href)).
    { eapply R_trans; [apply R_document, ok_link, Hign | by apply IH]. }
    destruct (depth <? max_depth); [|by apply IH].
    destruct (recurse (urljoin W url href) st) as [st1|] eqn:Hcall; [|done].
    eapply R_trans; [eapply Hrec; [apply ok_link, Hign | exact Hcall] | by apply IH].
Qed.

Lemma crawl_page_preserves fuel :
  forall url depth max_depth st st',
    ok url ->
    crawl_page W DOCUMENT_EXTENSIONS IGNORE_EXTENSIONS fuel url depth max_depth st = Some st' -> R st st'.
Proof.
  induction fuel as [|fuel IH]; intros url depth max_depth st st' Hok Hrun;
    [discriminate|].
  cbn [crawl_page] in Hrun.
  destruct ((max_depth <? depth) || negb (is_valid_url W st url)) eqn:Hguard.
  { by simplify_eq. }
  apply orb_false_iff in Hguard as [_ Hvalid]. apply negb_false_iff in Hvalid.
  pose proof (R_fetch url st Hok Hvalid) as Hfetch.
  destruct (session_get W url 10 (visit url st)) as [response st1].
  cbn [snd] in Hfetch.
  eapply R_trans; [exact Hfetch|].
  assert (forall s,
            (if anonymous s && (depth <=? 1)
             then crawl_page W DOCUMENT_EXTENSIONS IGNORE_EXTENSIONS fuel url depth max_depth
                    (rotate_session W s)
             else Some s) = Some st' -> R s st') as Hhandler.
  { intros s Hs. destruct (anonymous s && (depth <=? 1)).
    - eapply R_trans; [apply R_rotate|]. exact (IH _ _ _ _ _ Hok Hs).
    - by simplify_eq. }
  destruct response as [|status_code content_type hrefs stream_ok].
  - by apply Hhandler.
  - destruct (negb (status_code =? 200)); [by simplify_eq|].
    destruct (is_document_url url || is_document_type content_type).
    { simplify_eq. by apply R_document. }
    destruct (PyStr.contains "text/html" content_type); [|by simplify_eq].
    eapply R_trans; [apply R_links|].
    destruct (crawl_links _ url depth max_depth (links_before_raise W url hrefs)
                (emit (EvLinks url) st1)) as [s|] eqn:Hloop; [|discriminate].
    assert (R (emit (EvLinks url) st1) s) as Hlinks.
    { eapply crawl_links_preserves; [|exact Hloop].
      intros u s1 s2 Hu Hcall. exact (IH _ _ _ _ _ Hu Hcall). }
    destruct (existsb (link_raises W url) hrefs).
    + eapply R_trans; [exact Hlinks | by apply Hhandler].
    + by simplify_eq.
Qed.

End Induction.

(** *** Termination *)

Lemma crawl_page_visited fuel url depth max_depth st :
  url ∈ visited_urls st ->
  crawl_page W DOCUMENT_EXTENSIONS IGNORE_EXTENSIONS (S fuel) url depth max_depth st = Some st.
Proof.
  intros Hin. cbn [crawl_page].
  rewrite (is_valid_url_visited _ _ Hin). by rewrite orb_true_r.
Qed.

Lemma crawl_page_too_deep fuel url depth max_depth st :
  max_depth < depth ->
  crawl_page W DOCUMENT_EXTENSIONS IGNORE_EXTENSIONS (S fuel) url depth max_depth st = Some st.
Proof.
  intros Hlt. cbn [crawl_page].
  by rewrite (proj2 (Z.ltb_lt _ _) Hlt).
Qed.

Lemma crawl_links_total recurse url depth max_depth hrefs :
  (depth < max_depth -> forall u st, is_Some (recurse u st)) ->
  forall st, is_Some (crawl_links recurse url depth max_depth hrefs st).
Proof.
  intros Hrec. induction hrefs as [|href rest IH]; intros st; cbn; [done|].
  destruct (should_ignore_url _); [done|].
  destruct (is_document_url _); [done|].
  destruct (depth <? max_depth) eqn:Hlt; [|done].
  apply Z.ltb_lt in Hlt.
  destruct (Hrec Hlt (urljoin W url href) st) as [st1 ->]. done.
Qed.

(** The frontier only grows. *)
Definition visited_grows (st st' : state) : Prop :=
  visited_urls st ⊆ visited_urls st'.

Lemma visited_grows_rotate st : visited_grows st (rotate_session W st).
Proof.
  destruct (rotate_session_frame st) as (new & (Hv & _) & _).
  unfold visited_grows. by rewrite Hv.
Qed.

Lemma crawl_page_visited_grows fuel url depth max_depth st st' :
  crawl_page W DOCUMENT_EXTENSIONS IGNORE_EXTENSIONS fuel url depth max_depth st = Some st' ->
  visited_grows st st'.
Proof.
  apply (crawl_page_preserves visited_grows (fun _ => True)); try done.
  - by intros s u Hu.
  - intros s1 s2 s3 H12 H23 u Hu. by apply H23, H12.
  - intros u s _ _ v Hv. cbn. apply elem_of_union. by right.
  - by intros u s _ v Hv.
  - by intros u s v Hv.
  - apply visited_grows_rotate.
Qed.

Lemma crawl_links_visited_grows fuel url depth max_depth hrefs st st' :
  crawl_links (fun next_url s => crawl_page W DOCUMENT_EXTENSIONS IGNORE_EXTENSIONS fuel next_url (depth + 1) max_depth s)
              url depth max_depth hrefs st = Some st' ->
  visited_grows st st'.
Proof.
  apply (crawl_links_preserves visited_grows (fun _ => True)); try done.
  - by intros s u Hu.
  - intros s1 s2 s3 H12 H23 u Hu. by apply H23, H12.
  - by intros u s _ v Hv.
  - intros u s s' _ Hcall. by eapply crawl_page_visited_grows.
Qed.

(** With [crawl_fuel depth max_depth] units of fuel or more,
    [crawl_page] returns. *)
Lemma crawl_page_total fuel :
  forall url depth max_depth st,
    (crawl_fuel depth max_depth <= fuel)%nat ->
    is_Some (crawl_page W DOCUMENT_EXTENSIONS IGNORE_EXTENSIONS fuel url depth max_depth st).
Proof.
  unfold crawl_fuel.
  induction fuel as [|fuel IH]; intros url depth max_depth st Hfuel; [lia|].
  cbn [crawl_page].
  destruct ((max_depth <? depth) || negb (is_valid_url W st url)) eqn:Hguard; [done|].
  apply orb_false_iff in Hguard as [Hdepth _]. apply Z.ltb_ge in Hdepth.
  destruct (session_get W url 10 (visit url st)) as [response st1] eqn:Hget.
  assert (url ∈ visited_urls st1) as Hin.
  { unfold session_get in Hget. simplify_eq. cbn.
    apply elem_of_union. left. by apply elem_of_singleton. }
  assert (forall s, url ∈ visited_urls s ->
            is_Some (if anonymous s && (depth <=? 1)
                     then crawl_page W DOCUMENT_EXTENSIONS IGNORE_EXTENSIONS fuel url depth
                            max_depth (rotate_session W s)
                     else Some s)) as Hhandler.
  { intros s Hs. destruct (anonymous s && (depth <=? 1)); [|done].
    destruct fuel as [|fuel']; [lia|].
    rewrite crawl_page_visited; [done|]. by apply visited_grows_rotate. }
  destruct response as [|status_code content_type hrefs stream_ok].
  - by apply Hhandler.
  - destruct (negb (status_code =? 200)); [done|].
    destruct (is_document_url url || is_document_type content_type); [done|].
    destruct (PyStr.contains "text/html" content_type); [|done].
    destruct (crawl_links_total
                (fun next_url s => crawl_page W DOCUMENT_EXTENSIONS IGNORE_EXTENSIONS fuel
                                     next_url (depth + 1) max_depth s)
                url depth max_depth (links_before_raise W url hrefs)
                (fun Hlt u s => IH u (depth + 1) max_depth s ltac:(lia))
                (emit (EvLinks url) st1)) as [s Hloop].
    rewrite Hloop. destruct (existsb (link_raises W url) hrefs); [|done].
    apply Hhandler. by apply (crawl_links_visited_grows _ _ _ _ _ _ _ Hloop).
Qed.

(** *** The frontier along a crawl *)

(** What one call of [crawl_page] does to the frontier and to the log:
    [new] is what the call appends. *)
Definition frontier_step (st st' : state) : Prop :=
  exists new,
    log st' = log st ++ new /\
    visited_urls st' = visited_urls st ∪ list_to_set (visits new) /\
    NoDup (visits new) /\
    (forall u, u ∈ visits new -> u ∉ visited_urls st) /\
    gets new = visits new /\
    marked_before_get new.

Lemma frontier_step_refl st : frontier_step st st.
Proof.
  exists []. cbn. rewrite app_nil_r. repeat split.
  - by rewrite union_empty_r_L.
  - constructor.
  - intros u Hu. by apply elem_of_nil in Hu.
  - apply marked_before_get_nil.
Qed.

Lemma frontier_step_trans st1 st2 st3 :
  frontier_step st1 st2 -> frontier_step st2 st3 -> frontier_step st1 st3.
Proof.
  intros (l1 & Hl1 & Hv1 & Hn1 & Hf1 & Hg1 & Hm1) (l2 & Hl2 & Hv2 & Hn2 & Hf2 & Hg2 & Hm2).
  exists (l1 ++ l2). rewrite visits_app, gets_app. repeat split.
  - rewrite Hl2, Hl1. by rewrite app_assoc.
  - rewrite Hv2, Hv1, list_to_set_app_L. by rewrite (assoc_L (∪)).
  - apply NoDup_app. repeat split; [done| |done].
    intros u Hu1 Hu2. apply (Hf2 u Hu2). rewrite Hv1.
    apply elem_of_union. right. by apply elem_of_list_to_set.
  - intros u Hu Hin. apply elem_of_app in Hu as [Hu|Hu].
    + by apply (Hf1 u).
    + apply (Hf2 u Hu). rewrite Hv1. apply elem_of_union. by left.
  - by rewrite Hg1, Hg2.
  - by apply marked_before_get_app.
Qed.

Lemma frontier_step_quiet st st' new :
  log st' = log st ++ new -> visited_urls st' = visited_urls st ->
  visits new = [] -> gets new = [] -> frontier_step st st'.
Proof.
  intros Hl Hv Hvs Hgs. exists new. rewrite Hvs, Hgs. repeat split; try done.
  - rewrite Hv. cbn. by rewrite union_empty_r_L.
  - constructor.
  - intros u Hu. by apply elem_of_nil in Hu.
  - by apply marked_before_get_no_get.
Qed.

Lemma frontier_step_fetch url st :
  is_valid_url W st url = true ->
  frontier_step st (session_get W url 10 (visit url st)).2.
Proof.
  intros Hvalid. apply is_valid_url_fresh in Hvalid.
  exists [EvVisit url; EvGet (session st) url 10]. cbn. repeat split.
  - by rewrite <- app_assoc.
  - rewrite union_empty_r_L. apply (comm_L (∪)).
  - apply NoDup_singleton.
  - intros u Hu. apply list_elem_of_singleton in Hu. by subst.
  - apply marked_before_get_pair.
Qed.

Lemma frontier_step_rotate st : frontier_step st (rotate_session W st).
Proof.
  destruct (rotate_session_frame st) as (new & (Hv & _ & _ & _ & _ & _ & Hl) & Hnew).
  apply transport_events_silent in Hnew as (? & ? & _).
  by eapply frontier_step_quiet.
Qed.

Lemma crawl_page_frontier_step fuel url depth max_depth st st' :
  crawl_page W DOCUMENT_EXTENSIONS IGNORE_EXTENSIONS fuel url depth max_depth st = Some st' -> frontier_step st st'.
Proof.
  apply (crawl_page_preserves frontier_step (fun _ => True)); try done.
  - apply frontier_step_refl.
  - apply frontier_step_trans.
  - intros u s _. apply frontier_step_fetch.
  - intros u s _. by apply (frontier_step_quiet _ _ [EvDocument u]).
  - intros u s. by apply (frontier_step_quiet _ _ [EvLinks u]).
  - apply frontier_step_rotate.
Qed.

(** *** What a crawl never touches *)

(** Between [st] and [st'] the URL [u] was neither marked visited, nor
    recorded as a document, nor requested. *)
Definition untouched (u : string) (st st' : state) : Prop :=
  (u ∈ visited_urls st' -> u ∈ visited_urls st) /\
  (u ∈ document_urls st' -> u ∈ document_urls st) /\
  exists new, log st' = log st ++ new /\ (u ∉ visits new) /\ (u ∉ gets new).

Lemma untouched_refl u st : untouched u st st.
Proof.
  repeat split; try done. exists []. rewrite app_nil_r.
  repeat split; try done; apply not_elem_of_nil.
Qed.

Lemma untouched_trans u st1 st2 st3 :
  untouched u st1 st2 -> untouched u st2 st3 -> untouched u st1 st3.
Proof.
  intros (Hv1 & Hd1 & l1 & Hl1 & Hn1 & Hg1) (Hv2 & Hd2 & l2 & Hl2 & Hn2 & Hg2).
  repeat split; [auto | auto |].
  exists (l1 ++ l2). rewrite visits_app, gets_app, Hl2, Hl1, app_assoc.
  repeat split; try done; rewrite elem_of_app; tauto.
Qed.

Lemma untouched_only_logs u st st' new :
  only_logs st st' new -> Forall transport_event new -> untouched u st st'.
Proof.
  intros (Hv & Hd & _ & _ & _ & _ & Hl) Hnew.
  apply transport_events_silent in Hnew as (Hvs & Hgs & _).
  repeat split; [by rewrite Hv | by rewrite Hd |].
  exists new. rewrite Hvs, Hgs. repeat split; try done; apply not_elem_of_nil.
Qed.

Lemma untouched_fetch u url st :
  url <> u -> untouched u st (session_get W url 10 (visit url st)).2.
Proof.
  intros Hne. cbn. repeat split; [|done|].
  - intros Hin. apply elem_of_union in Hin as [Hin|Hin]; [|done].
    apply elem_of_singleton in Hin. congruence.
  - exists [EvVisit url; EvGet (session st) url 10]. cbn.
    rewrite <- app_assoc. repeat split; try done;
      intros Hin; apply list_elem_of_singleton in Hin; congruence.
Qed.

Lemma untouched_document u url st : url <> u -> untouched u st (add_document url st).
Proof.
  intros Hne. cbn. repeat split; [done| |].
  - intros Hin. apply elem_of_union in Hin as [Hin|Hin]; [|done].
    apply elem_of_singleton in Hin. congruence.
  - exists [EvDocument url]. repeat split; try done; apply not_elem_of_nil.
Qed.

Lemma untouched_links u url st : untouched u st (emit (EvLinks url) st).
Proof.
  cbn. repeat split; try done.
  exists [EvLinks url]. repeat split; try done; apply not_elem_of_nil.
Qed.

Lemma should_ignore_url_differs u v :
  should_ignore_url u = true -> should_ignore_url v = false -> v <> u.
Proof. intros Hu Hv ->. congruence. Qed.

(** A crawl started on [url] leaves every other ignorable URL alone. *)
Lemma crawl_page_untouched u fuel url depth max_depth st st' :
  should_ignore_url u = true -> url <> u ->
  crawl_page W DOCUMENT_EXTENSIONS IGNORE_EXTENSIONS fuel url depth max_depth st = Some st' -> untouched u st st'.
Proof.
  intros Hu Hne.
  apply (crawl_page_preserves (untouched u) (fun v => v <> u)); try done.
  - apply untouched_refl.
  - apply untouched_trans.
  - intros v Hv. by apply should_ignore_url_differs.
  - intros v s Hv _. by apply untouched_fetch.
  - intros v s Hv. by apply untouched_document.
  - apply untouched_links.
  - intros s. destruct (rotate_session_frame s) as (new & Hlogs & Hnew).
    by eapply untouched_only_logs.
Qed.

(** The link loop of a page leaves every ignorable URL alone, the page
    itself included. *)
Lemma crawl_links_untouched u fuel url depth max_depth hrefs st st' :
  should_ignore_url u = true ->
  crawl_links (fun next_url s => crawl_page W DOCUMENT_EXTENSIONS IGNORE_EXTENSIONS fuel next_url (depth + 1) max_depth s)
              url depth max_depth hrefs st = Some st' ->
  untouched u st st'.
Proof.
  intros Hu.
  apply (crawl_links_preserves (untouched u) (fun v => v <> u)).
  - apply untouched_refl.
  - apply untouched_trans.
  - intros v Hv. by apply should_ignore_url_differs.
  - intros v s Hv. by apply untouched_document.
  - intros v s s' Hv Hcall. by eapply crawl_page_untouched.
Qed.

End CrawlerFacts.

(** ** Scanning without anonymity *)

Section DirectMode.

Variable W : world.
Variables DOCUMENT_EXTENSIONS IGNORE_EXTENSIONS : list string.

(** The session [get_session] builds when [use_tor] is off. *)
Definition direct_session : Session :=
  headers_update direct_profile (requests_Session W).

(** The transport is disabled and the session in use is the direct one. *)
Definition direct_mode (st : state) : Prop :=
  use_tor (anonymous_conn st) = false /\ session st = direct_session.

(** Events a scan may produce in direct mode: requests carry the direct
    session; the control port is never contacted and no user agent is
    drawn. *)
Definition direct_event (e : event) : Prop :=
  match e with
  | EvGet s _ _ => s = direct_session
  | EvVisit _ | EvLinks _ | EvDocument _ | EvTempFile _ => True
  | _ => False
  end.

(** From a direct state, [st'] is direct too, the process environment
    is as it was, and only direct events happened. *)
Definition stays_direct (st st' : state) : Prop :=
  direct_mode st ->
  direct_mode st' /\
  environ st' = environ st /\
  socket_patched st' = socket_patched st /\
  exists new, log st' = log st ++ new /\ Forall direct_event new.

Lemma stays_direct_refl st : stays_direct st st.
Proof. intros H. repeat split; try apply H. exists []. by rewrite app_nil_r. Qed.

Lemma stays_direct_trans st1 st2 st3 :
  stays_direct st1 st2 -> stays_direct st2 st3 -> stays_direct st1 st3.
Proof.
  intros H12 H23 H1.
  destruct (H12 H1) as (H2 & He2 & Hs2 & l1 & Hl1 & Hf1).
  destruct (H23 H2) as (H3 & He3 & Hs3 & l2 & Hl2 & Hf2).
  repeat split; try apply H3; try congruence.
  exists (l1 ++ l2). split; [|by apply Forall_app].
  rewrite Hl2, Hl1. by rewrite app_assoc.
Qed.

Lemma stays_direct_step st st' new :
  anonymous_conn st' = anonymous_conn st -> session st' = session st ->
  environ st' = environ st -> socket_patched st' = socket_patched st ->
  log st' = log st ++ new ->
  (direct_mode st -> Forall direct_event new) ->
  stays_direct st st'.
Proof.
  intros Hc Hs He Hp Hl Hnew [Htor Hdir].
  repeat split; try congruence.
  exists new. split; [done|]. by apply Hnew.
Qed.

Lemma stays_direct_emit e st :
  (direct_mode st -> direct_event e) -> stays_direct st (emit e st).
Proof.
  intros He. apply (stays_direct_step _ _ [e]); try done.
  intros H. constructor; [by apply He | constructor].
Qed.

Lemma rotate_session_direct st : direct_mode st -> rotate_session W st = st.
Proof.
  intros [Htor Hs]. unfold rotate_session, renew_tor_identity, get_session.
  rewrite Htor. cbn. rewrite Htor. fold direct_session. rewrite <- Hs.
  by destruct st.
Qed.

Lemma stays_direct_rotate st : stays_direct st (rotate_session W st).
Proof.
  intros H. rewrite (rotate_session_direct _ H). by apply stays_direct_refl.
Qed.

Lemma stays_direct_get url timeout st :
  stays_direct st (session_get W url timeout st).2.
Proof. apply stays_direct_emit. intros [_ Hs]. exact Hs. Qed.

Lemma crawl_page_stays_direct fuel url depth max_depth st st' :
  crawl_page W DOCUMENT_EXTENSIONS IGNORE_EXTENSIONS fuel url depth max_depth st = Some st' ->
  stays_direct st st'.
Proof.
  apply (crawl_page_preserves W DOCUMENT_EXTENSIONS IGNORE_EXTENSIONS
           stays_direct (fun _ => True)); try done.
  - apply stays_direct_refl.
  - apply stays_direct_trans.
  - intros u s _ _.
    apply (stays_direct_step _ _ [EvVisit u; EvGet (session s) u 10]); try done.
    + cbn. by rewrite <- app_assoc.
    + intros [_ Hs]. by repeat constructor.
  - intros u s _. by apply (stays_direct_step _ _ [EvDocument u]); repeat constructor.
  - intros u s. by apply stays_direct_emit.
  - apply stays_direct_rotate.
Qed.

Lemma download_attempt_stays_direct url st :
  stays_direct st
    (match download_attempt W url st with inl (_, st') => st' | inr st' => st' end).
Proof.
  unfold download_attempt.
  pose proof (stays_direct_get url 30 st) as Hget.
  destruct (session_get W url 30 st) as [response st1]. cbn [snd] in Hget.
  destruct response as [|status_code content_type hrefs stream_ok]; [exact Hget|].
  destruct (negb (status_code =? 200)); [exact Hget|].
  eapply stays_direct_trans; [exact Hget|].
  set (tmp := EvTempFile _).
  destruct stream_ok; by apply (stays_direct_emit tmp).
Qed.

Lemma download_document_stays_direct fuel url :
  forall st, stays_direct st (download_state (download_document W fuel url st)).
Proof.
  induction fuel as [|fuel IH]; intros st; [apply stays_direct_refl|].
  cbn [download_document].
  pose proof (download_attempt_stays_direct url st) as Htry.
  destruct (download_attempt W url st) as [[temp_path st1]|st1]; [exact Htry|].
  eapply stays_direct_trans; [exact Htry|].
  destruct (anonymous st1); [|apply stays_direct_refl].
  eapply stays_direct_trans; [apply stays_direct_rotate | apply IH].
Qed.

End DirectMode.

(** ** Sample sites *)

Module Site.

Import Sample.

Definition home : string := "http://a.example/".

(** A home page that links to a report, a photo and a second page; the
    second page links back, once with a rooted and once with an
    absolute reference. *)
Definition linked_pages (_ : list event) (u : string) : http_result :=
  if String.eqb u home then
    HttpResponse 200 "text/html; charset=utf-8" ["/report.pdf"; "/photo.jpg"; "/next"] true
  else if String.eqb u "http://a.example/next" then
    HttpResponse 200 "text/html" ["/"; "http://a.example/next"; "/photo.jpg"] true
  else if String.eqb u "http://a.example/report.pdf" then
    HttpResponse 200 "application/pdf" [] true
  else HttpResponse 404 EmptyString [] true.

Definition plain_world : world := sample_world false (true, true, true) linked_pages.

(** The first request for the home page raises; asked again, the
    server would answer with a PDF. Everything else, the check of
    [_configure_tor_for_requests] included, succeeds. *)
Definition flaky_home (l : list event) (u : string) : http_result :=
  if String.eqb u home then
    if bool_decide (home ∈ gets l)
    then HttpResponse 200 "application/pdf" [] true
    else HttpRaise
  else HttpResponse 200 "text/plain" [] true.

Definition tor_world : world := sample_world true (true, true, true) flaky_home.

(** [DocScoop(use_tor=True)] in [tor_world], with an empty environment. *)
Definition tor_scoop : state :=
  outcome_state (DocScoop_init tor_world true false 9050 9051 ∅).

(** A server that always raises. *)
Definition dead (_ : list event) (_ : string) : http_result := HttpRaise.

(** A photo whose extension the user has also put on the allow-list
    ([--include-ext jpg]). *)
Definition photo : string := "http://a.example/photo.jpg".
Definition photo_site (_ : list event) (_ : string) : http_result :=
  HttpResponse 200 "image/jpeg" [] true.
Definition photo_world : world := sample_world false (true, true, true) photo_site.
Definition with_jpg : list string := default_DOCUMENT_EXTENSIONS ++ [".jpg"].

(** The same site entered without the final slash; its page links to
    the root. *)
Definition bare : string := "http://a.example".
Definition same_page (_ : list event) (u : string) : http_result :=
  if String.eqb u bare || String.eqb u home then
    HttpResponse 200 "text/html" ["/"] true
  else HttpResponse 404 EmptyString [] true.
Definition bare_world : world := sample_world false (true, true, true) same_page.

(** A home page with a reference that [urljoin] rejects between two
    reports. *)
Definition broken_page (_ : list event) (u : string) : http_result :=
  if String.eqb u home then
    HttpResponse 200 "text/html" ["/a.pdf"; "http://[bad"; "/report.pdf"] true
  else HttpResponse 404 EmptyString [] true.
Definition broken_world : world := sample_world false (true, true, true) broken_page.
Definition broken_tor_world : world := sample_world true (true, true, true) broken_page.

End Site.

Example tor_scoop_is_anonymous :
  anonymous Site.tor_scoop = true /\ use_tor (anonymous_conn Site.tor_scoop) = true.
Proof. split; reflexivity. Qed.

(** The assertions of [test_docscoop.py], on the sample parser. *)
Example test_is_valid_url :
  is_valid_url Site.plain_world (Sample.fresh Site.plain_world false) "https://example.com" = true /\
  is_valid_url Site.plain_world (Sample.fresh Site.plain_world false) "http://test.org/path" = true /\
  is_valid_url Site.plain_world (Sample.fresh Site.plain_world false) "not-a-url" = false /\
  is_valid_url Site.plain_world (Sample.fresh Site.plain_world false) EmptyString = false /\
  is_valid_url Site.plain_world
    (visit "https://visited.com" (Sample.fresh Site.plain_world false)) "https://visited.com" = false.
Proof. repeat split; reflexivity. Qed.

Example test_get_file_extension :
  get_file_extension Site.plain_world "https://example.com/doc.pdf" = ".pdf" /\
  get_file_extension Site.plain_world "https://example.com/path/file.docx" = ".docx" /\
  get_file_extension Site.plain_world "https://example.com/" = EmptyString /\
  get_file_extension Site.plain_world "https://example.com/no-extension" = EmptyString.
Proof. repeat split; reflexivity. Qed.

Example test_classification :
  is_document_url Site.plain_world default_DOCUMENT_EXTENSIONS "https://example.com/data.xlsx" = true /\
  is_document_url Site.plain_world default_DOCUMENT_EXTENSIONS "https://example.com/image.jpg" = false /\
  is_document_url Site.plain_world default_DOCUMENT_EXTENSIONS "https://example.com/page.html" = false /\
  should_ignore_url Site.plain_world default_IGNORE_EXTENSIONS "https://example.com/video.mp4" = true /\
  should_ignore_url Site.plain_world default_IGNORE_EXTENSIONS "https://example.com/document.pdf" = false /\
  should_ignore_url Site.plain_world default_IGNORE_EXTENSIONS "https://example.com/" = false.
Proof. repeat split; reflexivity. Qed.

(** Scenario A of the specification: the report is the only document,
    the photo is never requested. *)
Example scenario_A :
  option_map (fun st => (elements (document_urls st), gets (log st)))
    (crawl Site.plain_world default_DOCUMENT_EXTENSIONS default_IGNORE_EXTENSIONS
           Site.home 1 (Sample.fresh Site.plain_world false))
  = Some (["http://a.example/report.pdf"], [Site.home]).
Proof. vm_compute. reflexivity. Qed.

(** ** The crawl traversal engine *)

(** What one pass through the [try] block of [download_document]
    leaves behind: one request for [url], and nothing changed but the
    log. *)
Lemma download_attempt_frame (W : world) (url : string) (st : state) :
  exists new,
    only_logs st (match download_attempt W url st with
                  | inl (_, st') => st' | inr st' => st' end) new /\
    session (match download_attempt W url st with
             | inl (_, st') => st' | inr st' => st' end) = session st /\
    gets new = [url] /\ visits new = [] /\ newnyms new = 0%nat.
Proof.
  unfold download_attempt, session_get.
  destruct (http_get W (log st) url) as [|status_code content_type hrefs stream_ok].
  - exists [EvGet (session st) url 30]. by repeat split.
  - destruct (negb (status_code =? 200)).
    + exists [EvGet (session st) url 30]. by repeat split.
    + set (tmp := EvTempFile _).
      exists [EvGet (session st) url 30; tmp].
      destruct stream_ok; repeat split; try done; cbn; by rewrite <- app_assoc.
Qed.

(** Downloads never touch the frontier or the document set. *)
Lemma download_document_keeps_sets (W : world) (fuel : nat) (url : string) :
  forall st,
    visited_urls (download_state (download_document W fuel url st)) = visited_urls st /\
    document_urls (download_state (download_document W fuel url st)) = document_urls st.
Proof.
  induction fuel as [|fuel IH]; intros st; [done|].
  cbn [download_document].
  destruct (download_attempt_frame W url st) as (new & (Hv & Hd & _) & _).
  destruct (download_attempt W url st) as [[temp_path st1]|st1]; [done|].
  destruct (anonymous st1); [|done].
  destruct (rotate_session_frame W st1) as (new' & (Hv' & Hd' & _) & _).
  destruct (IH (rotate_session W st1)) as [-> ->]. by rewrite Hv', Hd'.
Qed.

(** C1. Every URL [crawl_page] requests has been added to
    [visited_urls] earlier in the run: the frontier after the call is
    the frontier before it plus the URLs of the [EvVisit] events, and
    the [EvVisit] of a URL precedes its [EvGet] in the log. The
    frontier only grows, during the crawl and during the downloads that
    follow it. [is_valid_url] is false on every URL of the frontier, so
    that no URL already in the frontier is requested and no URL is
    requested twice. With [crawl_fuel] or more fuel the crawl
    returns. *)
Theorem crawl_marks_before_fetching (W : world) (DOCUMENT_EXTENSIONS IGNORE_EXTENSIONS : list string)
    (fuel : nat) (url : string) (depth max_depth : Z) (st : state) :
  (crawl_fuel depth max_depth <= fuel)%nat ->
  exists st' new,
    crawl_page W DOCUMENT_EXTENSIONS IGNORE_EXTENSIONS fuel url depth max_depth st = Some st' /\
    log st' = log st ++ new /\
    visited_urls st' = visited_urls st ∪ list_to_set (visits new) /\
    marked_before_get new /\
    (forall u, u ∈ gets new -> u ∈ visited_urls st') /\
    visited_urls st ⊆ visited_urls st' /\
    (forall fuel' u, visited_urls (download_state (download_document W fuel' u st'))
                     = visited_urls st') /\
    (forall U, U ∈ visited_urls st' -> is_valid_url W st' U = false) /\
    (forall U, U ∈ visited_urls st -> U ∉ gets new) /\
    NoDup (gets new).
Proof.
  intros Hfuel.
  destruct (crawl_page_total W DOCUMENT_EXTENSIONS IGNORE_EXTENSIONS
              fuel url depth max_depth st Hfuel) as [st' Hrun].
  destruct (crawl_page_frontier_step _ _ _ _ _ _ _ _ _ Hrun)
    as (new & Hl & Hv & Hn & Hf & Hg & Hm).
  exists st', new. do 4 (split; [done|]).
  split.
  { intros u Hu. rewrite Hv. rewrite Hg in Hu. apply elem_of_union. right.
    by apply elem_of_list_to_set. }
  split.
  { rewrite Hv. apply union_subseteq_l. }
  split.
  { intros fuel' u. apply download_document_keeps_sets. }
  split.
  { intros U. apply is_valid_url_visited. }
  split.
  { intros U HU Hget. rewrite Hg in Hget. by apply (Hf U). }
  by rewrite Hg.
Qed.

Lemma crawl_marks_before_fetching_witness :
  (crawl_fuel 1 2 <= 3)%nat /\
  exists st' new,
    crawl_page Site.plain_world default_DOCUMENT_EXTENSIONS default_IGNORE_EXTENSIONS
               3 Site.home 1 2 (Sample.fresh Site.plain_world false) = Some st' /\
    log st' = log (Sample.fresh Site.plain_world false) ++ new /\
    visited_urls st'
    = visited_urls (Sample.fresh Site.plain_world false) ∪ list_to_set (visits new) /\
    marked_before_get new /\
    (forall u, u ∈ gets new -> u ∈ visited_urls st') /\
    visited_urls (Sample.fresh Site.plain_world false) ⊆ visited_urls st' /\
    (forall fuel' u,
       visited_urls (download_state (download_document Site.plain_world fuel' u st'))
       = visited_urls st') /\
    (forall U, U ∈ visited_urls st' -> is_valid_url Site.plain_world st' U = false) /\
    (forall U, U ∈ visited_urls (Sample.fresh Site.plain_world false) -> U ∉ gets new) /\
    NoDup (gets new).
Proof.
  split; [vm_compute; lia|].
  apply (crawl_marks_before_fetching Site.plain_world default_DOCUMENT_EXTENSIONS
           default_IGNORE_EXTENSIONS 3 Site.home 1 2).
  vm_compute; lia.
Defined.

(** The sample crawl above requests the two pages, each once, although
    the second page links back to both. *)
Example linked_pages_requests :
  option_map (fun st => gets (log st))
    (crawl_page Site.plain_world default_DOCUMENT_EXTENSIONS default_IGNORE_EXTENSIONS
                3 Site.home 1 2 (Sample.fresh Site.plain_world false))
  = Some [Site.home; "http://a.example/next"].
Proof. vm_compute. reflexivity. Qed.

(** *** The key of deduplication *)

(** What the references before the first raising one are. *)
Lemma links_before_raise_prefix (W : world) (url : string) (before : list string)
    (rest : list string) :
  Forall (fun h => link_raises W url h = false) before ->
  links_before_raise W url (before ++ rest) = before ++ links_before_raise W url rest.
Proof.
  induction 1 as [|h before Hh _ IH]; [done|]. cbn. by rewrite Hh, IH.
Qed.

Lemma links_before_raise_all (W : world) (url : string) (hrefs : list string) :
  existsb (link_raises W url) hrefs = false -> links_before_raise W url hrefs = hrefs.
Proof.
  induction hrefs as [|h rest IH]; [done|]. cbn.
  destruct (link_raises W url h); [done|]. cbn. intros H. by rewrite IH.
Qed.

Lemma links_before_raise_reached (W : world) (url : string) (before : list string)
    (href : string) (after : list string) :
  Forall (fun h => link_raises W url h = false) (before ++ [href]) ->
  href ∈ links_before_raise W url (before ++ href :: after).
Proof.
  intros Hok. change (href :: after) with ([href] ++ after).
  rewrite app_assoc, links_before_raise_prefix by done.
  rewrite !elem_of_app. left. right. by apply list_elem_of_singleton.
Qed.

(** What the handler of [crawl_page] does once the URL is in the
    frontier: at most a rotation. *)
Lemma crawl_page_handler_quiet (W : world) (DOCS IGN : list string) (fuel : nat)
    (url : string) (depth max_depth : Z) (s st' : state) :
  url ∈ visited_urls s ->
  (if anonymous s && (depth <=? 1)
   then crawl_page W DOCS IGN fuel url depth max_depth (rotate_session W s)
   else Some s) = Some st' ->
  visited_urls st' = visited_urls s /\
  document_urls st' = document_urls s /\
  exists rot, log st' = log s ++ rot /\ Forall transport_event rot.
Proof.
  intros Hin Hrun.
  destruct (anonymous s && (depth <=? 1)).
  - destruct (rotate_session_frame W s) as (rot & (Hv & Hd & _ & _ & _ & _ & Hl) & Hrot).
    destruct fuel as [|fuel]; [discriminate|].
    rewrite crawl_page_visited in Hrun by (by rewrite Hv).
    simplify_eq. by eauto.
  - simplify_eq. do 2 (split; [done|]). exists []. by rewrite app_nil_r.
Qed.

(** A call on a URL that passes the guard leaves it in the frontier. *)
Lemma crawl_page_marks (W : world) (DOCS IGN : list string) (fuel : nat)
    (url : string) (depth max_depth : Z) (st st' : state) :
  crawl_page W DOCS IGN fuel url depth max_depth st = Some st' ->
  depth <= max_depth ->
  is_valid_url W st url = true ->
  url ∈ visited_urls st'.
Proof.
  intros Hrun Hdepth Hvalid.
  destruct fuel as [|fuel]; [discriminate|].
  cbn [crawl_page] in Hrun.
  rewrite Hvalid, (proj2 (Z.ltb_ge _ _) Hdepth) in Hrun. cbn [negb orb] in Hrun.
  destruct (session_get W url 10 (visit url st)) as [response st1] eqn:Hget.
  assert (url ∈ visited_urls st1) as Hin.
  { unfold session_get in Hget. simplify_eq. cbn.
    apply elem_of_union. left. by apply elem_of_singleton. }
  assert (forall s, url ∈ visited_urls s ->
            (if anonymous s && (depth <=? 1)
             then crawl_page W DOCS IGN fuel url depth max_depth (rotate_session W s)
             else Some s) = Some st' -> url ∈ visited_urls st') as Hhandler.
  { intros s Hs Hend.
    destruct (crawl_page_handler_quiet W DOCS IGN _ _ _ _ _ _ Hs Hend) as (Hv & _).
    by rewrite Hv. }
  destruct response as [|status_code content_type hrefs stream_ok].
  - by apply (Hhandler st1).
  - destruct (negb (status_code =? 200)); [by simplify_eq|].
    destruct (is_document_url W DOCS url || is_document_type content_type);
      [by simplify_eq|].
    destruct (PyStr.contains "text/html" content_type); [|by simplify_eq].
    destruct (crawl_links W DOCS IGN _ url depth max_depth _ (emit (EvLinks url) st1))
      as [s|] eqn:Hloop; [|discriminate].
    assert (url ∈ visited_urls s) as Hs
      by (by apply (crawl_links_visited_grows W DOCS IGN _ _ _ _ _ _ _ Hloop)).
    destruct (existsb (link_raises W url) hrefs); [by apply (Hhandler s) | by simplify_eq].
Qed.

(** Below the depth bound the loop follows every reference it can:
    whatever its string, the URL is in the frontier afterwards. *)
Lemma crawl_links_follows (W : world) (DOCS IGN : list string) (fuel : nat)
    (url : string) (depth max_depth : Z) (hrefs : list string) :
  depth < max_depth ->
  forall st st',
    crawl_links W DOCS IGN
      (fun next_url s => crawl_page W DOCS IGN fuel next_url (depth + 1) max_depth s)
      url depth max_depth hrefs st = Some st' ->
    forall href, href ∈ hrefs ->
      urlparse_raises W (urljoin W url href) = false ->
      should_ignore_url W IGN (urljoin W url href) = false ->
      is_document_url W DOCS (urljoin W url href) = false ->
      PyStr.truthy (netloc (urlparse W (urljoin W url href))) = true ->
      PyStr.truthy (scheme (urlparse W (urljoin W url href))) = true ->
      urljoin W url href ∈ visited_urls st'.
Proof.
  intros Hdepth. induction hrefs as [|h rest IH]; intros st st' Hrun href Hin;
    [by apply elem_of_nil in Hin|].
  intros Hparse Hign Hdoc Hnet Hsch.
  pose proof Hrun as Hall. cbn [crawl_links] in Hrun.
  apply elem_of_cons in Hin as [-> | Hin].
  - rewrite Hign, Hdoc, (proj2 (Z.ltb_lt _ _) Hdepth) in Hrun.
    destruct (crawl_page W DOCS IGN fuel (urljoin W url h) (depth + 1) max_depth st)
      as [st1|] eqn:Hcall; [|discriminate].
    apply (crawl_links_visited_grows W DOCS IGN _ _ _ _ _ _ _ Hrun).
    destruct (is_valid_url W st (urljoin W url h)) eqn:Hvalid.
    + eapply crawl_page_marks; [exact Hcall | lia | exact Hvalid].
    + apply (crawl_page_visited_grows W DOCS IGN _ _ _ _ _ _ Hcall).
      unfold is_valid_url in Hvalid. rewrite Hparse, Hnet, Hsch in Hvalid.
      cbn in Hvalid. apply negb_false_iff in Hvalid.
      by apply bool_decide_eq_true in Hvalid.
  - destruct (should_ignore_url W IGN (urljoin W url h)); [by eapply IH|].
    destruct (is_document_url W DOCS (urljoin W url h)); [by eapply IH|].
    rewrite (proj2 (Z.ltb_lt _ _) Hdepth) in Hrun.
    destruct (crawl_page W DOCS IGN fuel (urljoin W url h) (depth + 1) max_depth st)
      as [st1|]; [by eapply IH | discriminate].
Qed.

(** The least that a normal form of absolute URLs does: an empty path
    is the root path. *)
Definition normal_form (W : world) (url : string) : string :=
  let parsed := urlparse W url in
  scheme parsed +:+ "://" +:+ netloc parsed
  +:+ (if PyStr.truthy (path parsed) then path parsed else "/").

(** C8 as the specification words it: two URLs with the same normal
    form are one node, so a crawl never requests both. *)
Definition one_node_per_normal_form_as_stated (W : world)
    (DOCUMENT_EXTENSIONS IGNORE_EXTENSIONS : list string)
    (seed : string) (max_depth : Z) (st : state) : Prop :=
  exists st',
    crawl W DOCUMENT_EXTENSIONS IGNORE_EXTENSIONS seed max_depth st = Some st' /\
    forall u v, u ∈ gets (log st') -> v ∈ gets (log st') ->
      normal_form W u = normal_form W v -> u = v.

(** A site entered as [http://a.example] whose page links to [/]:
    the link resolves to [http://a.example/], another string for the
    same node, and the page is requested a second time. *)
Example bare_host_run :
  urljoin Site.bare_world Site.bare "/" = Site.home /\
  normal_form Site.bare_world Site.bare = normal_form Site.bare_world Site.home /\
  option_map (fun st => (gets (log st), elements (visited_urls st)))
    (crawl Site.bare_world default_DOCUMENT_EXTENSIONS default_IGNORE_EXTENSIONS Site.bare 2
           (Sample.fresh Site.bare_world false))
  = Some ([Site.bare; Site.home], [Site.home; Site.bare]).
Proof. repeat split; vm_compute; reflexivity. Qed.

(** C8 fails on that site. *)
Lemma trailing_slash_counterexample :
  ~ one_node_per_normal_form_as_stated Site.bare_world
      default_DOCUMENT_EXTENSIONS default_IGNORE_EXTENSIONS
      Site.bare 2 (Sample.fresh Site.bare_world false).
Proof.
  intros (st' & Hrun & Hone). destruct bare_host_run as (_ & Hnorm & Hgets).
  rewrite Hrun in Hgets. cbn in Hgets. injection Hgets as Hgets _.
  assert (Site.bare = Site.home) as Heq; [|discriminate Heq].
  apply Hone; [| |exact Hnorm]; rewrite Hgets.
  - by left.
  - right. by left.
Qed.

(** C8, amended. The key of deduplication is the URL string itself,
    the start URL as it is given and otherwise the string [urljoin]
    returns. A string that is in the frontier is never requested
    again and no string is requested twice, whatever pages and
    references lead to it. Nothing else is identified: below the
    depth bound, a reference that the loop reaches and that resolves
    to a followable URL is requested unless that very string is in
    the frontier already, also when another string for the same
    resource has been visited. *)
Theorem frontier_key_is_the_string (W : world)
    (DOCUMENT_EXTENSIONS IGNORE_EXTENSIONS : list string)
    (fuel : nat) (url : string) (depth max_depth : Z) (st : state) :
  (crawl_fuel depth max_depth <= fuel)%nat ->
  exists st' new,
    crawl_page W DOCUMENT_EXTENSIONS IGNORE_EXTENSIONS fuel url depth max_depth st = Some st' /\
    log st' = log st ++ new /\
    NoDup (gets new) /\
    (forall u, u ∈ visited_urls st -> u ∉ gets new) /\
    (forall u, u ∈ visited_urls st' ->
       forall fuel2 depth2 max_depth2,
         crawl_page W DOCUMENT_EXTENSIONS IGNORE_EXTENSIONS (S fuel2) u depth2 max_depth2 st'
         = Some st') /\
    (forall content_type hrefs stream_ok before href after,
       depth < max_depth ->
       is_valid_url W st url = true ->
       http_get W (log st ++ [EvVisit url]) url
       = HttpResponse 200 content_type hrefs stream_ok ->
       is_document_url W DOCUMENT_EXTENSIONS url = false ->
       is_document_type content_type = false ->
       PyStr.contains "text/html" content_type = true ->
       hrefs = before ++ href :: after ->
       Forall (fun h => urljoin_raises W url h = false /\
                        urlparse_raises W (urljoin W url h) = false) (before ++ [href]) ->
       should_ignore_url W IGNORE_EXTENSIONS (urljoin W url href) = false ->
       is_document_url W DOCUMENT_EXTENSIONS (urljoin W url href) = false ->
       PyStr.truthy (netloc (urlparse W (urljoin W url href))) = true ->
       PyStr.truthy (scheme (urlparse W (urljoin W url href))) = true ->
       urljoin W url href ∈ visited_urls st \/ urljoin W url href ∈ gets new).
Proof.
  intros Hfuel.
  destruct (crawl_page_total W DOCUMENT_EXTENSIONS IGNORE_EXTENSIONS
              fuel url depth max_depth st Hfuel) as [st' Hrun].
  destruct (crawl_page_frontier_step _ _ _ _ _ _ _ _ _ Hrun)
    as (new & Hl & Hv & Hn & Hf & Hg & Hm).
  exists st', new. do 2 (split; [done|]).
  split; [by rewrite Hg|].
  split; [intros u Hin Hu; rewrite Hg in Hu; by apply (Hf u)|].
  split; [intros u Hin fuel2 depth2 max_depth2; by apply crawl_page_visited|].
  intros content_type hrefs stream_ok before href after
         Hdepth Hvalid Hget Hext Htype Hhtml -> Hok Hign Hdoc Hnet Hsch.
  assert (urljoin W url href ∈ visited_urls st') as Hin.
  { destruct fuel as [|fuel]; [discriminate|].
    cbn [crawl_page] in Hrun.
    rewrite Hvalid, (proj2 (Z.ltb_ge _ _) (Z.lt_le_incl _ _ Hdepth)) in Hrun.
    cbn [negb orb] in Hrun.
    unfold session_get in Hrun. cbn [log visit emit with_visited] in Hrun.
    rewrite Hget in Hrun. cbn [Z.eqb Pos.eqb negb] in Hrun.
    rewrite Hext, Htype, Hhtml in Hrun. cbn [orb] in Hrun.
    match type of Hrun with
    | match crawl_links _ _ _ ?rec _ _ _ _ ?s0 with _ => _ end = _ =>
        destruct (crawl_links W DOCUMENT_EXTENSIONS IGNORE_EXTENSIONS rec url depth max_depth
                    (links_before_raise W url (before ++ href :: after)) s0)
          as [s|] eqn:Hloop; [|discriminate]
    end.
    assert (urljoin W url href ∈ visited_urls s) as Hs.
    { eapply (crawl_links_follows W DOCUMENT_EXTENSIONS IGNORE_EXTENSIONS);
        [exact Hdepth | exact Hloop | | | exact Hign | exact Hdoc | exact Hnet | exact Hsch].
      - apply links_before_raise_reached.
        eapply Forall_impl; [exact Hok|]. intros h [H1 H2]. unfold link_raises.
        by rewrite H1, H2.
      - apply Forall_app in Hok as [_ Hhref].
        by apply Forall_singleton in Hhref as [_ Hhref]. }
    destruct (existsb (link_raises W url) (before ++ href :: after)); [|by simplify_eq].
    assert (url ∈ visited_urls s) as Hurl.
    { apply (crawl_links_visited_grows W DOCUMENT_EXTENSIONS IGNORE_EXTENSIONS
               _ _ _ _ _ _ _ Hloop).
      cbn. apply elem_of_union. left. by apply elem_of_singleton. }
    destruct (crawl_page_handler_quiet W DOCUMENT_EXTENSIONS IGNORE_EXTENSIONS
                _ _ _ _ _ _ Hurl Hrun) as (Hvs & _).
    by rewrite Hvs. }
  rewrite Hv, elem_of_union, elem_of_list_to_set, <- Hg in Hin. exact Hin.
Qed.

Lemma frontier_key_is_the_string_witness :
  let W := Site.bare_world in
  let st := Sample.fresh W false in
  (crawl_fuel 1 2 <= 3)%nat /\
  exists st' new,
    crawl_page W default_DOCUMENT_EXTENSIONS default_IGNORE_EXTENSIONS 3 Site.bare 1 2 st
    = Some st' /\
    log st' = log st ++ new /\
    NoDup (gets new) /\
    (forall u, u ∈ visited_urls st -> u ∉ gets new) /\
    (forall u, u ∈ visited_urls st' ->
       forall fuel2 depth2 max_depth2,
         crawl_page W default_DOCUMENT_EXTENSIONS default_IGNORE_EXTENSIONS
                    (S fuel2) u depth2 max_depth2 st' = Some st') /\
    (forall content_type hrefs stream_ok before href after,
       1 < 2 ->
       is_valid_url W st Site.bare = true ->
       http_get W (log st ++ [EvVisit Site.bare]) Site.bare
       = HttpResponse 200 content_type hrefs stream_ok ->
       is_document_url W default_DOCUMENT_EXTENSIONS Site.bare = false ->
       is_document_type content_type = false ->
       PyStr.contains "text/html" content_type = true ->
       hrefs = before ++ href :: after ->
       Forall (fun h => urljoin_raises W Site.bare h = false /\
                        urlparse_raises W (urljoin W Site.bare h) = false) (before ++ [href]) ->
       should_ignore_url W default_IGNORE_EXTENSIONS (urljoin W Site.bare href) = false ->
       is_document_url W default_DOCUMENT_EXTENSIONS (urljoin W Site.bare href) = false ->
       PyStr.truthy (netloc (urlparse W (urljoin W Site.bare href))) = true ->
       PyStr.truthy (scheme (urlparse W (urljoin W Site.bare href))) = true ->
       urljoin W Site.bare href ∈ visited_urls st \/ urljoin W Site.bare href ∈ gets new).
Proof.
  intros W st. split; [vm_compute; lia|].
  apply (frontier_key_is_the_string W default_DOCUMENT_EXTENSIONS default_IGNORE_EXTENSIONS
           3 Site.bare 1 2 st).
  vm_compute; lia.
Defined.

(** On that site the reference [/] of the first page is followed,
    although the page it leads to has just been requested under its
    other name. *)
Example bare_host_link_followed :
  let W := Site.bare_world in
  let st := Sample.fresh W false in
  is_valid_url W st Site.bare = true /\
  http_get W (log st ++ [EvVisit Site.bare]) Site.bare
  = HttpResponse 200 "text/html" ["/"] true /\
  Forall (fun h => urljoin_raises W Site.bare h = false /\
                   urlparse_raises W (urljoin W Site.bare h) = false) ["/"] /\
  should_ignore_url W default_IGNORE_EXTENSIONS (urljoin W Site.bare "/") = false /\
  is_document_url W default_DOCUMENT_EXTENSIONS (urljoin W Site.bare "/") = false /\
  PyStr.truthy (netloc (urlparse W (urljoin W Site.bare "/"))) = true /\
  PyStr.truthy (scheme (urlparse W (urljoin W Site.bare "/"))) = true.
Proof.
  intros W st. do 2 (split; [reflexivity|]).
  split; [by repeat constructor|]. by repeat split.
Qed.

(** The URLs that [crawl_page] is called on from inside the crawl have
    all been parsed: the guard that accepts a URL has parsed it, and
    so has the loop for every reference it gets through. *)
Lemma is_valid_url_parses (W : world) (st : state) (url : string) :
  is_valid_url W st url = true -> urlparse_raises W url = false.
Proof.
  unfold is_valid_url. intros H. apply andb_true_iff in H as [H _].
  by apply negb_true_iff in H.
Qed.

Lemma links_before_raise_parsed (W : world) (url : string) (hrefs : list string) :
  forall href, href ∈ links_before_raise W url hrefs ->
    urljoin_raises W url href = false /\ urlparse_raises W (urljoin W url href) = false.
Proof.
  induction hrefs as [|h rest IH]; intros href Hin; cbn in Hin;
    [by apply elem_of_nil in Hin|].
  destruct (link_raises W url h) eqn:Hh; [by apply elem_of_nil in Hin|].
  apply elem_of_cons in Hin as [-> | Hin]; [|by apply IH].
  unfold link_raises in Hh. by apply orb_false_iff in Hh.
Qed.

(** *** Ignored extensions *)

(** C6 as the specification words it: whatever the seed, no URL with
    an ignored extension enters the frontier or the document set. *)
Definition ignore_wins_as_stated (W : world)
    (DOCUMENT_EXTENSIONS IGNORE_EXTENSIONS : list string)
    (seed : string) (max_depth : Z) (st : state) : Prop :=
  forall st',
    crawl W DOCUMENT_EXTENSIONS IGNORE_EXTENSIONS seed max_depth st = Some st' ->
    forall u, should_ignore_url W IGNORE_EXTENSIONS u = true ->
      (u ∈ visited_urls st' -> u ∈ visited_urls st) /\
      (u ∈ document_urls st' -> u ∈ document_urls st).

(** The seed is never tested against the ignore list: a seed ending in
    [.jpg], with [.jpg] on both lists, is marked visited, requested and
    recorded as a document. *)
Example photo_seed_run :
  should_ignore_url Site.photo_world default_IGNORE_EXTENSIONS Site.photo = true /\
  is_document_url Site.photo_world Site.with_jpg Site.photo = true /\
  option_map (fun st => (elements (visited_urls st), elements (document_urls st), gets (log st)))
    (crawl Site.photo_world Site.with_jpg default_IGNORE_EXTENSIONS Site.photo 1
           (Sample.fresh Site.photo_world false))
  = Some ([Site.photo], [Site.photo], [Site.photo]).
Proof. repeat split; vm_compute; reflexivity. Qed.

(** C6 fails on that seed. *)
Lemma ignore_wins_counterexample :
  ~ ignore_wins_as_stated Site.photo_world Site.with_jpg default_IGNORE_EXTENSIONS
      Site.photo 1 (Sample.fresh Site.photo_world false).
Proof.
  intros Hclaim. destruct photo_seed_run as (Hign & _ & Hrun).
  destruct (crawl _ _ _ _ _ _) as [st'|] eqn:Hcrawl; [|discriminate].
  destruct (Hclaim st' Hcrawl Site.photo Hign) as [_ Hdoc].
  cbn in Hrun. injection Hrun as _ Hdocs _.
  apply (not_elem_of_empty (C := gset string) Site.photo), Hdoc.
  apply elem_of_elements. rewrite Hdocs. by apply list_elem_of_singleton.
Qed.

(** C6, amended. A crawl started on [url] never marks visited, never
    records as a document and never requests a URL [u] other than
    [url] whose extension is on the ignore list, whether or not that
    extension is on the allow-list too: a link that resolves to [u] is
    skipped before the allow-list is looked at. *)
Theorem ignored_links_never_added (W : world)
    (DOCUMENT_EXTENSIONS IGNORE_EXTENSIONS : list string)
    (fuel : nat) (url : string) (depth max_depth : Z) (st : state) (u : string) :
  (crawl_fuel depth max_depth <= fuel)%nat ->
  should_ignore_url W IGNORE_EXTENSIONS u = true ->
  u <> url ->
  exists st' new,
    crawl_page W DOCUMENT_EXTENSIONS IGNORE_EXTENSIONS fuel url depth max_depth st = Some st' /\
    log st' = log st ++ new /\
    (u ∈ visited_urls st' -> u ∈ visited_urls st) /\
    (u ∈ document_urls st' -> u ∈ document_urls st) /\
    (u ∉ gets new) /\
    (forall recurse page d m href rest s,
       urljoin W page href = u ->
       crawl_links W DOCUMENT_EXTENSIONS IGNORE_EXTENSIONS recurse page d m (href :: rest) s
       = crawl_links W DOCUMENT_EXTENSIONS IGNORE_EXTENSIONS recurse page d m rest s).
Proof.
  intros Hfuel Hign Hne.
  destruct (crawl_page_total W DOCUMENT_EXTENSIONS IGNORE_EXTENSIONS
              fuel url depth max_depth st Hfuel) as [st' Hrun].
  destruct (crawl_page_untouched W DOCUMENT_EXTENSIONS IGNORE_EXTENSIONS
              u fuel url depth max_depth st st' Hign (not_eq_sym Hne) Hrun)
    as (Hv & Hd & new & Hl & _ & Hg).
  exists st', new. do 5 (split; [done|]).
  intros recurse page d m href rest s Hu. cbn [crawl_links].
  by rewrite Hu, Hign.
Qed.

Lemma ignored_links_never_added_witness :
  (crawl_fuel 1 2 <= 3)%nat /\
  should_ignore_url Site.plain_world default_IGNORE_EXTENSIONS Site.photo = true /\
  Site.photo <> Site.home /\
  exists st' new,
    crawl_page Site.plain_world Site.with_jpg default_IGNORE_EXTENSIONS 3 Site.home 1 2
               (Sample.fresh Site.plain_world false) = Some st' /\
    log st' = log (Sample.fresh Site.plain_world false) ++ new /\
    (Site.photo ∈ visited_urls st' ->
     Site.photo ∈ visited_urls (Sample.fresh Site.plain_world false)) /\
    (Site.photo ∈ document_urls st' ->
     Site.photo ∈ document_urls (Sample.fresh Site.plain_world false)) /\
    (Site.photo ∉ gets new) /\
    (forall recurse page d m href rest s,
       urljoin Site.plain_world page href = Site.photo ->
       crawl_links Site.plain_world Site.with_jpg default_IGNORE_EXTENSIONS
                   recurse page d m (href :: rest) s
       = crawl_links Site.plain_world Site.with_jpg default_IGNORE_EXTENSIONS
                     recurse page d m rest s).
Proof.
  split; [vm_compute; lia|]. split; [reflexivity|]. split; [discriminate|].
  apply (ignored_links_never_added Site.plain_world Site.with_jpg default_IGNORE_EXTENSIONS
           3 Site.home 1 2 (Sample.fresh Site.plain_world false) Site.photo).
  - vm_compute; lia.
  - reflexivity.
  - discriminate.
Defined.

(** *** Depth zero *)

(** C3 as the specification words it: with [max_depth = 0] a valid
    seed is requested (and nothing else), an invalid one is not, and
    no links are extracted. *)
Definition depth_zero_fetches_seed_as_stated (W : world)
    (DOCUMENT_EXTENSIONS IGNORE_EXTENSIONS : list string)
    (seed : string) (st : state) : Prop :=
  exists st' new,
    crawl W DOCUMENT_EXTENSIONS IGNORE_EXTENSIONS seed 0 st = Some st' /\
    log st' = log st ++ new /\
    gets new = (if is_valid_url W st seed then [seed] else []) /\
    links_extracted new = [].

(** C3 fails on a valid seed: it is not requested. *)
Lemma depth_zero_counterexample :
  ~ depth_zero_fetches_seed_as_stated Site.plain_world
      default_DOCUMENT_EXTENSIONS default_IGNORE_EXTENSIONS
      Site.home (Sample.fresh Site.plain_world false).
Proof.
  intros (st' & new & Hrun & Hlog & Hgets & _).
  vm_compute in Hrun. injection Hrun as <-.
  cbn in Hlog. subst new. vm_compute in Hgets. discriminate.
Qed.

(** C3, amended. With [max_depth = 0] the crawl of [scan_url] returns
    at once, whatever the seed: it starts at depth 1, which is already
    beyond the bound. No URL is requested, the seed included; no links
    are extracted; frontier, document set and log are as before. *)
Theorem crawl_depth_zero_is_noop (W : world)
    (DOCUMENT_EXTENSIONS IGNORE_EXTENSIONS : list string) (seed : string) (st : state) :
  crawl W DOCUMENT_EXTENSIONS IGNORE_EXTENSIONS seed 0 st = Some st.
Proof. unfold crawl, crawl_fuel. by apply crawl_page_too_deep. Qed.

(** *** Failure of a crawl request *)

(** When the request of [crawl_page] raises, the call ends in the
    state right after the request if anonymity is off or the depth is
    greater than 1; otherwise it ends right after the rotation and the
    new session: the recursive call that follows finds [url] in the
    frontier and returns without requesting anything. *)
Lemma crawl_page_fetch_raises (W : world) (DOCUMENT_EXTENSIONS IGNORE_EXTENSIONS : list string)
    (fuel : nat) (url : string) (depth max_depth : Z) (st : state) :
  depth <= max_depth ->
  is_valid_url W st url = true ->
  http_get W (log (visit url st)) url = HttpRaise ->
  crawl_page W DOCUMENT_EXTENSIONS IGNORE_EXTENSIONS (S (S fuel)) url depth max_depth st
  = Some (if anonymous st && (depth <=? 1)
          then rotate_session W (session_get W url 10 (visit url st)).2
          else (session_get W url 10 (visit url st)).2).
Proof.
  intros Hdepth Hvalid Hraise.
  assert (url ∈ visited_urls
            (rotate_session W (session_get W url 10 (visit url st)).2)) as Hin.
  { destruct (rotate_session_frame W (session_get W url 10 (visit url st)).2)
      as (new & (-> & _) & _).
    cbn. apply elem_of_union. left. by apply elem_of_singleton. }
  pose proof (crawl_page_visited W DOCUMENT_EXTENSIONS IGNORE_EXTENSIONS
                fuel url depth max_depth _ Hin) as Hretry.
  remember (S fuel) as fuel1 eqn:Hfuel1.
  cbn [crawl_page]. rewrite Hvalid, (proj2 (Z.ltb_ge _ _) Hdepth). cbn [negb orb].
  unfold session_get at 1. rewrite Hraise.
  change (anonymous (emit _ (visit url st))) with (anonymous st).
  destruct (anonymous st && (depth <=? 1)); [exact Hretry | done].
Qed.

(** C2, at the failing input. Anonymity is active, the seed is crawled
    at depth 1 and its request raises. One rotation follows (one
    [NEWNYM]), but the seed is requested once, not twice: no retry
    reaches the network, although the server would now answer with a
    document. *)
Theorem top_level_retry_requests_nothing :
  option_map
    (fun st' => (gets (log st'), newnyms (log st'), elements (document_urls st'),
                 http_get Site.tor_world (log st') Site.home))
    (crawl Site.tor_world default_DOCUMENT_EXTENSIONS default_IGNORE_EXTENSIONS
           Site.home 2 Site.tor_scoop)
  = Some ([Site.home], 1%nat, [], HttpResponse 200 "application/pdf" [] true).
Proof. vm_compute. reflexivity. Qed.

(** ** The retrieval and retry coordinator *)

Lemma newnyms_app l1 l2 : newnyms (l1 ++ l2) = (newnyms l1 + newnyms l2)%nat.
Proof. unfold newnyms. by rewrite omap_app, length_app. Qed.

(** Against a server that raises on every request for [url], an
    anonymous download makes as many attempts as the stack has room for:
    [n] units of fuel buy exactly [n] requests. *)
Lemma download_document_never_gives_up (W : world) (url : string) :
  (forall l, http_get W l url = HttpRaise) ->
  forall n st,
    anonymous st = true ->
    exists st' new,
      download_document W n url st = RecursionError st' /\
      log st' = log st ++ new /\
      gets new = replicate n url.
Proof.
  intros Hdead. induction n as [|n IH]; intros st Hanon.
  - exists st, []. by rewrite app_nil_r.
  - cbn [download_document]. unfold download_attempt, session_get.
    rewrite Hdead. cbn [anonymous emit]. rewrite Hanon.
    set (st1 := emit _ st).
    destruct (rotate_session_frame W st1) as (l1 & (_ & _ & Ha & _ & _ & _ & Hl1) & Hsilent).
    apply transport_events_silent in Hsilent as (_ & Hg1 & _).
    destruct (IH (rotate_session W st1)) as (st' & new & Hrun & Hl & Hg).
    { by rewrite Ha. }
    exists st', ([EvGet (session st) url 30] ++ l1 ++ new). split; [done|]. split.
    + rewrite Hl, Hl1. cbn. by rewrite <- !app_assoc.
    + rewrite !gets_app, Hg1, Hg. done.
Qed.

(** What the two lines of the handler do, seen from outside. With the
    transport off nothing happens but the change of session; with it
    on, the control port is contacted first and a user agent is drawn
    last. *)
Lemma rotate_session_shape (W : world) (s : state) :
  (use_tor (anonymous_conn s) = false ->
   rotate_session W s = set_session (headers_update direct_profile (requests_Session W)) s) /\
  (use_tor (anonymous_conn s) = true ->
   exists mid ua,
     log (rotate_session W s)
     = log s ++ EvControl (control_port (anonymous_conn s)) :: mid ++ [EvRandom] /\
     newnyms mid
     = (if control_connect_ok W (log s)
           && control_auth_ok W (log s ++ [EvControl (control_port (anonymous_conn s))])
        then 1 else 0)%nat /\
     ua ∈ user_agents /\
     session (rotate_session W s) = headers_update (anonymous_profile ua) (requests_Session W)).
Proof.
  unfold rotate_session, renew_tor_identity, get_session, _get_random_user_agent.
  split; intros Htor; rewrite Htor; cbn [negb]; [by rewrite Htor|].
  assert (forall k, nth (k mod List.length user_agents)%nat user_agents EmptyString
                    ∈ user_agents) as Hpool.
  { intros k. apply list_elem_of_In, nth_In. apply Nat.mod_upper_bound. discriminate. }
  destruct (control_connect_ok W (log s)); cbn [negb andb].
  2: { cbn [anonymous_conn emit]. rewrite Htor. cbn.
       exists [], (nth (random_choice W (log s ++ [EvControl (control_port (anonymous_conn s))])
                       mod List.length user_agents)%nat user_agents EmptyString).
       split; [by rewrite <- app_assoc|]. split; [done|]. split; [apply Hpool | done]. }
  cbn [log emit anonymous_conn].
  destruct (control_auth_ok W _); cbn [negb].
  2: { cbn [anonymous_conn emit]. rewrite Htor. cbn.
       eexists [EvAuth _], _. split; [by rewrite <- !app_assoc|].
       split; [done|]. split; [apply Hpool | done]. }
  destruct (control_signal_ok W _); cbn [negb anonymous_conn emit]; rewrite Htor; cbn.
  - eexists [EvAuth _; EvNewnym; EvSleep 5], _. split; [by rewrite <- !app_assoc|].
    split; [done|]. split; [apply Hpool | done].
  - eexists [EvAuth _; EvNewnym], _. split; [by rewrite <- !app_assoc|].
    split; [done|]. split; [apply Hpool | done].
Qed.

Lemma download_document_only_logs (W : world) (fuel : nat) (url : string) :
  forall st, exists new, only_logs st (download_state (download_document W fuel url st)) new.
Proof.
  induction fuel as [|fuel IH]; intros st; [exists []; apply only_logs_refl|].
  cbn [download_document].
  destruct (download_attempt_frame W url st) as (l1 & Hl1 & _).
  destruct (download_attempt W url st) as [[found st1]|st1]; [by exists l1|].
  destruct (anonymous st1); [|by exists l1].
  destruct (rotate_session_frame W st1) as (l2 & Hl2 & _).
  destruct (IH (rotate_session W st1)) as (l3 & Hl3).
  exists (l1 ++ l2 ++ l3). eapply only_logs_trans; [exact Hl1|].
  eapply only_logs_trans; [exact Hl2 | exact Hl3].
Qed.

(** Every call begins with the request, made with the session of the
    moment. *)
Lemma download_document_first_event (W : world) (fuel : nat) (url : string) (st : state) :
  exists tail,
    log (download_state (download_document W (S fuel) url st))
    = log st ++ EvGet (session st) url 30 :: tail.
Proof.
  cbn [download_document].
  assert (exists tail, log (match download_attempt W url st with
                            | inl (_, s) | inr s => s end)
                       = log st ++ EvGet (session st) url 30 :: tail) as (t1 & Ht1).
  { unfold download_attempt, session_get.
    destruct (http_get W (log st) url) as [|status_code content_type hrefs stream_ok];
      [by exists []|].
    destruct (negb (status_code =? 200)); [by exists []|].
    destruct stream_ok; eexists [_]; cbn; by rewrite <- app_assoc. }
  destruct (download_attempt W url st) as [[found st1]|st1]; [by exists t1|].
  destruct (anonymous st1); [|by exists t1].
  destruct (rotate_session_frame W st1) as (l2 & (_ & _ & _ & _ & _ & _ & Hl2) & _).
  destruct (download_document_only_logs W fuel url (rotate_session W st1))
    as (l3 & (_ & _ & _ & _ & _ & _ & Hl3)).
  exists (t1 ++ l2 ++ l3). rewrite Hl3, Hl2, Ht1.
  rewrite <- !app_assoc. reflexivity.
Qed.

(** With the flag on but the transport off, the attempts against a
    server that always raises follow one another with nothing in
    between. *)
Lemma download_document_fallback_loop (W : world) (url : string) :
  (forall l, http_get W l url = HttpRaise) ->
  forall n st,
    anonymous st = true ->
    use_tor (anonymous_conn st) = false ->
    exists st' new,
      download_document W n url st = RecursionError st' /\
      log st' = log st ++ new /\
      List.length new = n /\
      Forall (fun e => exists s, e = EvGet s url 30) new.
Proof.
  intros Hdead. induction n as [|n IH]; intros st Hanon Htor.
  - exists st, []. by rewrite app_nil_r.
  - cbn [download_document]. unfold download_attempt, session_get.
    rewrite Hdead. cbn [anonymous emit]. rewrite Hanon.
    set (st1 := emit _ st).
    rewrite (proj1 (rotate_session_shape W st1) Htor).
    destruct (IH (set_session (headers_update direct_profile (requests_Session W)) st1))
      as (st' & new & Hrun & Hl & Hlen & Hall); [done | done |].
    exists st', (EvGet (session st) url 30 :: new). split; [done|]. split.
    + rewrite Hl. cbn. by rewrite <- app_assoc.
    + split; [cbn; by rewrite Hlen|]. constructor; [by eexists | done].
Qed.

(** C7. What [download_document] does when its [try] block raises, in
    the request or while the body is streamed. The test is the flag
    [self.anonymous], which [__init__] sets from its argument and
    nothing ever clears. With the flag off the method returns [None]
    at once, after the single request. With the flag on it calls
    [renew_tor_identity] and [get_session] and then itself, so the
    same request follows with the session just made. If the
    transport is active, the control port is contacted first, the
    signal is sent when connection and authentication succeed, and
    the new session carries a user agent of the pool. If the
    transport is off, as it is after a fallback of [start_tor],
    nothing is rotated at all: the retry follows at once, with a
    session of the direct profile. Nothing counts the attempts:
    against a server that always raises they go on until the
    recursion limit, where [RecursionError] leaves the method. *)
Theorem download_failure_policy (W : world) (url : string) (st st1 : state) :
  download_attempt W url st = inr st1 ->
  (anonymous st = false ->
     (forall fuel, download_document W (S fuel) url st = Returned None st1) /\
     session st1 = session st /\
     exists new, log st1 = log st ++ new /\ gets new = [url] /\ newnyms new = 0%nat) /\
  (anonymous st = true ->
     exists st2 rot,
       only_logs st1 st2 rot /\
       (forall fuel,
          download_document W (S fuel) url st = download_document W fuel url st2) /\
       (forall fuel, exists tail,
          log (download_state (download_document W (S fuel) url st2))
          = log st2 ++ EvGet (session st2) url 30 :: tail) /\
       (use_tor (anonymous_conn st) = true ->
          exists mid ua,
            rot = EvControl (control_port (anonymous_conn st)) :: mid ++ [EvRandom] /\
            newnyms mid
            = (if control_connect_ok W (log st1)
                  && control_auth_ok W
                       (log st1 ++ [EvControl (control_port (anonymous_conn st))])
               then 1 else 0)%nat /\
            ua ∈ user_agents /\
            session st2 = headers_update (anonymous_profile ua) (requests_Session W)) /\
       (use_tor (anonymous_conn st) = false ->
          rot = [] /\
          session st2 = headers_update direct_profile (requests_Session W))) /\
  (anonymous st = true ->
   (forall l, http_get W l url = HttpRaise) ->
   forall n,
     exists st' new,
       download_document W n url st = RecursionError st' /\
       log st' = log st ++ new /\
       gets new = replicate n url /\
       (use_tor (anonymous_conn st) = false ->
          List.length new = n /\ newnyms new = 0%nat)).
Proof.
  intros Hraise.
  destruct (download_attempt_frame W url st) as (new & Hlogs & Hsess & Hg & _ & Hn).
  rewrite Hraise in Hlogs, Hsess. destruct Hlogs as (_ & _ & Hanon & Hconn & _ & _ & Hl).
  split; [|split].
  - intros Ha. split.
    + intros fuel. cbn [download_document]. by rewrite Hraise, Hanon, Ha.
    + split; [exact Hsess|]. by exists new.
  - intros Ha.
    destruct (rotate_session_frame W st1) as (rot & Hrot & _).
    exists (rotate_session W st1), rot. split; [exact Hrot|].
    split; [intros fuel; cbn [download_document]; by rewrite Hraise, Hanon, Ha|].
    split; [intros fuel; apply download_document_first_event|].
    destruct Hrot as (_ & _ & _ & _ & _ & _ & Hlr).
    rewrite <- Hconn. split; intros Htor.
    + destruct (proj2 (rotate_session_shape W st1) Htor) as (mid & ua & Hlog & Hnym & Hua & Hs).
      exists mid, ua. rewrite Hlr in Hlog. apply app_inv_head in Hlog. by subst rot.
    + rewrite (proj1 (rotate_session_shape W st1) Htor) in Hlr |- *.
      split; [|done]. cbn in Hlr.
      rewrite <- (app_nil_r (log st1)) in Hlr at 1. by apply app_inv_head in Hlr.
  - intros Ha Hdead n.
    destruct (download_document_never_gives_up W url Hdead n st Ha) as (st' & l & Hrun & Hll & Hgl).
    exists st', l. do 3 (split; [done|]).
    intros Htor.
    destruct (download_document_fallback_loop W url Hdead n st Ha Htor)
      as (st'' & l' & Hrun' & Hll' & Hlen & Hall).
    rewrite Hrun in Hrun'. injection Hrun' as <-.
    rewrite Hll in Hll'. apply app_inv_head in Hll'. subst l'.
    split; [done|].
    clear -Hall. induction Hall as [|e l [s ->] _ IH]; [done|]. exact IH.
Qed.

(** The witness is the failing input: [DocScoop(use_tor=True)] where
    no Tor answers, so that [start_tor] has fallen back, and a server
    that raises on every request. *)
Lemma download_failure_policy_witness :
  let W := Sample.sample_world false (true, true, true) Site.dead in
  let st := outcome_state (DocScoop_init W true false 9050 9051 ∅) in
  let url := "http://a.example/report.pdf" in
  let st1 := emit (EvGet (session st) url 30) st in
  download_attempt W url st = inr st1 /\
  (anonymous st = false ->
     (forall fuel, download_document W (S fuel) url st = Returned None st1) /\
     session st1 = session st /\
     exists new, log st1 = log st ++ new /\ gets new = [url] /\ newnyms new = 0%nat) /\
  (anonymous st = true ->
     exists st2 rot,
       only_logs st1 st2 rot /\
       (forall fuel,
          download_document W (S fuel) url st = download_document W fuel url st2) /\
       (forall fuel, exists tail,
          log (download_state (download_document W (S fuel) url st2))
          = log st2 ++ EvGet (session st2) url 30 :: tail) /\
       (use_tor (anonymous_conn st) = true ->
          exists mid ua,
            rot = EvControl (control_port (anonymous_conn st)) :: mid ++ [EvRandom] /\
            newnyms mid
            = (if control_connect_ok W (log st1)
                  && control_auth_ok W
                       (log st1 ++ [EvControl (control_port (anonymous_conn st))])
               then 1 else 0)%nat /\
            ua ∈ user_agents /\
            session st2 = headers_update (anonymous_profile ua) (requests_Session W)) /\
       (use_tor (anonymous_conn st) = false ->
          rot = [] /\
          session st2 = headers_update direct_profile (requests_Session W))) /\
  (anonymous st = true ->
   (forall l, http_get W l url = HttpRaise) ->
   forall n,
     exists st' new,
       download_document W n url st = RecursionError st' /\
       log st' = log st ++ new /\
       gets new = replicate n url /\
       (use_tor (anonymous_conn st) = false ->
          List.length new = n /\ newnyms new = 0%nat)).
Proof.
  intros W st url st1. split; [reflexivity|].
  apply (download_failure_policy W url st st1).
  reflexivity.
Defined.

(** The failing input, run: the scoop was asked for anonymity, the
    transport has fallen back, and a download that fails is repeated
    until the recursion limit (here four calls deep) without a single
    contact of the control port, where a scoop built without
    anonymity gives the document up after one request. *)
Example fallback_download_run :
  let W := Sample.sample_world false (true, true, true) Site.dead in
  let st := outcome_state (DocScoop_init W true false 9050 9051 ∅) in
  let r := download_document W 4 "http://a.example/report.pdf" st in
  (anonymous st, use_tor (anonymous_conn st),
   match r with RecursionError _ => true | Returned _ _ => false end,
   omap (fun e => match e with
                  | EvProbe _ => None
                  | EvGet _ u _ => Some u
                  | _ => Some EmptyString
                  end) (log (download_state r)))
  = (true, false, true, replicate 4 "http://a.example/report.pdf").
Proof. vm_compute. reflexivity. Qed.

(** With the transport active every failure is followed by a signal
    and a new session: three calls deep, that is three attempts and
    three rotations, then [RecursionError]; without anonymity, one
    request and [None]. *)
Example dead_server_anonymous :
  let W := Sample.sample_world true (true, true, true) Site.dead in
  let r := download_document W 3 "http://a.example/report.pdf" (Sample.fresh W true) in
  (match r with RecursionError _ => true | Returned _ _ => false end,
   gets (log (download_state r)), newnyms (log (download_state r)))
  = (true, replicate 3 "http://a.example/report.pdf", 3%nat).
Proof. vm_compute. reflexivity. Qed.

Example dead_server_direct :
  let W := Sample.sample_world false (true, true, true) Site.dead in
  let r := download_document W 3 "http://a.example/report.pdf" (Sample.fresh W false) in
  (match r with Returned None _ => true | _ => false end,
   gets (log (download_state r)), newnyms (log (download_state r)))
  = (true, ["http://a.example/report.pdf"], 0%nat).
Proof. vm_compute. reflexivity. Qed.

(** *** The suffix of the temporary file *)

Example suffix_pdf : content_type_suffix "application/pdf" = ".pdf".
Proof. reflexivity. Qed.
Example suffix_doc : content_type_suffix "application/msword" = ".doc".
Proof. reflexivity. Qed.
Example suffix_docx :
  content_type_suffix
    "application/vnd.openxmlformats-officedocument.wordprocessingml.document" = ".docx".
Proof. reflexivity. Qed.
Example suffix_other : content_type_suffix "application/octet-stream" = ".txt".
Proof. reflexivity. Qed.
Example suffix_absent : content_type_suffix EmptyString = ".txt".
Proof. reflexivity. Qed.

(** C10. When the request succeeds with status 200, the body streams
    through and the path of the URL has no extension, the temporary
    file is named with a suffix chosen from the declared content type:
    [.pdf] when it mentions [application/pdf], else [.doc] when it
    mentions [application/msword], else [.docx] when it mentions
    [application/vnd.openxmlformats], and [.txt] for every other
    content type. *)
Theorem download_suffix_from_content_type (W : world) (fuel : nat) (url : string)
    (st : state) (content_type : string) (hrefs : list string) :
  http_get W (log st) url = HttpResponse 200 content_type hrefs true ->
  get_file_extension W url = EmptyString ->
  exists suffix st',
    download_document W (S fuel) url st
    = Returned (Some (mkstemp_name W (log st ++ [EvGet (session st) url 30]) +:+ suffix)) st' /\
    EvTempFile (mkstemp_name W (log st ++ [EvGet (session st) url 30]) +:+ suffix) ∈ log st' /\
    (PyStr.contains "application/pdf" content_type = true -> suffix = ".pdf") /\
    (PyStr.contains "application/pdf" content_type = false ->
     PyStr.contains "application/msword" content_type = true -> suffix = ".doc") /\
    (PyStr.contains "application/pdf" content_type = false ->
     PyStr.contains "application/msword" content_type = false ->
     PyStr.contains "application/vnd.openxmlformats" content_type = true ->
     suffix = ".docx") /\
    (PyStr.contains "application/pdf" content_type = false ->
     PyStr.contains "application/msword" content_type = false ->
     PyStr.contains "application/vnd.openxmlformats" content_type = false ->
     suffix = ".txt").
Proof.
  intros Hget Hext.
  exists (content_type_suffix content_type). eexists. split.
  - cbn [download_document]. unfold download_attempt, session_get.
    rewrite Hget, Hext. reflexivity.
  - split.
    + cbn. apply elem_of_app. right. by apply list_elem_of_singleton.
    + unfold content_type_suffix.
      repeat split; intros; repeat match goal with H : _ = _ |- _ => rewrite H end; done.
Qed.

Lemma download_suffix_from_content_type_witness :
  let W := Sample.sample_world false (true, true, true)
             (fun _ _ => HttpResponse 200 "application/msword" [] true) in
  let st := Sample.fresh W false in
  http_get W (log st) "http://a.example/download"
  = HttpResponse 200 "application/msword" [] true /\
  get_file_extension W "http://a.example/download" = EmptyString /\
  exists suffix st',
    download_document W 1 "http://a.example/download" st
    = Returned (Some (mkstemp_name W (log st ++ [EvGet (session st) "http://a.example/download" 30])
                      +:+ suffix)) st' /\
    EvTempFile (mkstemp_name W (log st ++ [EvGet (session st) "http://a.example/download" 30])
                +:+ suffix) ∈ log st' /\
    (PyStr.contains "application/pdf" "application/msword" = true -> suffix = ".pdf") /\
    (PyStr.contains "application/pdf" "application/msword" = false ->
     PyStr.contains "application/msword" "application/msword" = true -> suffix = ".doc") /\
    (PyStr.contains "application/pdf" "application/msword" = false ->
     PyStr.contains "application/msword" "application/msword" = false ->
     PyStr.contains "application/vnd.openxmlformats" "application/msword" = true ->
     suffix = ".docx") /\
    (PyStr.contains "application/pdf" "application/msword" = false ->
     PyStr.contains "application/msword" "application/msword" = false ->
     PyStr.contains "application/vnd.openxmlformats" "application/msword" = false ->
     suffix = ".txt").
Proof.
  intros W st. split; [reflexivity|]. split; [reflexivity|].
  apply (download_suffix_from_content_type W 0 "http://a.example/download" st
           "application/msword" []); reflexivity.
Defined.

Example download_names_doc :
  let W := Sample.sample_world false (true, true, true)
             (fun _ _ => HttpResponse 200 "application/msword" [] true) in
  match download_document W 1 "http://a.example/download" (Sample.fresh W false) with
  | Returned temp_path _ => temp_path
  | RecursionError _ => None
  end = Some "/tmp/tmpk3x9.doc".
Proof. vm_compute. reflexivity. Qed.

(** ** The anonymous transport manager *)

(** *** Identity rotation *)

(** C5 as the specification words it: with the transport active, every
    call of [renew_tor_identity] sleeps its five seconds before it
    returns. *)
Definition rotation_always_settles_as_stated (W : world) (st : state) : Prop :=
  use_tor (anonymous_conn st) = true ->
  exists new,
    log (renew_tor_identity W st) = log st ++ new /\ EvSleep 5 ∈ new.

(** The control port accepts the connection and refuses the
    authentication: the call returns without having slept. *)
Example refused_authentication_run :
  let W := Sample.sample_world true (true, false, true) Site.dead in
  log (renew_tor_identity W (Sample.fresh W true)) = [EvControl 9051; EvAuth None].
Proof. reflexivity. Qed.

(** C5 fails on that run. *)
Lemma rotation_counterexample :
  ~ rotation_always_settles_as_stated
      (Sample.sample_world true (true, false, true) Site.dead)
      (Sample.fresh (Sample.sample_world true (true, false, true) Site.dead) true).
Proof.
  intros Hclaim. destruct (Hclaim eq_refl) as (new & Hlog & Hsleep).
  rewrite refused_authentication_run in Hlog. cbn in Hlog. subst new.
  apply list_elem_of_In in Hsleep. cbn in Hsleep.
  destruct Hsleep as [H|[H|[]]]; discriminate.
Qed.

(** C5, amended. With the transport active, [renew_tor_identity]
    sleeps its five seconds exactly when the connection to the control
    port, the authentication and the [NEWNYM] signal have all
    succeeded; the sleep is then the last thing it does. When any of
    the three raises, the exception is swallowed and the call returns
    without any delay. *)
Theorem rotation_settles_after_signal (W : world) (st : state) :
  use_tor (anonymous_conn st) = true ->
  let at_auth := log st ++ [EvControl (control_port (anonymous_conn st))] in
  let at_signal := at_auth ++ [EvAuth (tor_password (anonymous_conn st))] in
  exists new,
    log (renew_tor_identity W st) = log st ++ new /\
    if control_connect_ok W (log st) && control_auth_ok W at_auth
       && control_signal_ok W at_signal
    then new = [EvControl (control_port (anonymous_conn st));
                EvAuth (tor_password (anonymous_conn st)); EvNewnym; EvSleep 5]
    else forall seconds, EvSleep seconds ∉ new.
Proof.
  intros Htor at_auth at_signal. subst at_auth at_signal.
  unfold renew_tor_identity. rewrite Htor. cbn [negb].
  destruct (control_connect_ok W (log st)); cbn [negb andb emit log anonymous_conn].
  2: { eexists. split; [reflexivity|]. intros seconds Hin.
       apply list_elem_of_In in Hin. cbn in Hin. destruct Hin as [H|[]]. discriminate. }
  destruct (control_auth_ok W _); cbn [negb andb emit log anonymous_conn].
  2: { eexists. split; [by rewrite <- app_assoc|]. intros seconds Hin.
       apply list_elem_of_In in Hin. cbn in Hin. destruct Hin as [H|[H|[]]]; discriminate. }
  destruct (control_signal_ok W _); cbn [negb andb emit log anonymous_conn].
  - eexists. split; [by rewrite <- !app_assoc|]. reflexivity.
  - eexists. split; [by rewrite <- !app_assoc|]. intros seconds Hin.
    apply list_elem_of_In in Hin. cbn in Hin.
    destruct Hin as [H|[H|[H|[]]]]; discriminate.
Qed.

Lemma rotation_settles_after_signal_witness :
  let W := Sample.sample_world true (true, true, true) Site.dead in
  let st := Sample.fresh W true in
  use_tor (anonymous_conn st) = true /\
  exists new,
    log (renew_tor_identity W st) = log st ++ new /\
    if control_connect_ok W (log st)
       && control_auth_ok W (log st ++ [EvControl (control_port (anonymous_conn st))])
       && control_signal_ok W ((log st ++ [EvControl (control_port (anonymous_conn st))])
                                ++ [EvAuth (tor_password (anonymous_conn st))])
    then new = [EvControl (control_port (anonymous_conn st));
                EvAuth (tor_password (anonymous_conn st)); EvNewnym; EvSleep 5]
    else forall seconds, EvSleep seconds ∉ new.
Proof.
  intros W st. split; [reflexivity|].
  apply (rotation_settles_after_signal W st). reflexivity.
Defined.

(** *** Activation and teardown *)

Lemma restore_var_lookup (name : string) (saved : option string)
    (env : gmap string string) (k : string) :
  restore_var name saved env !! k =
  if decide (k = name)
  then match saved with
       | Some v => if PyStr.truthy v then Some v else None
       | None => None
       end
  else env !! k.
Proof.
  unfold restore_var. destruct (decide (k = name)) as [->|Hne].
  - destruct saved as [v|]; [destruct (PyStr.truthy v)|];
      by rewrite ?lookup_insert_eq, ?lookup_delete_eq.
  - destruct saved as [v|]; [destruct (PyStr.truthy v)|];
      by rewrite ?lookup_insert_ne, ?lookup_delete_ne.
Qed.

(** What a successful activation leaves behind: both variables point
    at the SOCKS port and the snapshot holds their earlier values. *)
Lemma start_tor_activated (W : world) (launch : bool) (st0 st1 : state) :
  start_tor W launch st0 = Ok st1 ->
  use_tor (anonymous_conn st0) = true ->
  use_tor (anonymous_conn st1) = true ->
  environ st1 = <["HTTPS_PROXY" := tor_proxy_url (anonymous_conn st0)]>
                  (<["HTTP_PROXY" := tor_proxy_url (anonymous_conn st0)]> (environ st0)) /\
  previous_proxy (anonymous_conn st1)
  = Some (mkSnapshot (environ st0 !! "HTTP_PROXY") (environ st0 !! "HTTPS_PROXY")).
Proof.
  unfold start_tor, _is_tor_running. intros Hrun Hon0 Hon1. rewrite Hon0 in Hrun.
  cbn [negb] in Hrun.
  destruct (tor_reachable W (log st0)); cbn [negb] in Hrun.
  2: { by simplify_eq. }
  assert (forall s, _configure_tor_for_requests W s = Ok st1 ->
            environ st1 = <["HTTPS_PROXY" := tor_proxy_url (anonymous_conn s)]>
                            (<["HTTP_PROXY" := tor_proxy_url (anonymous_conn s)]> (environ s)) /\
            previous_proxy (anonymous_conn st1) = previous_proxy (anonymous_conn s))
    as Hconf.
  { intros s Hs. unfold _configure_tor_for_requests in Hs.
    destruct (http_get W _ _).
    - destruct (socket_orig_available W); [|discriminate].
      by simplify_eq.
    - by simplify_eq. }
  destruct launch.
  - destruct (tor_launch_ok W _).
    + by apply Hconf in Hrun.
    + by simplify_eq.
  - by apply Hconf in Hrun.
Qed.

(** The part of C4 that the code delivers: after a successful
    activation, [stop_tor] puts the whole environment back, provided
    neither variable was set to the empty string before. *)
Lemma stop_tor_restores_environment (W : world) (launch : bool) (st0 st1 : state) :
  start_tor W launch st0 = Ok st1 ->
  use_tor (anonymous_conn st0) = true ->
  use_tor (anonymous_conn st1) = true ->
  environ st0 !! "HTTP_PROXY" <> Some EmptyString ->
  environ st0 !! "HTTPS_PROXY" <> Some EmptyString ->
  environ (stop_tor st1) = environ st0.
Proof.
  intros Hrun Hon0 Hon1 Hhttp Hhttps.
  destruct (start_tor_activated W launch st0 st1 Hrun Hon0 Hon1) as [Henv Hprev].
  assert (forall saved, saved <> Some EmptyString ->
            match saved with
            | Some v => if PyStr.truthy v then Some v else None
            | None => None
            end = saved) as Htruthy.
  { intros [[|c v]|] Hne; try done. }
  unfold stop_tor. rewrite Hon1. cbn [negb].
  assert (forall s, previous_proxy (anonymous_conn s) = previous_proxy (anonymous_conn st1) ->
            environ s = environ st1 ->
            environ match previous_proxy (anonymous_conn s) with
                    | Some saved =>
                        with_environ (restore_var "HTTPS_PROXY" (prev_https saved))
                          (with_environ (restore_var "HTTP_PROXY" (prev_http saved)) s)
                    | None => s
                    end = environ st0) as Hrestore.
  { intros s -> Hs. rewrite Hprev. cbn. rewrite Hs, Henv.
    apply map_eq. intros k. rewrite !restore_var_lookup.
    destruct (decide (k = "HTTPS_PROXY")) as [->|Hk1]; [by rewrite Htruthy|].
    destruct (decide (k = "HTTP_PROXY")) as [->|Hk2]; [by rewrite Htruthy|].
    by rewrite !lookup_insert_ne. }
  destruct (tor_process (anonymous_conn st1)); by apply Hrestore.
Qed.

(** The part that it does not deliver: when the check at the end of
    [_configure_tor_for_requests] raises, the two variables are
    removed, whatever they held before, and whether or not the handler
    gets to its last line. *)
Lemma failed_verification_removes_variables (W : world) (st : state) :
  http_get W (log st) "https://www.google.com" = HttpRaise ->
  environ (outcome_state (_configure_tor_for_requests W st))
  = delete "HTTPS_PROXY" (delete "HTTP_PROXY" (environ st)).
Proof.
  intros Hraise. unfold _configure_tor_for_requests. cbn [log set_socket_patched with_environ].
  rewrite Hraise.
  assert (delete "HTTPS_PROXY" (delete "HTTP_PROXY"
            (<["HTTPS_PROXY" := tor_proxy_url (anonymous_conn st)]>
               (<["HTTP_PROXY" := tor_proxy_url (anonymous_conn st)]> (environ st))))
          = delete "HTTPS_PROXY" (delete "HTTP_PROXY" (environ st))) as Henv.
  { apply map_eq. intros k.
    destruct (decide (k = "HTTPS_PROXY")) as [->|Hk1]; [by rewrite !lookup_delete_eq|].
    rewrite !(lookup_delete_ne _ "HTTPS_PROXY") by done.
    destruct (decide (k = "HTTP_PROXY")) as [->|Hk2]; [by rewrite !lookup_delete_eq|].
    rewrite !(lookup_delete_ne _ "HTTP_PROXY") by done.
    by rewrite !lookup_insert_ne. }
  destruct (socket_orig_available W); cbn; exact Henv.
Qed.

(** A user whose traffic goes through a proxy of their own. *)
Definition corporate_env : gmap string string :=
  {["HTTP_PROXY" := "http://proxy.corp:3128"]}.

(** The SOCKS port accepts connections, but no request gets through. *)
Definition unverified_world : world :=
  Sample.sample_world true (true, true, true) Site.dead.

(** The same world with a [socket] module that does have
    [_orig_socket], so that the handler of
    [_configure_tor_for_requests] runs to its last line. *)
Definition with_orig_socket (W : world) : world :=
  mkWorld (urlparse W) (urljoin W) (urlparse_raises W) (urljoin_raises W)
          (requests_default_headers W) (tor_reachable W)
          (tor_launch_ok W) true (control_connect_ok W) (control_auth_ok W)
          (control_signal_ok W) (random_choice W) (http_get W) (mkstemp_name W).

(** C4, at the failing input. The check at the end of the activation
    raises. The handler removes both variables instead of writing the
    snapshot back: the user's [HTTP_PROXY] is gone when the activation
    ends, whether the handler then raises at its [socket] line (first
    run) or completes (second run). In the second run it has turned
    [use_tor] off, so the teardown returns at its first line and the
    setting stays lost. *)
Theorem failed_verification_loses_proxy_setting :
  map_to_list corporate_env = [("HTTP_PROXY", "http://proxy.corp:3128")] /\
  match DocScoop_init unverified_world true false 9050 9051 corporate_env with
  | Exn st => Some (previous_proxy (anonymous_conn st), map_to_list (environ st))
  | Ok _ => None
  end
  = Some (Some (mkSnapshot (Some "http://proxy.corp:3128") None), []) /\
  match DocScoop_init (with_orig_socket unverified_world) true false 9050 9051
                      corporate_env with
  | Ok st => Some (use_tor (anonymous_conn st),
                   previous_proxy (anonymous_conn st),
                   map_to_list (environ st),
                   map_to_list (environ (DocScoop_del st)))
  | Exn _ => None
  end
  = Some (false, Some (mkSnapshot (Some "http://proxy.corp:3128") None), [], []).
Proof. repeat split; vm_compute; reflexivity. Qed.

(** In the first run the exception leaves [use_tor] on, so a teardown
    that still takes place (the [finally] of the context manager, or
    [__del__]) does write the snapshot back. *)
Example teardown_after_raising_handler :
  match DocScoop_init unverified_world true false 9050 9051 corporate_env with
  | Exn st => Some (use_tor (anonymous_conn st), map_to_list (environ (stop_tor st)))
  | Ok _ => None
  end = Some (true, [("HTTP_PROXY", "http://proxy.corp:3128")]).
Proof. vm_compute. reflexivity. Qed.

(** A second input on which the teardown is not exact, after a
    successful activation: a variable that was set to the empty string
    is removed. *)
Example empty_setting_not_restored :
  let W := Sample.sample_world true (true, true, true)
             (fun _ _ => HttpResponse 200 "text/html" [] true) in
  match DocScoop_init W true false 9050 9051 {["HTTPS_PROXY" := EmptyString]} with
  | Ok st => Some (use_tor (anonymous_conn st), map_to_list (environ (DocScoop_del st)))
  | Exn _ => None
  end = Some (true, []).
Proof. vm_compute. reflexivity. Qed.

(** *** Fallback to a direct connection *)

Lemma direct_session_headers (W : world) :
  headers (direct_session W)
  = <["User-Agent" := stable_user_agent]> (requests_default_headers W).
Proof. cbn. unfold direct_profile. by rewrite insert_union_singleton_l. Qed.

(** C9. When nothing answers on the SOCKS port and launching is off,
    [DocScoop(use_tor=True)] is built without an exception; the
    transport is disabled ([use_tor] is off), the environment and the
    socket module are as they were, and the session carries the one
    fixed [User-Agent] on top of the defaults of [requests]. The crawl
    and the downloads that follow keep all of this: every request they
    make carries that session, no user agent is drawn at random and
    the control port is never contacted. *)
Theorem unreachable_proxy_scans_directly (W : world)
    (DOCUMENT_EXTENSIONS IGNORE_EXTENSIONS : list string)
    (tor_port control_port : Z) (env : gmap string string) :
  tor_reachable W [] = false ->
  exists st,
    DocScoop_init W true false tor_port control_port env = Ok st /\
    use_tor (anonymous_conn st) = false /\
    environ st = env /\
    socket_patched st = false /\
    log st = [EvProbe tor_port] /\
    headers (session st)
    = <["User-Agent" := stable_user_agent]> (requests_default_headers W) /\
    forall fuel url depth max_depth,
      (crawl_fuel depth max_depth <= fuel)%nat ->
      exists st',
        crawl_page W DOCUMENT_EXTENSIONS IGNORE_EXTENSIONS fuel url depth max_depth st
        = Some st' /\
        (use_tor (anonymous_conn st') = false /\ session st' = session st /\
         environ st' = env /\ socket_patched st' = false /\
         exists new, log st' = log st ++ new /\ Forall (direct_event W) new) /\
        forall fuel2 u,
          use_tor (anonymous_conn (download_state (download_document W fuel2 u st'))) = false /\
          session (download_state (download_document W fuel2 u st')) = session st /\
          environ (download_state (download_document W fuel2 u st')) = env /\
          socket_patched (download_state (download_document W fuel2 u st')) = false /\
          exists new,
            log (download_state (download_document W fuel2 u st')) = log st' ++ new /\
            Forall (direct_event W) new.
Proof.
  intros Hdown.
  unfold DocScoop_init, start_tor, _is_tor_running, get_session.
  cbn [use_tor anonymous_conn AnonymousConnection_init negb log].
  rewrite Hdown. cbn [negb with_conn set_use_tor use_tor anonymous_conn emit].
  eexists. split; [reflexivity|].
  set (st := set_session _ _).
  assert (direct_mode W st) as Hdirect by done.
  do 4 (split; [done|]).
  split; [apply direct_session_headers|].
  intros fuel url depth max_depth Hfuel.
  destruct (crawl_page_total W DOCUMENT_EXTENSIONS IGNORE_EXTENSIONS
              fuel url depth max_depth st Hfuel) as [st' Hcrawl].
  exists st'. split; [exact Hcrawl|].
  destruct (crawl_page_stays_direct W _ _ _ _ _ _ _ _ Hcrawl Hdirect)
    as ([Htor' Hs'] & He' & Hp' & new & Hl' & Hnew).
  assert (environ st = env) as He by done.
  assert (socket_patched st = false) as Hp by done.
  assert (session st = direct_session W) as Hs by done.
  split.
  { do 4 (split; [congruence|]). by exists new. }
  intros fuel2 u.
  destruct (download_document_stays_direct W fuel2 u st' (conj Htor' Hs'))
    as ([Htor2 Hs2] & He2 & Hp2 & new2 & Hl2 & Hnew2).
  do 4 (split; [congruence|]). by exists new2.
Qed.

Lemma unreachable_proxy_scans_directly_witness :
  tor_reachable Site.plain_world [] = false /\
  exists st,
    DocScoop_init Site.plain_world true false 9050 9051 corporate_env = Ok st /\
    use_tor (anonymous_conn st) = false /\
    environ st = corporate_env /\
    socket_patched st = false /\
    log st = [EvProbe 9050] /\
    headers (session st)
    = <["User-Agent" := stable_user_agent]> (requests_default_headers Site.plain_world) /\
    forall fuel url depth max_depth,
      (crawl_fuel depth max_depth <= fuel)%nat ->
      exists st',
        crawl_page Site.plain_world default_DOCUMENT_EXTENSIONS default_IGNORE_EXTENSIONS
                   fuel url depth max_depth st = Some st' /\
        (use_tor (anonymous_conn st') = false /\ session st' = session st /\
         environ st' = corporate_env /\ socket_patched st' = false /\
         exists new, log st' = log st ++ new /\ Forall (direct_event Site.plain_world) new) /\
        forall fuel2 u,
          use_tor (anonymous_conn
                     (download_state (download_document Site.plain_world fuel2 u st'))) = false /\
          session (download_state (download_document Site.plain_world fuel2 u st'))
          = session st /\
          environ (download_state (download_document Site.plain_world fuel2 u st'))
          = corporate_env /\
          socket_patched (download_state (download_document Site.plain_world fuel2 u st'))
          = false /\
          exists new,
            log (download_state (download_document Site.plain_world fuel2 u st'))
            = log st' ++ new /\
            Forall (direct_event Site.plain_world) new.
Proof.
  split; [reflexivity|].
  apply (unreachable_proxy_scans_directly Site.plain_world default_DOCUMENT_EXTENSIONS
           default_IGNORE_EXTENSIONS 9050 9051 corporate_env).
  reflexivity.
Defined.

(** Scenario D of the specification, run: the proxy is down, the scan
    goes on and finds the report; it has the flag [anonymous] still
    set, yet sends no [NEWNYM]. *)
Example scenario_D :
  match DocScoop_init Site.plain_world true false 9050 9051 ∅ with
  | Ok st =>
      option_map
        (fun st' => (anonymous st', use_tor (anonymous_conn st'),
                     elements (document_urls st'), newnyms (log st')))
        (crawl Site.plain_world default_DOCUMENT_EXTENSIONS default_IGNORE_EXTENSIONS
               Site.home 1 st)
  | Exn _ => None
  end = Some (true, false, ["http://a.example/report.pdf"], 0%nat).
Proof. vm_compute. reflexivity. Qed.

(** * Further properties *)

(** ** More of Python's [str]

    A [str] is held as the bytes of its UTF-8 encoding: one byte below
    128 for an ASCII character, and for any other character a lead
    byte followed by continuation bytes (128 to 191). *)

Module PyText.

(** [s.split(sep)] for a one-character separator: one piece more than
    there are separators, so never the empty list. *)
Fixpoint split (sep : ascii) (s : string) : list string :=
  match s with
  | EmptyString => [EmptyString]
  | String a rest =>
      if Ascii.eqb a sep then EmptyString :: split sep rest
      else match split sep rest with
           | piece :: pieces => String a piece :: pieces
           | [] => [String a EmptyString]
           end
  end.

(** [c.isspace()] on ASCII: tab to carriage return, the four
    separators 28 to 31, and the space. Bytes above 127 are not
    counted as spaces. *)
Definition is_space (c : ascii) : bool :=
  let n := nat_of_ascii c in
  ((9 <=? n) && (n <=? 13) || (28 <=? n) && (n <=? 32))%nat.

Fixpoint lstrip (s : string) : string :=
  match s with
  | EmptyString => EmptyString
  | String a rest => if is_space a then lstrip rest else s
  end.

Fixpoint rstrip (s : string) : string :=
  match s with
  | EmptyString => EmptyString
  | String a rest =>
      match rstrip rest with
      | EmptyString => if is_space a then EmptyString else String a EmptyString
      | kept => String a kept
      end
  end.

(** [s.strip()] *)
Definition strip (s : string) : string := rstrip (lstrip s).

(** A byte that continues a character begun before it. *)
Definition is_continuation (c : ascii) : bool :=
  let n := nat_of_ascii c in ((128 <=? n) && (n <? 192))%nat.

(** [len(s)]: the number of characters, not of bytes. *)
Fixpoint len (s : string) : nat :=
  match s with
  | EmptyString => 0
  | String c rest => ((if is_continuation c then 0 else 1) + len rest)%nat
  end.

(** [s[:n]]: the first [n] characters, each with all its bytes. *)
Fixpoint take (n : nat) (s : string) : string :=
  match s with
  | EmptyString => EmptyString
  | String c rest =>
      if is_continuation c then String c (take n rest)
      else match n with
           | O => EmptyString
           | S n' => String c (take n' rest)
           end
  end.

(** Text made of ASCII characters other than NUL. On such text
    [PyStr.lower] is [str.lower()] and [String.length] is [len]. *)
Fixpoint plain_ascii (s : string) : bool :=
  match s with
  | EmptyString => true
  | String c rest =>
      let n := nat_of_ascii c in ((1 <=? n) && (n <? 128))%nat && plain_ascii rest
  end.

End PyText.

Example len_counts_characters :
  (PyText.len "ééééé", String.length "ééééé", PyText.len "minutes") = (5, 10, 7)%nat.
Proof. reflexivity. Qed.
Example take_keeps_characters_whole :
  (PyText.take 2 "ééééé", PyText.take 3 "minutes", PyText.take 9 "été") = ("éé", "min", "été").
Proof. reflexivity. Qed.

Lemma len_app (a b : string) : PyText.len (a +:+ b) = (PyText.len a + PyText.len b)%nat.
Proof.
  induction a as [|x a IH]; [done|].
  change (String x a +:+ b) with (String x (a +:+ b)). cbn [PyText.len].
  rewrite IH. lia.
Qed.

Lemma len_plain_ascii (s : string) :
  PyText.plain_ascii s = true -> PyText.len s = String.length s.
Proof.
  induction s as [|c s IH]; [done|]. cbn [PyText.plain_ascii PyText.len String.length].
  intros H. apply andb_true_iff in H as [Hc Hs]. rewrite (IH Hs).
  apply andb_true_iff in Hc as [_ Hc]. apply Nat.ltb_lt in Hc.
  unfold PyText.is_continuation.
  destruct (Nat.leb_spec 128 (nat_of_ascii c)); [lia | done].
Qed.


(** ** The transport manager, beyond activation failures *)

(** The number of processes launched and killed in a log. *)
Definition launches (l : list event) : nat :=
  List.length (omap (fun e => match e with EvLaunch _ _ => Some tt | _ => None end) l).
Definition kills (l : list event) : nat :=
  List.length (omap (fun e => match e with EvKill => Some tt | _ => None end) l).

(** Case analysis on the oracles that decide the path of [start_tor]. *)
Ltac start_tor_paths W launch st :=
  unfold start_tor, _is_tor_running, _configure_tor_for_requests;
  destruct (use_tor (anonymous_conn st)) eqn:Htor; cbn [negb];
  [ destruct (tor_reachable W (log st)) eqn:Hreach; cbn [negb];
    [ destruct launch;
      [ destruct (tor_launch_ok W _) eqn:Hlaunch | ];
      try (destruct (http_get W _ _) eqn:Hcheck;
           [ destruct (socket_orig_available W) eqn:Hsock | ])
    | ]
  | ].

(** X1. [start_tor] launches a Tor process only after the probe of the
    SOCKS port has succeeded: with the port closed nothing is launched,
    whatever [launch] says, and at most one launch is ever attempted. *)
Theorem tor_launched_only_behind_open_port (W : world) (launch : bool) (st : state) :
  exists new,
    log (outcome_state (start_tor W launch st)) = log st ++ new /\
    launches new
    = (if use_tor (anonymous_conn st) && tor_reachable W (log st) && launch
       then 1 else 0)%nat.
Proof.
  start_tor_paths W launch st; cbn;
    try (by exists []; rewrite app_nil_r);
    rewrite <- ?app_assoc; by eexists.
Qed.

(** X1, at the level of the constructor: with the port closed,
    [launch_tor=True] builds the same object as [launch_tor=False]. *)
Lemma closed_port_ignores_launch_flag (W : world) (tor_port control_port : Z)
    (env : gmap string string) :
  tor_reachable W [] = false ->
  DocScoop_init W true true tor_port control_port env
  = DocScoop_init W true false tor_port control_port env.
Proof.
  intros Hdown. unfold DocScoop_init, start_tor, _is_tor_running. cbn. by rewrite Hdown.
Qed.

(** X2. Activation and teardown touch no environment variable other
    than [HTTP_PROXY] and [HTTPS_PROXY], on any path, exceptions
    included. *)
Theorem transport_touches_two_variables_only (W : world) (launch : bool)
    (st : state) (k : string) :
  k <> "HTTP_PROXY" -> k <> "HTTPS_PROXY" ->
  environ (outcome_state (start_tor W launch st)) !! k = environ st !! k /\
  environ (stop_tor st) !! k = environ st !! k.
Proof.
  intros Hk1 Hk2. split.
  - start_tor_paths W launch st; cbn;
      by rewrite ?lookup_delete_ne, ?lookup_insert_ne.
  - unfold stop_tor. destruct (use_tor (anonymous_conn st)); cbn [negb]; [|done].
    destruct (tor_process (anonymous_conn st)); cbn;
      (destruct (previous_proxy (anonymous_conn st)); cbn; [|done]);
      rewrite !restore_var_lookup; by rewrite !decide_False.
Qed.

Lemma transport_touches_two_variables_only_witness :
  "PATH" <> "HTTP_PROXY" /\ "PATH" <> "HTTPS_PROXY" /\
  environ (outcome_state (start_tor unverified_world true
             (Sample.fresh unverified_world true))) !! "PATH"
  = environ (Sample.fresh unverified_world true) !! "PATH" /\
  environ (stop_tor (Sample.fresh unverified_world true)) !! "PATH"
  = environ (Sample.fresh unverified_world true) !! "PATH".
Proof.
  split; [discriminate|]. split; [discriminate|].
  apply (transport_touches_two_variables_only unverified_world true
           (Sample.fresh unverified_world true) "PATH"); discriminate.
Defined.

Lemma restore_both_twice (h hs : option string) (env : gmap string string) :
  restore_var "HTTPS_PROXY" hs
    (restore_var "HTTP_PROXY" h
       (restore_var "HTTPS_PROXY" hs (restore_var "HTTP_PROXY" h env)))
  = restore_var "HTTPS_PROXY" hs (restore_var "HTTP_PROXY" h env).
Proof.
  apply map_eq. intros k. rewrite !restore_var_lookup.
  by destruct (decide (k = "HTTPS_PROXY")), (decide (k = "HTTP_PROXY")).
Qed.

(** X3. Teardown is idempotent: a second [stop_tor] changes nothing,
    and in particular does not kill again. When [use_tor] is off
    (never activated, or activation fell back) it does nothing at
    all. *)
Theorem stop_tor_idempotent (st : state) :
  stop_tor (stop_tor st) = stop_tor st /\
  (use_tor (anonymous_conn st) = false -> stop_tor st = st) /\
  exists new, log (stop_tor st) = log st ++ new /\
              kills new = (if use_tor (anonymous_conn st) && tor_process (anonymous_conn st)
                           then 1 else 0)%nat.
Proof.
  split; [|split].
  - unfold stop_tor. destruct st as [v d a [u p c pw proc prev] s env sock l]. cbn.
    destruct u; cbn; [|done].
    destruct proc; cbn -[restore_var];
      (destruct prev as [[h hs]|]; cbn -[restore_var]; [|done]);
      unfold with_environ, with_conn, emit, set_tor_process; cbn -[restore_var];
      by rewrite restore_both_twice.
  - unfold stop_tor. by intros ->.
  - unfold stop_tor. destruct (use_tor (anonymous_conn st)); cbn [negb andb].
    + destruct (tor_process (anonymous_conn st)); cbn;
        destruct (previous_proxy (anonymous_conn st)); cbn;
        try (by exists [EvKill]); by exists []; rewrite app_nil_r.
    + by exists []; rewrite app_nil_r.
Qed.

(** X4. When the probe fails, or the launch raises, activation falls
    back without having touched anything: [use_tor] is switched off,
    the environment and the socket module are as before and no process
    is held. *)
Theorem fallback_before_configuration_is_clean (W : world) (launch : bool) (st : state) :
  use_tor (anonymous_conn st) = true ->
  tor_process (anonymous_conn st) = false ->
  tor_reachable W (log st) = false \/
  (launch = true /\
   tor_launch_ok W (log st ++ [EvProbe (tor_port (anonymous_conn st))]) = false) ->
  exists st',
    start_tor W launch st = Ok st' /\
    use_tor (anonymous_conn st') = false /\
    tor_process (anonymous_conn st') = false /\
    environ st' = environ st /\
    socket_patched st' = socket_patched st /\
    session st' = session st.
Proof.
  intros Hon Hproc [Hdown | [-> Hfail]].
  - unfold start_tor, _is_tor_running. rewrite Hon, Hdown. cbn. by eexists.
  - unfold start_tor, _is_tor_running. rewrite Hon. cbn [negb].
    destruct (tor_reachable W (log st)); cbn; [rewrite Hfail|]; by eexists.
Qed.

Lemma fallback_before_configuration_is_clean_witness :
  let W := mkWorld Sample.simple_urlparse Sample.simple_urljoin
             Sample.simple_urlparse_raises Sample.simple_urljoin_raises ∅
             (fun _ => true) (fun _ => false) false
             (fun _ => true) (fun _ => true) (fun _ => true)
             (fun _ => 0%nat) Site.dead (fun _ => "/tmp/tmpk3x9") in
  let st := Sample.fresh W true in
  use_tor (anonymous_conn st) = true /\
  tor_process (anonymous_conn st) = false /\
  (tor_reachable W (log st) = false \/
   (true = true /\
    tor_launch_ok W (log st ++ [EvProbe (tor_port (anonymous_conn st))]) = false)) /\
  exists st',
    start_tor W true st = Ok st' /\
    use_tor (anonymous_conn st') = false /\
    tor_process (anonymous_conn st') = false /\
    environ st' = environ st /\
    socket_patched st' = socket_patched st /\
    session st' = session st.
Proof.
  intros W st. split; [reflexivity|]. split; [reflexivity|].
  split; [right; split; reflexivity|].
  apply (fallback_before_configuration_is_clean W true st);
    [reflexivity | reflexivity | right; split; reflexivity].
Defined.

(** What [stop_tor] leaves in the environment and in the process
    field, in terms of the connection and the environment it finds. *)
Lemma stop_tor_summary (st : state) :
  environ (stop_tor st)
  = (if use_tor (anonymous_conn st)
     then match previous_proxy (anonymous_conn st) with
          | Some saved => restore_var "HTTPS_PROXY" (prev_https saved)
                            (restore_var "HTTP_PROXY" (prev_http saved) (environ st))
          | None => environ st
          end
     else environ st) /\
  tor_process (anonymous_conn (stop_tor st))
  = (if use_tor (anonymous_conn st) then false else tor_process (anonymous_conn st)) /\
  exists new, log (stop_tor st) = log st ++ new /\
              kills new = (if use_tor (anonymous_conn st) && tor_process (anonymous_conn st)
                           then 1 else 0)%nat.
Proof.
  unfold stop_tor. destruct (use_tor (anonymous_conn st)); cbn [negb andb].
  2: { repeat split. by exists []; rewrite app_nil_r. }
  destruct (tor_process (anonymous_conn st)) eqn:Hproc; cbn -[restore_var];
    destruct (previous_proxy (anonymous_conn st)); cbn -[restore_var];
    rewrite ?Hproc; repeat split;
    try (by exists [EvKill]); by exists []; rewrite app_nil_r.
Qed.

(** Writing the snapshot of [env0] back over any environment that
    agrees with [env0] outside the two variables gives [env0]. *)
Lemma restore_snapshot (env0 env1 : gmap string string) :
  env0 !! "HTTP_PROXY" <> Some EmptyString ->
  env0 !! "HTTPS_PROXY" <> Some EmptyString ->
  (forall k, k <> "HTTP_PROXY" -> k <> "HTTPS_PROXY" -> env1 !! k = env0 !! k) ->
  restore_var "HTTPS_PROXY" (env0 !! "HTTPS_PROXY")
    (restore_var "HTTP_PROXY" (env0 !! "HTTP_PROXY") env1) = env0.
Proof.
  intros Hhttp Hhttps Hagree.
  assert (forall saved, saved <> Some EmptyString ->
            match saved with
            | Some v => if PyStr.truthy v then Some v else None
            | None => None
            end = saved) as Htruthy.
  { intros [[|c v]|] Hne; try done. }
  apply map_eq. intros k. rewrite !restore_var_lookup.
  destruct (decide (k = "HTTPS_PROXY")) as [->|Hk1]; [by rewrite Htruthy|].
  destruct (decide (k = "HTTP_PROXY")) as [->|Hk2]; [by rewrite Htruthy|].
  by apply Hagree.
Qed.

(** X5. Activation followed by teardown is a round trip: after a
    successful [start_tor] on a fresh connection, [stop_tor] gives back
    the environment exactly as it was (provided neither proxy variable
    was set to the empty string), holds no process any more, and has
    killed the process exactly when one was launched. *)
Theorem activation_teardown_round_trip (W : world) (launch : bool) (st0 st1 : state) :
  start_tor W launch st0 = Ok st1 ->
  use_tor (anonymous_conn st0) = true ->
  tor_process (anonymous_conn st0) = false ->
  use_tor (anonymous_conn st1) = true ->
  environ st0 !! "HTTP_PROXY" <> Some EmptyString ->
  environ st0 !! "HTTPS_PROXY" <> Some EmptyString ->
  environ (stop_tor st1) = environ st0 /\
  tor_process (anonymous_conn (stop_tor st1)) = false /\
  exists new, log (stop_tor st1) = log st1 ++ new /\
              kills new = (if launch then 1 else 0)%nat.
Proof.
  intros Hrun Hon0 Hproc0 Hon1 Hhttp Hhttps.
  split; [by eapply stop_tor_restores_environment|].
  destruct (stop_tor_summary st1) as (_ & Hp & new & Hl & Hk).
  rewrite Hon1 in Hp, Hk. split; [done|].
  exists new. split; [done|]. rewrite Hk. cbn [andb].
  assert (tor_process (anonymous_conn st1) = launch) as ->; [|done].
  revert Hrun. start_tor_paths W launch st0; intros Hrun; simplify_eq; try done.
Qed.

Lemma activation_teardown_round_trip_witness :
  let W := Sample.sample_world true (true, true, true)
             (fun _ _ => HttpResponse 200 "text/html" [] true) in
  let st0 := with_environ (fun _ => corporate_env) (Sample.fresh W true) in
  exists st1,
    start_tor W true st0 = Ok st1 /\
    use_tor (anonymous_conn st0) = true /\
    tor_process (anonymous_conn st0) = false /\
    use_tor (anonymous_conn st1) = true /\
    environ st0 !! "HTTP_PROXY" <> Some EmptyString /\
    environ st0 !! "HTTPS_PROXY" <> Some EmptyString /\
    environ (stop_tor st1) = environ st0 /\
    tor_process (anonymous_conn (stop_tor st1)) = false /\
    exists new, log (stop_tor st1) = log st1 ++ new /\ kills new = 1%nat.
Proof.
  intros W st0. eexists. split; [reflexivity|].
  do 3 (split; [reflexivity|]).
  split; [by vm_compute|]. split; [by vm_compute|].
  apply (activation_teardown_round_trip W true st0);
    [reflexivity | reflexivity | reflexivity | reflexivity | by vm_compute | by vm_compute].
Defined.

(** *** The context manager *)

(** [anonymous_connection(use_tor, launch_tor)], the generator under
    [@contextmanager], around the body of a [with] statement: the
    connection is built with the default ports, [stop_tor] runs in the
    [finally] whether [start_tor] or the body raised or not. *)
Definition anonymous_connection (W : world) (use_tor launch_tor : bool)
    (body : state -> outcome) (st : state) : outcome :=
  let st := with_conn (fun _ => AnonymousConnection_init use_tor 9050 9051 None) st in
  match start_tor W launch_tor st with
  | Exn st => Exn (stop_tor st)
  | Ok st =>
      match body st with
      | Ok st => Ok (stop_tor st)
      | Exn st => Exn (stop_tor st)
      end
  end.

(** X6. With Python 3's [socket] module (no [_socketobject], no
    [_orig_socket]), the context manager always hands the environment
    back as it found it and holds no process on exit, whichever way
    the activation went and whether or not the body raised, as long as
    the body itself leaves the environment and the connection alone
    and neither proxy variable was set to the empty string. *)
Theorem context_manager_restores_environment (W : world) (enable launch_tor : bool)
    (body : state -> outcome) (st : state) :
  socket_orig_available W = false ->
  environ st !! "HTTP_PROXY" <> Some EmptyString ->
  environ st !! "HTTPS_PROXY" <> Some EmptyString ->
  (forall s, environ (outcome_state (body s)) = environ s /\
             anonymous_conn (outcome_state (body s)) = anonymous_conn s) ->
  environ (outcome_state (anonymous_connection W enable launch_tor body st)) = environ st /\
  tor_process (anonymous_conn
                 (outcome_state (anonymous_connection W enable launch_tor body st))) = false.
Proof.
  intros Hpy3 Hhttp Hhttps Hbody.
  assert (forall s,
            (use_tor (anonymous_conn s) = false /\ tor_process (anonymous_conn s) = false /\
             environ s = environ st) \/
            (use_tor (anonymous_conn s) = true /\
             previous_proxy (anonymous_conn s)
             = Some (mkSnapshot (environ st !! "HTTP_PROXY") (environ st !! "HTTPS_PROXY")) /\
             forall k, k <> "HTTP_PROXY" -> k <> "HTTPS_PROXY" ->
                       environ s !! k = environ st !! k) ->
            environ (stop_tor s) = environ st /\
            tor_process (anonymous_conn (stop_tor s)) = false) as Hstop.
  { intros s Hs. destruct (stop_tor_summary s) as (He & Hp & _). rewrite He, Hp.
    destruct Hs as [(-> & -> & ->) | (-> & -> & Hagree)]; [done|].
    split; [|done]. by apply restore_snapshot. }
  assert (forall s,
            (use_tor (anonymous_conn s) = false /\ tor_process (anonymous_conn s) = false /\
             environ s = environ st) \/
            (use_tor (anonymous_conn s) = true /\
             previous_proxy (anonymous_conn s)
             = Some (mkSnapshot (environ st !! "HTTP_PROXY") (environ st !! "HTTPS_PROXY")) /\
             forall k, k <> "HTTP_PROXY" -> k <> "HTTPS_PROXY" ->
                       environ s !! k = environ st !! k) ->
            environ (outcome_state (match body s with
                                    | Ok s' => Ok (stop_tor s')
                                    | Exn s' => Exn (stop_tor s')
                                    end)) = environ st /\
            tor_process (anonymous_conn
              (outcome_state (match body s with
                              | Ok s' => Ok (stop_tor s')
                              | Exn s' => Exn (stop_tor s')
                              end))) = false) as Hrun.
  { intros s Hs. destruct (Hbody s) as [He Hc].
    destruct (body s) as [s'|s']; cbn [outcome_state] in *;
      apply Hstop; rewrite Hc, He; exact Hs. }
  unfold anonymous_connection.
  set (st0 := with_conn _ st).
  assert (environ st0 = environ st) as Henv0 by done.
  assert (tor_process (anonymous_conn st0) = false) as Hproc0 by done.
  clearbody st0. revert Hproc0.
  start_tor_paths W launch_tor st0; intros Hproc0; try congruence;
    cbn [outcome_state];
    try clear Hcheck; try clear Hlaunch; try clear Hreach;
    (first [ apply Hrun | apply Hstop ]);
    first [ left; cbn; by repeat split
          | right; cbn; split; [done|]; split; [by rewrite Henv0|];
            intros k Hk1 Hk2;
            rewrite ?lookup_delete_ne, ?lookup_insert_ne by done; by rewrite Henv0 ].
Qed.

Lemma context_manager_restores_environment_witness :
  let st := with_environ (fun _ => corporate_env) (Sample.fresh unverified_world false) in
  socket_orig_available unverified_world = false /\
  environ st !! "HTTP_PROXY" <> Some EmptyString /\
  environ st !! "HTTPS_PROXY" <> Some EmptyString /\
  (forall s, environ (outcome_state (Ok s)) = environ s /\
             anonymous_conn (outcome_state (Ok s)) = anonymous_conn s) /\
  environ (outcome_state (anonymous_connection unverified_world true true Ok st))
  = environ st /\
  tor_process (anonymous_conn
                 (outcome_state (anonymous_connection unverified_world true true Ok st)))
  = false.
Proof.
  intros st. split; [reflexivity|]. split; [by vm_compute|]. split; [by vm_compute|].
  split; [done|].
  apply (context_manager_restores_environment unverified_world true true Ok st);
    [reflexivity | by vm_compute | by vm_compute | done].
Defined.

(** In [unverified_world] the check raises, the handler raises in
    turn, and the [finally] repairs what the handler had removed. *)
Example context_manager_after_failed_check :
  let st := with_environ (fun _ => corporate_env) (Sample.fresh unverified_world false) in
  match anonymous_connection unverified_world true true Ok st with
  | Exn st' => Some (map_to_list (environ st'), kills (log st'))
  | Ok _ => None
  end = Some ([("HTTP_PROXY", "http://proxy.corp:3128")], 1%nat).
Proof. vm_compute. reflexivity. Qed.

(** *** Sessions and rotation *)

(** X7. With the transport active, [get_session] builds a session
    whose [User-Agent] is one of the five strings of the rotation pool,
    whatever [random.choice] draws, with the three privacy headers set;
    these four override the defaults of [requests] and every other
    default header is kept. *)
Theorem anonymous_session_profile (W : world) (st : state) :
  use_tor (anonymous_conn st) = true ->
  exists ua,
    ua ∈ user_agents /\
    headers (get_session W st).1 !! "User-Agent" = Some ua /\
    headers (get_session W st).1 !! "Accept-Language" = Some "en-US,en;q=0.5" /\
    headers (get_session W st).1 !! "DNT" = Some "1" /\
    headers (get_session W st).1 !! "Upgrade-Insecure-Requests" = Some "1" /\
    (forall k, k <> "User-Agent" -> k <> "Accept-Language" -> k <> "DNT" ->
               k <> "Upgrade-Insecure-Requests" ->
               headers (get_session W st).1 !! k = requests_default_headers W !! k) /\
    log (get_session W st).2 = log st ++ [EvRandom].
Proof.
  intros Hon. unfold get_session, _get_random_user_agent. rewrite Hon. cbn [fst snd].
  set (ua := nth _ user_agents EmptyString). exists ua.
  split.
  { apply list_elem_of_In, nth_In. apply Nat.mod_upper_bound. discriminate. }
  unfold headers_update, anonymous_profile. cbn [headers].
  split; [by rewrite lookup_union_l', lookup_insert_eq|].
  do 3 (split; [by apply lookup_union_Some_l; rewrite !lookup_insert_ne by done;
                   rewrite ?lookup_insert_eq; try rewrite lookup_insert_ne by done;
                   rewrite ?lookup_insert_eq|]).
  split; [|done].
  intros k H1 H2 H3 H4. rewrite lookup_union_r; [done|].
  by rewrite !lookup_insert_ne.
Qed.

Lemma anonymous_session_profile_witness :
  let st := Sample.fresh Site.tor_world true in
  use_tor (anonymous_conn st) = true /\
  exists ua,
    ua ∈ user_agents /\
    headers (get_session Site.tor_world st).1 !! "User-Agent" = Some ua /\
    headers (get_session Site.tor_world st).1 !! "Accept-Language" = Some "en-US,en;q=0.5" /\
    headers (get_session Site.tor_world st).1 !! "DNT" = Some "1" /\
    headers (get_session Site.tor_world st).1 !! "Upgrade-Insecure-Requests" = Some "1" /\
    (forall k, k <> "User-Agent" -> k <> "Accept-Language" -> k <> "DNT" ->
               k <> "Upgrade-Insecure-Requests" ->
               headers (get_session Site.tor_world st).1 !! k
               = requests_default_headers Site.tor_world !! k) /\
    log (get_session Site.tor_world st).2 = log st ++ [EvRandom].
Proof.
  intros st. split; [reflexivity|].
  apply (anonymous_session_profile Site.tor_world st). reflexivity.
Defined.

(** In the sample world [random.choice] draws index 1, the Firefox
    string, which replaces the default of [requests]. *)
Example sample_session_user_agent :
  headers (get_session Site.tor_world (Sample.fresh Site.tor_world true)).1 !! "User-Agent"
  = Some "Mozilla/5.0 (Windows NT 10.0; Win64; x64; rv:89.0) Gecko/20100101 Firefox/89.0".
Proof. vm_compute. reflexivity. Qed.

(** X8. [renew_tor_identity] never raises and changes nothing but the
    log: frontier, document set, connection, session, environment and
    socket module are as before. It sends [NEWNYM] at most once, and
    only when the transport is active and both the connection to the
    control port and the authentication have succeeded; with
    [use_tor] off it does not even contact the control port. *)
Theorem rotation_changes_only_the_log (W : world) (st : state) :
  exists new,
    only_logs st (renew_tor_identity W st) new /\
    session (renew_tor_identity W st) = session st /\
    newnyms new
    = (if use_tor (anonymous_conn st)
          && control_connect_ok W (log st)
          && control_auth_ok W (log st ++ [EvControl (control_port (anonymous_conn st))])
       then 1 else 0)%nat /\
    (use_tor (anonymous_conn st) = false -> new = []).
Proof.
  unfold renew_tor_identity.
  destruct (use_tor (anonymous_conn st)); cbn [negb andb].
  2: { exists []. split; [apply only_logs_refl|]. done. }
  destruct (control_connect_ok W (log st)); cbn [negb andb].
  2: { exists [EvControl (control_port (anonymous_conn st))].
       split; [apply only_logs_emit|]. done. }
  cbn [log emit anonymous_conn].
  destruct (control_auth_ok W _); cbn [negb].
  2: { eexists. split; [eapply only_logs_trans; apply only_logs_emit|].
       split; [reflexivity|]. split; [reflexivity|]. discriminate. }
  destruct (control_signal_ok W _); cbn [negb].
  - eexists. split.
    { eapply only_logs_trans; [|apply only_logs_emit].
      eapply only_logs_trans; [|apply only_logs_emit].
      eapply only_logs_trans; apply only_logs_emit. }
    split; [reflexivity|]. split; [reflexivity|]. discriminate.
  - eexists. split.
    { eapply only_logs_trans; [|apply only_logs_emit].
      eapply only_logs_trans; apply only_logs_emit. }
    split; [reflexivity|]. split; [reflexivity|]. discriminate.
Qed.

(** ** The crawl, beyond the frontier *)

Section CrawlDetails.

Variable W : world.
Variables DOCS IGN : list string.

(** *** A finer induction principle

    As [crawl_page_preserves], but each kind of step is told what the
    method knows when it takes it: that a link it follows has neither
    an ignored nor a document extension, that a page it parses has
    just been requested and has no document extension, that a URL it
    records after a request is the one requested, that it rotates only
    with [anonymous] set. *)
Section FineInduction.

Variable R : state -> state -> Prop.
Variable page_ok : string -> Prop.

Hypothesis R_refl : forall st, R st st.
Hypothesis R_trans : forall st1 st2 st3, R st1 st2 -> R st2 st3 -> R st1 st3.
Hypothesis link_page_ok : forall u,
  should_ignore_url W IGN u = false -> is_document_url W DOCS u = false -> page_ok u.
Hypothesis R_fetch : forall url st,
  page_ok url -> is_valid_url W st url = true ->
  R st (session_get W url 10 (visit url st)).2.
Hypothesis R_fetch_document : forall url st,
  page_ok url -> is_valid_url W st url = true ->
  R st (add_document url (session_get W url 10 (visit url st)).2).
Hypothesis R_link_document : forall u st,
  should_ignore_url W IGN u = false -> is_document_url W DOCS u = true ->
  R st (add_document u st).
Hypothesis R_fetch_links : forall url st,
  page_ok url -> is_valid_url W st url = true -> is_document_url W DOCS url = false ->
  R st (emit (EvLinks url) (session_get W url 10 (visit url st)).2).
Hypothesis R_rotate : forall st, anonymous st = true -> R st (rotate_session W st).

Lemma crawl_links_preserves_fine recurse url depth max_depth hrefs :
  (forall u st st', page_ok u -> recurse u st = Some st' -> R st st') ->
  forall st st',
    crawl_links W DOCS IGN recurse url depth max_depth hrefs st = Some st' -> R st st'.
Proof.
  intros Hrec. induction hrefs as [|href rest IH]; intros st st' Hrun; cbn in Hrun.
  - by simplify_eq.
  - destruct (should_ignore_url W IGN (urljoin W url href)) eqn:Hign; [by apply IH|].
    destruct (is_document_url W DOCS (urljoin W url href)) eqn:Hdoc.
    { eapply R_trans; [by apply R_link_document | by apply IH]. }
    destruct (depth <? max_depth); [|by apply IH].
    destruct (recurse (urljoin W url href) st) as [st1|] eqn:Hcall; [|done].
    eapply R_trans; [eapply Hrec; [by apply link_page_ok | exact Hcall] | by apply IH].
Qed.

Lemma crawl_page_preserves_fine fuel :
  forall url depth max_depth st st',
    page_ok url ->
    crawl_page W DOCS IGN fuel url depth max_depth st = Some st' -> R st st'.
Proof.
  induction fuel as [|fuel IH]; intros url depth max_depth st st' Hok Hrun;
    [discriminate|].
  cbn [crawl_page] in Hrun.
  destruct ((max_depth <? depth) || negb (is_valid_url W st url)) eqn:Hguard.
  { by simplify_eq. }
  apply orb_false_iff in Hguard as [_ Hvalid]. apply negb_false_iff in Hvalid.
  pose proof (R_fetch url st Hok Hvalid) as Hfetch.
  pose proof (R_fetch_document url st Hok Hvalid) as Hfetchdoc.
  pose proof (R_fetch_links url st Hok Hvalid) as Hfetchlinks.
  destruct (session_get W url 10 (visit url st)) as [response st1].
  cbn [snd] in Hfetch, Hfetchdoc, Hfetchlinks.
  assert (forall s,
            (if anonymous s && (depth <=? 1)
             then crawl_page W DOCS IGN fuel url depth max_depth (rotate_session W s)
             else Some s) = Some st' -> R s st') as Hhandler.
  { intros s Hs. destruct (anonymous s && (depth <=? 1)) eqn:Hretry.
    - apply andb_true_iff in Hretry as [Hanon _].
      eapply R_trans; [by apply R_rotate|]. exact (IH _ _ _ _ _ Hok Hs).
    - by simplify_eq. }
  destruct response as [|status_code content_type hrefs stream_ok].
  - eapply R_trans; [exact Hfetch | by apply Hhandler].
  - destruct (negb (status_code =? 200)); [by simplify_eq|].
    destruct (is_document_url W DOCS url || is_document_type content_type) eqn:Hdoc.
    { by simplify_eq. }
    apply orb_false_iff in Hdoc as [Hext _].
    destruct (PyStr.contains "text/html" content_type); [|by simplify_eq].
    eapply R_trans; [by apply Hfetchlinks|].
    destruct (crawl_links W DOCS IGN _ url depth max_depth (links_before_raise W url hrefs)
                (emit (EvLinks url) st1)) as [s|] eqn:Hloop; [|discriminate].
    assert (R (emit (EvLinks url) st1) s) as Hlinks.
    { eapply crawl_links_preserves_fine; [|exact Hloop].
      intros u s1 s2 Hu Hcall. exact (IH _ _ _ _ _ Hu Hcall). }
    destruct (existsb (link_raises W url) hrefs).
    + eapply R_trans; [exact Hlinks | by apply Hhandler].
    + by simplify_eq.
Qed.

End FineInduction.

(** *** Which URLs are requested and parsed *)

(** Between [st] and [st'] only [root] and URLs that are neither
    ignored nor documents by extension were requested, and only
    requested pages without a document extension were parsed. *)
Definition requests_pages (root : string) (st st' : state) : Prop :=
  exists new,
    log st' = log st ++ new /\
    (forall u, u ∈ gets new ->
       u = root \/
       (should_ignore_url W IGN u = false /\ is_document_url W DOCS u = false)) /\
    (forall u, u ∈ links_extracted new ->
       is_document_url W DOCS u = false /\ u ∈ gets new).

Lemma requests_pages_quiet root st st' new :
  log st' = log st ++ new -> gets new = [] -> links_extracted new = [] ->
  requests_pages root st st'.
Proof.
  intros Hl Hg Hx. exists new. rewrite Hg, Hx.
  split; [done|]. split; intros u Hu; by apply elem_of_nil in Hu.
Qed.

Lemma requests_pages_trans root st1 st2 st3 :
  requests_pages root st1 st2 -> requests_pages root st2 st3 -> requests_pages root st1 st3.
Proof.
  intros (l1 & Hl1 & Hg1 & Hx1) (l2 & Hl2 & Hg2 & Hx2).
  exists (l1 ++ l2). rewrite gets_app, links_extracted_app.
  split; [|split].
  - rewrite Hl2, Hl1. by rewrite app_assoc.
  - intros u Hu. apply elem_of_app in Hu as [Hu|Hu]; auto.
  - intros u Hu. rewrite elem_of_app.
    apply elem_of_app in Hu as [Hu|Hu]; [destruct (Hx1 u Hu) | destruct (Hx2 u Hu)]; auto.
Qed.

(** The three shapes of what a call appends right after its request. *)
Lemma requests_pages_fetch root u tail s st' :
  log st' = log s ++ [EvVisit u; EvGet (session s) u 10] ++ tail ->
  u = root \/ (should_ignore_url W IGN u = false /\ is_document_url W DOCS u = false) ->
  gets tail = [] ->
  (links_extracted tail = [] \/
   (links_extracted tail = [u] /\ is_document_url W DOCS u = false)) ->
  requests_pages root s st'.
Proof.
  intros Hl Hu Hg Hx. exists ([EvVisit u; EvGet (session s) u 10] ++ tail).
  rewrite gets_app, links_extracted_app, Hg. cbn.
  split; [done|]. split.
  - intros v Hv. apply list_elem_of_singleton in Hv. by subst.
  - intros v Hv. destruct Hx as [Hx | [Hx Hd]]; rewrite Hx in Hv.
    + by apply elem_of_nil in Hv.
    + apply list_elem_of_singleton in Hv. subst. split; [done|].
      by apply list_elem_of_singleton.
Qed.

Lemma crawl_page_requests_pages fuel url depth max_depth st st' :
  crawl_page W DOCS IGN fuel url depth max_depth st = Some st' ->
  requests_pages url st st'.
Proof.
  apply (crawl_page_preserves_fine (requests_pages url)
           (fun u => u = url \/ (should_ignore_url W IGN u = false /\
                                 is_document_url W DOCS u = false))).
  - intros s. apply (requests_pages_quiet _ _ _ []); try done. by rewrite app_nil_r.
  - apply requests_pages_trans.
  - intros u Hi Hd. by right.
  - intros u s Hu _. apply (requests_pages_fetch _ u [] s); auto.
    cbn. by rewrite <- app_assoc.
  - intros u s Hu _. apply (requests_pages_fetch _ u [EvDocument u] s); auto.
    cbn. by rewrite <- !app_assoc.
  - intros u s _ _. by apply (requests_pages_quiet _ _ _ [EvDocument u]).
  - intros u s Hu _ Hd. apply (requests_pages_fetch _ u [EvLinks u] s); auto.
    cbn. by rewrite <- !app_assoc.
  - intros s _.
    destruct (rotate_session_frame W s) as (new & (_ & _ & _ & _ & _ & _ & Hl) & Hnew).
    apply transport_events_silent in Hnew as (_ & Hg & Hx).
    by apply (requests_pages_quiet _ _ _ new).
  - by left.
Qed.

(** *** Where the documents come from *)

(** The document set only grew between [st] and [st'], and what was
    added has a document extension or was requested in between. *)
Definition documents_grow (st st' : state) : Prop :=
  exists new,
    log st' = log st ++ new /\
    document_urls st ⊆ document_urls st' /\
    (forall u, u ∈ document_urls st' ->
       u ∈ document_urls st \/ is_document_url W DOCS u = true \/ u ∈ gets new).

Lemma documents_grow_same st st' new :
  log st' = log st ++ new -> document_urls st' = document_urls st ->
  documents_grow st st'.
Proof.
  intros Hl Hd. exists new. rewrite Hd. split; [done|]. split; [done|]. by left.
Qed.

Lemma documents_grow_trans st1 st2 st3 :
  documents_grow st1 st2 -> documents_grow st2 st3 -> documents_grow st1 st3.
Proof.
  intros (l1 & Hl1 & Hs1 & Hp1) (l2 & Hl2 & Hs2 & Hp2).
  exists (l1 ++ l2). rewrite gets_app. split; [|split].
  - rewrite Hl2, Hl1. by rewrite app_assoc.
  - by etrans.
  - intros u Hu. setoid_rewrite elem_of_app.
    destruct (Hp2 u Hu) as [H2|[H2|H2]]; [|by auto|by auto].
    destruct (Hp1 u H2) as [H1|[H1|H1]]; by auto.
Qed.

Lemma crawl_page_documents_grow fuel url depth max_depth st st' :
  crawl_page W DOCS IGN fuel url depth max_depth st = Some st' ->
  documents_grow st st'.
Proof.
  apply (crawl_page_preserves_fine documents_grow (fun _ => True)); try done.
  - intros s. apply (documents_grow_same _ _ []); [by rewrite app_nil_r | done].
  - apply documents_grow_trans.
  - intros u s _ _. apply (documents_grow_same _ _ [EvVisit u; EvGet (session s) u 10]);
      [cbn; by rewrite <- app_assoc | done].
  - intros u s _ _. exists [EvVisit u; EvGet (session s) u 10; EvDocument u]. cbn.
    split; [by rewrite <- !app_assoc|]. split; [apply union_subseteq_r|].
    intros v Hv. apply elem_of_union in Hv as [Hv|Hv]; [|by left].
    apply elem_of_singleton in Hv. subst. right. right. by apply list_elem_of_singleton.
  - intros u s _ Hd. exists [EvDocument u]. cbn.
    split; [done|]. split; [apply union_subseteq_r|].
    intros v Hv. apply elem_of_union in Hv as [Hv|Hv]; [|by left].
    apply elem_of_singleton in Hv. subst. by auto.
  - intros u s _ _ _.
    apply (documents_grow_same _ _ [EvVisit u; EvGet (session s) u 10; EvLinks u]);
      [cbn; by rewrite <- !app_assoc | done].
  - intros s _.
    destruct (rotate_session_frame W s) as (new & (_ & Hd & _ & _ & _ & _ & Hl) & _).
    by apply (documents_grow_same _ _ new).
Qed.

(** The link loop records every link that is a document by extension
    and not ignored. *)
Lemma crawl_links_records recurse url depth max_depth hrefs :
  (forall u s s', recurse u s = Some s' -> document_urls s ⊆ document_urls s') ->
  forall st st',
    crawl_links W DOCS IGN recurse url depth max_depth hrefs st = Some st' ->
    document_urls st ⊆ document_urls st' /\
    forall href, href ∈ hrefs ->
      should_ignore_url W IGN (urljoin W url href) = false ->
      is_document_url W DOCS (urljoin W url href) = true ->
      urljoin W url href ∈ document_urls st'.
Proof.
  intros Hrec. induction hrefs as [|href rest IH]; intros st st' Hrun; cbn in Hrun.
  - simplify_eq. split; [done|]. intros h Hh. by apply elem_of_nil in Hh.
  - destruct (should_ignore_url W IGN (urljoin W url href)) eqn:Hign.
    { destruct (IH _ _ Hrun) as [Hsub Hall]. split; [done|].
      intros h Hh Hi Hd. apply elem_of_cons in Hh as [->|Hh]; [congruence | by apply Hall]. }
    destruct (is_document_url W DOCS (urljoin W url href)) eqn:Hdoc.
    { destruct (IH _ _ Hrun) as [Hsub Hall]. cbn in Hsub. split.
      - etrans; [|exact Hsub]. apply union_subseteq_r.
      - intros h Hh Hi Hd. apply elem_of_cons in Hh as [->|Hh]; [|by apply Hall].
        apply Hsub, elem_of_union. left. by apply elem_of_singleton. }
    assert (forall s, crawl_links W DOCS IGN recurse url depth max_depth rest s = Some st' ->
              document_urls s ⊆ document_urls st' /\
              forall h, h ∈ href :: rest ->
                should_ignore_url W IGN (urljoin W url h) = false ->
                is_document_url W DOCS (urljoin W url h) = true ->
                urljoin W url h ∈ document_urls st') as Hrest.
    { intros s Hs. destruct (IH _ _ Hs) as [Hsub Hall]. split; [done|].
      intros h Hh Hi Hd. apply elem_of_cons in Hh as [->|Hh]; [congruence | by apply Hall]. }
    destruct (depth <? max_depth); [|by apply Hrest].
    destruct (recurse (urljoin W url href) st) as [st1|] eqn:Hcall; [|done].
    destruct (Hrest _ Hrun) as [Hsub Hall]. split; [|done].
    etrans; [by eapply Hrec | exact Hsub].
Qed.

(** *** What a crawl leaves alone *)

(** The process environment, the socket module, the [anonymous] flag
    and the connection object are the same in [st] and [st']. *)
Definition same_transport (st st' : state) : Prop :=
  environ st' = environ st /\ socket_patched st' = socket_patched st /\
  anonymous st' = anonymous st /\ anonymous_conn st' = anonymous_conn st.

Lemma crawl_page_same_transport fuel url depth max_depth st st' :
  crawl_page W DOCS IGN fuel url depth max_depth st = Some st' -> same_transport st st'.
Proof.
  apply (crawl_page_preserves W DOCS IGN same_transport (fun _ => True)); try done.
  - intros s1 s2 s3 (?&?&?&?) (?&?&?&?). repeat split; congruence.
  - intros s. destruct (rotate_session_frame W s) as (new & (_ & _ & ? & ? & ? & ? & _) & _).
    by repeat split.
Qed.

(** Events of a crawl that never leaves the session [s]: requests
    carry [s] and the timeout of [crawl_page]; nothing else than
    marking, parsing and recording happens. *)
Definition plain_crawl_event (s : Session) (e : event) : Prop :=
  match e with
  | EvGet s' _ timeout => s' = s /\ timeout = 10
  | EvVisit _ | EvLinks _ | EvDocument _ => True
  | _ => False
  end.

Definition stays_plain (st st' : state) : Prop :=
  anonymous st = false ->
  anonymous st' = false /\ session st' = session st /\
  exists new, log st' = log st ++ new /\ Forall (plain_crawl_event (session st)) new.

Lemma stays_plain_step st st' new :
  anonymous st' = anonymous st -> session st' = session st ->
  log st' = log st ++ new -> Forall (plain_crawl_event (session st)) new ->
  stays_plain st st'.
Proof.
  intros Ha Hs Hl Hnew Hoff. split; [congruence|]. split; [done|]. by exists new.
Qed.

Lemma stays_plain_trans st1 st2 st3 :
  stays_plain st1 st2 -> stays_plain st2 st3 -> stays_plain st1 st3.
Proof.
  intros H12 H23 H1.
  destruct (H12 H1) as (H2 & Hs2 & l1 & Hl1 & Hf1).
  destruct (H23 H2) as (H3 & Hs3 & l2 & Hl2 & Hf2).
  split; [done|]. split; [congruence|].
  exists (l1 ++ l2). split; [rewrite Hl2, Hl1; by rewrite app_assoc|].
  apply Forall_app. split; [done|]. by rewrite <- Hs2.
Qed.

Lemma crawl_page_stays_plain fuel url depth max_depth st st' :
  crawl_page W DOCS IGN fuel url depth max_depth st = Some st' -> stays_plain st st'.
Proof.
  apply (crawl_page_preserves_fine stays_plain (fun _ => True)); try done.
  - intros s. apply (stays_plain_step _ _ []); try done. by rewrite app_nil_r.
  - apply stays_plain_trans.
  - intros u s _ _. apply (stays_plain_step _ _ [EvVisit u; EvGet (session s) u 10]);
      try done; [cbn; by rewrite <- app_assoc | by repeat constructor].
  - intros u s _ _.
    apply (stays_plain_step _ _ [EvVisit u; EvGet (session s) u 10; EvDocument u]);
      try done; [cbn; by rewrite <- !app_assoc | by repeat constructor].
  - intros u s _ _. apply (stays_plain_step _ _ [EvDocument u]); try done.
    by repeat constructor.
  - intros u s _ _ _.
    apply (stays_plain_step _ _ [EvVisit u; EvGet (session s) u 10; EvLinks u]);
      try done; [cbn; by rewrite <- !app_assoc | by repeat constructor].
  - intros s Hon Hoff. congruence.
Qed.

End CrawlDetails.

(** X9. A crawl requests nothing but the URL it is started on and
    URLs whose extension is neither on the ignore list nor on the
    document list: a link with a document extension is recorded
    without ever being requested by the crawl. The only pages parsed
    for links are pages that were requested and have no document
    extension. *)
Theorem crawl_requests_only_pages (W : world) (DOCS IGN : list string)
    (fuel : nat) (url : string) (depth max_depth : Z) (st : state) :
  (crawl_fuel depth max_depth <= fuel)%nat ->
  exists st' new,
    crawl_page W DOCS IGN fuel url depth max_depth st = Some st' /\
    log st' = log st ++ new /\
    (forall u, u ∈ gets new ->
       u = url \/
       (should_ignore_url W IGN u = false /\ is_document_url W DOCS u = false)) /\
    (forall u, u ∈ links_extracted new ->
       is_document_url W DOCS u = false /\ u ∈ gets new).
Proof.
  intros Hfuel.
  destruct (crawl_page_total W DOCS IGN fuel url depth max_depth st Hfuel) as [st' Hrun].
  destruct (crawl_page_requests_pages W DOCS IGN _ _ _ _ _ _ Hrun) as (new & Hl & Hg & Hx).
  by exists st', new.
Qed.

Lemma crawl_requests_only_pages_witness :
  (crawl_fuel 1 2 <= 3)%nat /\
  exists st' new,
    crawl_page Site.plain_world default_DOCUMENT_EXTENSIONS default_IGNORE_EXTENSIONS
               3 Site.home 1 2 (Sample.fresh Site.plain_world false) = Some st' /\
    log st' = log (Sample.fresh Site.plain_world false) ++ new /\
    (forall u, u ∈ gets new ->
       u = Site.home \/
       (should_ignore_url Site.plain_world default_IGNORE_EXTENSIONS u = false /\
        is_document_url Site.plain_world default_DOCUMENT_EXTENSIONS u = false)) /\
    (forall u, u ∈ links_extracted new ->
       is_document_url Site.plain_world default_DOCUMENT_EXTENSIONS u = false /\
       u ∈ gets new).
Proof.
  split; [vm_compute; lia|].
  apply (crawl_requests_only_pages Site.plain_world default_DOCUMENT_EXTENSIONS
           default_IGNORE_EXTENSIONS 3 Site.home 1 2).
  vm_compute; lia.
Defined.

(** X10. The document set only grows during a crawl, and every URL
    the crawl adds to it either has an extension of the document list
    or was requested during the crawl (and then answered with a
    document content type or extension). *)
Theorem crawl_documents_provenance (W : world) (DOCS IGN : list string)
    (fuel : nat) (url : string) (depth max_depth : Z) (st : state) :
  (crawl_fuel depth max_depth <= fuel)%nat ->
  exists st' new,
    crawl_page W DOCS IGN fuel url depth max_depth st = Some st' /\
    log st' = log st ++ new /\
    document_urls st ⊆ document_urls st' /\
    (forall u, u ∈ document_urls st' ->
       u ∈ document_urls st \/ is_document_url W DOCS u = true \/ u ∈ gets new).
Proof.
  intros Hfuel.
  destruct (crawl_page_total W DOCS IGN fuel url depth max_depth st Hfuel) as [st' Hrun].
  destruct (crawl_page_documents_grow W DOCS IGN _ _ _ _ _ _ Hrun) as (new & Hl & Hs & Hp).
  by exists st', new.
Qed.

Lemma crawl_documents_provenance_witness :
  (crawl_fuel 1 2 <= 3)%nat /\
  exists st' new,
    crawl_page Site.plain_world default_DOCUMENT_EXTENSIONS default_IGNORE_EXTENSIONS
               3 Site.home 1 2 (Sample.fresh Site.plain_world false) = Some st' /\
    log st' = log (Sample.fresh Site.plain_world false) ++ new /\
    document_urls (Sample.fresh Site.plain_world false) ⊆ document_urls st' /\
    (forall u, u ∈ document_urls st' ->
       u ∈ document_urls (Sample.fresh Site.plain_world false) \/
       is_document_url Site.plain_world default_DOCUMENT_EXTENSIONS u = true \/
       u ∈ gets new).
Proof.
  split; [vm_compute; lia|].
  apply (crawl_documents_provenance Site.plain_world default_DOCUMENT_EXTENSIONS
           default_IGNORE_EXTENSIONS 3 Site.home 1 2).
  vm_compute; lia.
Defined.

(** On the last level the link loop calls nothing: it only records. *)
Lemma crawl_links_last_level (W : world) (DOCS IGN : list string) recurse url depth max_depth hrefs :
  max_depth <= depth ->
  forall st st',
    crawl_links W DOCS IGN recurse url depth max_depth hrefs st = Some st' ->
    visited_urls st' = visited_urls st /\
    exists new, log st' = log st ++ new /\ gets new = [] /\ visits new = [].
Proof.
  intros Hlast. induction hrefs as [|href rest IH]; intros st st' Hrun; cbn in Hrun.
  - simplify_eq. split; [done|]. exists []. by rewrite app_nil_r.
  - destruct (should_ignore_url W IGN _); [by apply IH|].
    destruct (is_document_url W DOCS _).
    + destruct (IH _ _ Hrun) as (Hv & new & Hl & Hg & Hvs). split; [done|].
      exists (EvDocument (urljoin W url href) :: new). split; [|done].
      rewrite Hl. cbn. by rewrite <- app_assoc.
    + rewrite (proj2 (Z.ltb_ge _ _) Hlast) in Hrun. by apply IH.
Qed.

(** X11. When a page is requested and parsed, every link of it that
    resolves to a URL with a document extension, and not an ignored
    one, is in the document set when the crawl returns, provided
    neither this reference nor one before it on the page makes
    [urljoin] or [urlparse] raise: a reference that raises ends the
    loop, and what follows it on the page is lost. This holds on the
    last level too ([depth = max_depth]), where the page itself is
    the only URL requested: documents one link beyond the depth
    bound are still collected. *)
Theorem document_links_are_recorded (W : world) (DOCS IGN : list string)
    (fuel : nat) (url : string) (depth max_depth : Z) (st : state)
    (content_type : string) (hrefs : list string) (stream_ok : bool) :
  (crawl_fuel depth max_depth <= fuel)%nat ->
  depth <= max_depth ->
  is_valid_url W st url = true ->
  http_get W (log st ++ [EvVisit url]) url
  = HttpResponse 200 content_type hrefs stream_ok ->
  is_document_url W DOCS url = false ->
  is_document_type content_type = false ->
  PyStr.contains "text/html" content_type = true ->
  exists st' new,
    crawl_page W DOCS IGN fuel url depth max_depth st = Some st' /\
    log st' = log st ++ new /\
    (forall before href after,
       hrefs = before ++ href :: after ->
       Forall (fun h => urljoin_raises W url h = false /\
                        urlparse_raises W (urljoin W url h) = false) (before ++ [href]) ->
       should_ignore_url W IGN (urljoin W url href) = false ->
       is_document_url W DOCS (urljoin W url href) = true ->
       urljoin W url href ∈ document_urls st') /\
    (depth = max_depth ->
     gets new = [url] /\ visited_urls st' = {[url]} ∪ visited_urls st).
Proof.
  intros Hfuel Hdepth Hvalid Hget Hext Htype Hhtml.
  destruct (crawl_page_total W DOCS IGN fuel url depth max_depth st Hfuel) as [st' Hrun].
  destruct (crawl_page_frontier_step W DOCS IGN _ _ _ _ _ _ Hrun) as (new & Hl & _).
  exists st', new. split; [exact Hrun|]. split; [exact Hl|].
  destruct fuel as [|fuel]; [discriminate|].
  cbn [crawl_page] in Hrun.
  rewrite Hvalid, (proj2 (Z.ltb_ge _ _) Hdepth) in Hrun. cbn [negb orb] in Hrun.
  unfold session_get in Hrun. cbn [log visit emit with_visited] in Hrun.
  rewrite Hget in Hrun. cbn [Z.eqb Pos.eqb negb] in Hrun.
  rewrite Hext, Htype, Hhtml in Hrun. cbn [orb] in Hrun.
  match type of Hrun with
  | match crawl_links _ _ _ ?rec _ _ _ _ ?s0 with _ => _ end = _ =>
      destruct (crawl_links W DOCS IGN rec url depth max_depth
                  (links_before_raise W url hrefs) s0) as [s|] eqn:Hloop; [|discriminate];
      set (start := s0) in *
  end.
  assert (url ∈ visited_urls s) as Hin.
  { apply (crawl_links_visited_grows W DOCS IGN _ _ _ _ _ _ _ Hloop).
    cbn. apply elem_of_union. left. by apply elem_of_singleton. }
  assert (visited_urls st' = visited_urls s /\ document_urls st' = document_urls s /\
          exists rot, log st' = log s ++ rot /\ Forall transport_event rot)
    as (Hv' & Hd' & rot & Hl' & Hrot).
  { destruct (existsb (link_raises W url) hrefs).
    - by eapply crawl_page_handler_quiet.
    - simplify_eq. do 2 (split; [done|]). exists []. by rewrite app_nil_r. }
  split.
  - intros before href after -> Hok Hign Hdoc. rewrite Hd'.
    eapply (crawl_links_records W DOCS IGN); [|exact Hloop| |exact Hign|exact Hdoc].
    + intros u s1 s2 Hc.
      by destruct (crawl_page_documents_grow W DOCS IGN _ _ _ _ _ _ Hc) as (? & _ & Hsub & _).
    + apply links_before_raise_reached.
      eapply Forall_impl; [exact Hok|]. intros h [H1 H2]. unfold link_raises.
      by rewrite H1, H2.
  - intros Heq.
    destruct (crawl_links_last_level W DOCS IGN _ url depth max_depth _
                ltac:(lia) _ _ Hloop) as (Hv & tail & Hlt & Hg & _).
    split; [|by rewrite Hv', Hv].
    apply transport_events_silent in Hrot as (_ & Hgr & _).
    rewrite Hl', Hlt in Hl. subst start. cbn in Hl.
    rewrite <- !app_assoc in Hl. apply app_inv_head in Hl.
    subst new. cbn. rewrite !gets_app, Hg, Hgr. reflexivity.
Qed.

Lemma document_links_are_recorded_witness :
  let W := Site.plain_world in
  let st := Sample.fresh W false in
  (crawl_fuel 1 1 <= 2)%nat /\
  1 <= 1 /\
  is_valid_url W st Site.home = true /\
  http_get W (log st ++ [EvVisit Site.home]) Site.home
  = HttpResponse 200 "text/html; charset=utf-8" ["/report.pdf"; "/photo.jpg"; "/next"] true /\
  is_document_url W default_DOCUMENT_EXTENSIONS Site.home = false /\
  is_document_type "text/html; charset=utf-8" = false /\
  PyStr.contains "text/html" "text/html; charset=utf-8" = true /\
  exists st' new,
    crawl_page W default_DOCUMENT_EXTENSIONS default_IGNORE_EXTENSIONS 2 Site.home 1 1 st
    = Some st' /\
    log st' = log st ++ new /\
    (forall before href after,
       ["/report.pdf"; "/photo.jpg"; "/next"] = before ++ href :: after ->
       Forall (fun h => urljoin_raises W Site.home h = false /\
                        urlparse_raises W (urljoin W Site.home h) = false) (before ++ [href]) ->
       should_ignore_url W default_IGNORE_EXTENSIONS (urljoin W Site.home href) = false ->
       is_document_url W default_DOCUMENT_EXTENSIONS (urljoin W Site.home href) = true ->
       urljoin W Site.home href ∈ document_urls st') /\
    (1 = 1 -> gets new = [Site.home] /\
              visited_urls st' = {[Site.home]} ∪ visited_urls st).
Proof.
  intros W st. split; [vm_compute; lia|]. split; [lia|].
  do 5 (split; [reflexivity|]).
  apply (document_links_are_recorded W default_DOCUMENT_EXTENSIONS default_IGNORE_EXTENSIONS
           2 Site.home 1 1 st "text/html; charset=utf-8"
           ["/report.pdf"; "/photo.jpg"; "/next"] true);
    [vm_compute; lia | lia | reflexivity | reflexivity | reflexivity | reflexivity
    | reflexivity].
Defined.

(** A page whose second reference makes [urljoin] raise: the report
    before it is recorded, the report after it is lost, and nothing
    but the page is requested. With anonymity on, the handler rotates
    once and calls [crawl_page] on the page again, which returns at
    the guard. *)
Example bad_reference_ends_the_page :
  option_map (fun st => (elements (document_urls st), gets (log st), newnyms (log st)))
    (crawl Site.broken_world default_DOCUMENT_EXTENSIONS default_IGNORE_EXTENSIONS Site.home 2
           (Sample.fresh Site.broken_world false))
  = Some (["http://a.example/a.pdf"], [Site.home], 0%nat) /\
  option_map (fun st => (elements (document_urls st), gets (log st), newnyms (log st)))
    (crawl Site.broken_tor_world default_DOCUMENT_EXTENSIONS default_IGNORE_EXTENSIONS
           Site.home 2
           (outcome_state (DocScoop_init Site.broken_tor_world true false 9050 9051 ∅)))
  = Some (["http://a.example/a.pdf"], [Site.home], 1%nat).
Proof. split; vm_compute; reflexivity. Qed.

(** X12. A crawl never changes the process environment, the socket
    module, the [anonymous] flag or the connection object, in any
    mode: it only rotates through [renew_tor_identity] and replaces
    the session. *)
Theorem crawl_leaves_transport_alone (W : world) (DOCS IGN : list string)
    (fuel : nat) (url : string) (depth max_depth : Z) (st : state) :
  (crawl_fuel depth max_depth <= fuel)%nat ->
  exists st',
    crawl_page W DOCS IGN fuel url depth max_depth st = Some st' /\
    environ st' = environ st /\
    socket_patched st' = socket_patched st /\
    anonymous st' = anonymous st /\
    anonymous_conn st' = anonymous_conn st.
Proof.
  intros Hfuel.
  destruct (crawl_page_total W DOCS IGN fuel url depth max_depth st Hfuel) as [st' Hrun].
  exists st'. split; [exact Hrun|].
  exact (crawl_page_same_transport W DOCS IGN _ _ _ _ _ _ Hrun).
Qed.

Lemma crawl_leaves_transport_alone_witness :
  (crawl_fuel 1 2 <= 3)%nat /\
  exists st',
    crawl_page Site.tor_world default_DOCUMENT_EXTENSIONS default_IGNORE_EXTENSIONS
               3 Site.home 1 2 Site.tor_scoop = Some st' /\
    environ st' = environ Site.tor_scoop /\
    socket_patched st' = socket_patched Site.tor_scoop /\
    anonymous st' = anonymous Site.tor_scoop /\
    anonymous_conn st' = anonymous_conn Site.tor_scoop.
Proof.
  split; [vm_compute; lia|].
  apply (crawl_leaves_transport_alone Site.tor_world default_DOCUMENT_EXTENSIONS
           default_IGNORE_EXTENSIONS 3 Site.home 1 2 Site.tor_scoop).
  vm_compute; lia.
Defined.

(** X13. A [DocScoop] built without anonymity crawls with one session
    from beginning to end: every request carries the session the
    crawl started with and the timeout of 10 seconds, the control port
    is never contacted, no user agent is drawn and no new identity is
    asked for. *)
Theorem plain_crawl_keeps_its_session (W : world) (DOCS IGN : list string)
    (fuel : nat) (url : string) (depth max_depth : Z) (st : state) :
  (crawl_fuel depth max_depth <= fuel)%nat ->
  anonymous st = false ->
  exists st' new,
    crawl_page W DOCS IGN fuel url depth max_depth st = Some st' /\
    session st' = session st /\
    log st' = log st ++ new /\
    Forall (plain_crawl_event (session st)) new /\
    newnyms new = 0%nat.
Proof.
  intros Hfuel Hoff.
  destruct (crawl_page_total W DOCS IGN fuel url depth max_depth st Hfuel) as [st' Hrun].
  destruct (crawl_page_stays_plain W DOCS IGN _ _ _ _ _ _ Hrun Hoff)
    as (_ & Hs & new & Hl & Hnew).
  exists st', new. do 4 (split; [done|]).
  clear Hl. induction Hnew as [|e l He _ IH]; [done|].
  destruct e; try done.
Qed.

Lemma plain_crawl_keeps_its_session_witness :
  (crawl_fuel 1 2 <= 3)%nat /\
  anonymous (Sample.fresh Site.plain_world false) = false /\
  exists st' new,
    crawl_page Site.plain_world default_DOCUMENT_EXTENSIONS default_IGNORE_EXTENSIONS
               3 Site.home 1 2 (Sample.fresh Site.plain_world false) = Some st' /\
    session st' = session (Sample.fresh Site.plain_world false) /\
    log st' = log (Sample.fresh Site.plain_world false) ++ new /\
    Forall (plain_crawl_event (session (Sample.fresh Site.plain_world false))) new /\
    newnyms new = 0%nat.
Proof.
  split; [vm_compute; lia|]. split; [reflexivity|].
  apply (plain_crawl_keeps_its_session Site.plain_world default_DOCUMENT_EXTENSIONS
           default_IGNORE_EXTENSIONS 3 Site.home 1 2 (Sample.fresh Site.plain_world false));
    [vm_compute; lia | reflexivity].
Defined.

(** X14. A request that fails ends its branch: when the answer has a
    status other than 200, or when the request raises and either
    anonymity is off or the depth is greater than 1, [crawl_page]
    returns right after its single request. The URL is in the
    frontier, the document set is untouched, no link is extracted and
    the identity is not rotated; a status other than 200 is never
    retried, in any mode. *)
Theorem failed_request_ends_the_branch (W : world) (DOCS IGN : list string)
    (fuel : nat) (url : string) (depth max_depth : Z) (st : state) :
  depth <= max_depth ->
  is_valid_url W st url = true ->
  (exists status_code content_type hrefs stream_ok,
     http_get W (log st ++ [EvVisit url]) url
     = HttpResponse status_code content_type hrefs stream_ok /\ status_code <> 200) \/
  (http_get W (log st ++ [EvVisit url]) url = HttpRaise /\
   (anonymous st = false \/ 1 < depth)) ->
  exists st',
    crawl_page W DOCS IGN (S fuel) url depth max_depth st = Some st' /\
    visited_urls st' = {[url]} ∪ visited_urls st /\
    document_urls st' = document_urls st /\
    session st' = session st /\
    log st' = log st ++ [EvVisit url; EvGet (session st) url 10].
Proof.
  intros Hdepth Hvalid Hfail.
  exists (session_get W url 10 (visit url st)).2. split.
  - cbn [crawl_page]. rewrite Hvalid, (proj2 (Z.ltb_ge _ _) Hdepth). cbn [negb orb].
    unfold session_get at 1. cbn [log visit emit with_visited].
    destruct Hfail as [(code & ct & hrefs & ok & -> & Hcode) | [-> Hterminal]].
    + by rewrite (proj2 (Z.eqb_neq _ _) Hcode).
    + change (anonymous (emit _ (visit url st))) with (anonymous st).
      destruct Hterminal as [-> | Hdeep]; [done|].
      rewrite (proj2 (Z.leb_gt _ _) Hdeep). by rewrite andb_false_r.
  - cbn. by rewrite <- app_assoc.
Qed.

Lemma failed_request_ends_the_branch_witness :
  let W := Site.plain_world in
  let st := Sample.fresh W false in
  1 <= 2 /\
  is_valid_url W st "http://a.example/missing" = true /\
  ((exists status_code content_type hrefs stream_ok,
      http_get W (log st ++ [EvVisit "http://a.example/missing"]) "http://a.example/missing"
      = HttpResponse status_code content_type hrefs stream_ok /\ status_code <> 200) \/
   (http_get W (log st ++ [EvVisit "http://a.example/missing"]) "http://a.example/missing"
    = HttpRaise /\ (anonymous st = false \/ 1 < 1))) /\
  exists st',
    crawl_page W default_DOCUMENT_EXTENSIONS default_IGNORE_EXTENSIONS 1
               "http://a.example/missing" 1 2 st = Some st' /\
    visited_urls st' = {["http://a.example/missing"]} ∪ visited_urls st /\
    document_urls st' = document_urls st /\
    session st' = session st /\
    log st' = log st ++ [EvVisit "http://a.example/missing";
                         EvGet (session st) "http://a.example/missing" 10].
Proof.
  intros W st. split; [lia|]. split; [reflexivity|].
  assert (exists status_code content_type hrefs stream_ok,
            http_get W (log st ++ [EvVisit "http://a.example/missing"])
                     "http://a.example/missing"
            = HttpResponse status_code content_type hrefs stream_ok /\ status_code <> 200)
    as Hmissing.
  { exists 404, EmptyString, [], true. split; [reflexivity | discriminate]. }
  split; [by left|].
  apply (failed_request_ends_the_branch W default_DOCUMENT_EXTENSIONS
           default_IGNORE_EXTENSIONS 0 "http://a.example/missing" 1 2 st);
    [lia | reflexivity | by left].
Defined.

(** X15. Documents are leaves: when the answer to a request has
    status 200 and the URL has a document extension, or the content
    type names a known document kind, the URL is recorded as a
    document and [crawl_page] returns; the body is not parsed and no
    link is followed, even if the content type also says [text/html]
    and the body is full of links. *)
Theorem documents_are_leaves (W : world) (DOCS IGN : list string)
    (fuel : nat) (url : string) (depth max_depth : Z) (st : state)
    (content_type : string) (hrefs : list string) (stream_ok : bool) :
  depth <= max_depth ->
  is_valid_url W st url = true ->
  http_get W (log st ++ [EvVisit url]) url
  = HttpResponse 200 content_type hrefs stream_ok ->
  is_document_url W DOCS url = true \/ is_document_type content_type = true ->
  exists st',
    crawl_page W DOCS IGN (S fuel) url depth max_depth st = Some st' /\
    visited_urls st' = {[url]} ∪ visited_urls st /\
    document_urls st' = {[url]} ∪ document_urls st /\
    log st' = log st ++ [EvVisit url; EvGet (session st) url 10; EvDocument url].
Proof.
  intros Hdepth Hvalid Hget Hdoc.
  exists (add_document url (session_get W url 10 (visit url st)).2). split.
  - cbn [crawl_page]. rewrite Hvalid, (proj2 (Z.ltb_ge _ _) Hdepth). cbn [negb orb].
    unfold session_get at 1. cbn [log visit emit with_visited]. rewrite Hget.
    cbn [Z.eqb Pos.eqb negb].
    assert (is_document_url W DOCS url || is_document_type content_type = true) as ->; [|done].
    apply orb_true_iff. exact Hdoc.
  - cbn. by rewrite <- !app_assoc.
Qed.

(** A page served as [application/pdf; text/html] with links in it is a
    document, not a page. *)
Lemma documents_are_leaves_witness :
  let W := Sample.sample_world false (true, true, true)
             (fun _ _ => HttpResponse 200 "application/pdf; text/html" ["/next"] true) in
  let st := Sample.fresh W false in
  1 <= 3 /\
  is_valid_url W st Site.home = true /\
  http_get W (log st ++ [EvVisit Site.home]) Site.home
  = HttpResponse 200 "application/pdf; text/html" ["/next"] true /\
  (is_document_url W default_DOCUMENT_EXTENSIONS Site.home = true \/
   is_document_type "application/pdf; text/html" = true) /\
  exists st',
    crawl_page W default_DOCUMENT_EXTENSIONS default_IGNORE_EXTENSIONS 1 Site.home 1 3 st
    = Some st' /\
    visited_urls st' = {[Site.home]} ∪ visited_urls st /\
    document_urls st' = {[Site.home]} ∪ document_urls st /\
    log st' = log st ++ [EvVisit Site.home; EvGet (session st) Site.home 10;
                         EvDocument Site.home].
Proof.
  intros W st. split; [lia|]. do 2 (split; [reflexivity|]). split; [by right|].
  apply (documents_are_leaves W default_DOCUMENT_EXTENSIONS default_IGNORE_EXTENSIONS
           0 Site.home 1 3 st "application/pdf; text/html" ["/next"] true);
    [lia | reflexivity | reflexivity | by right].
Defined.

(** ** Downloads, beyond the retry policy *)

(** Events of a download of [url]: requests for [url] with the timeout
    of 30 seconds, temporary files, and what a rotation logs. *)
Definition download_event (url : string) (e : event) : Prop :=
  match e with
  | EvGet _ u timeout => u = url /\ timeout = 30
  | EvTempFile _ => True
  | EvControl _ | EvAuth _ | EvNewnym | EvSleep _ | EvRandom => True
  | _ => False
  end.

Lemma transport_event_download_event url e : transport_event e -> download_event url e.
Proof. by destruct e. Qed.

(** X16. [download_document] requests nothing but the URL it is given,
    always with the 30 second timeout, and changes neither the
    frontier, the document set, the environment, the socket module,
    the [anonymous] flag nor the connection, however many times it
    retries. *)
Theorem download_touches_only_session_and_log (W : world) (fuel : nat) (url : string) :
  forall st,
    exists new,
      only_logs st (download_state (download_document W fuel url st)) new /\
      Forall (download_event url) new.
Proof.
  induction fuel as [|fuel IH]; intros st.
  - exists []. split; [apply only_logs_refl | constructor].
  - cbn [download_document].
    assert (exists new,
              only_logs st (match download_attempt W url st with
                            | inl (_, st') => st' | inr st' => st' end) new /\
              Forall (download_event url) new) as (l1 & Hl1 & Hf1).
    { unfold download_attempt, session_get.
      destruct (http_get W (log st) url) as [|code ct hrefs ok].
      - eexists. split; [apply only_logs_emit | by repeat constructor].
      - destruct (negb (code =? 200)).
        + eexists. split; [apply only_logs_emit | by repeat constructor].
        + destruct ok; (eexists; split;
            [eapply only_logs_trans; apply only_logs_emit | by repeat constructor]). }
    destruct (download_attempt W url st) as [[temp_path st1]|st1].
    { by exists l1. }
    destruct (anonymous st1); [|by exists l1].
    destruct (rotate_session_frame W st1) as (l2 & Hl2 & Hf2).
    destruct (IH (rotate_session W st1)) as (l3 & Hl3 & Hf3).
    exists (l1 ++ l2 ++ l3). split.
    + eapply only_logs_trans; [exact Hl1|]. eapply only_logs_trans; eassumption.
    + rewrite !Forall_app. repeat split; try done.
      eapply Forall_impl; [exact Hf2|]. apply transport_event_download_event.
Qed.

(** X17. A status other than 200 makes [download_document] return
    [None] after its single request, without creating a temporary
    file and, unlike an exception, without rotation or retry even when
    anonymity is active. *)
Theorem download_bad_status_is_final (W : world) (fuel : nat) (url : string) (st : state)
    (status_code : Z) (content_type : string) (hrefs : list string) (stream_ok : bool) :
  http_get W (log st) url = HttpResponse status_code content_type hrefs stream_ok ->
  status_code <> 200 ->
  download_document W (S fuel) url st
  = Returned None (emit (EvGet (session st) url 30) st).
Proof.
  intros Hget Hcode. cbn [download_document]. unfold download_attempt, session_get.
  rewrite Hget. by rewrite (proj2 (Z.eqb_neq _ _) Hcode).
Qed.

Lemma download_bad_status_is_final_witness :
  let W := Sample.sample_world true (true, true, true)
             (fun _ _ => HttpResponse 503 "text/html" [] true) in
  let st := Sample.fresh W true in
  http_get W (log st) "http://a.example/report.pdf" = HttpResponse 503 "text/html" [] true /\
  503 <> 200 /\
  anonymous st = true /\
  download_document W 5 "http://a.example/report.pdf" st
  = Returned None (emit (EvGet (session st) "http://a.example/report.pdf" 30) st).
Proof.
  intros W st. split; [reflexivity|]. split; [discriminate|]. split; [reflexivity|].
  apply (download_bad_status_is_final W 4 "http://a.example/report.pdf" st
           503 "text/html" [] true); [reflexivity | discriminate].
Defined.

(** X18. When the path of the URL has an extension, the temporary
    file gets that extension, in lower case, and the declared content
    type is not consulted. The URL is one that [urlparse] accepts and
    the extension is ASCII text of at most 64 characters: with the
    eleven characters that [tempfile] puts before the suffix, the
    name stays far below the 255 bytes a file name may have, so that
    the file can be created. *)
Theorem download_suffix_from_url (W : world) (fuel : nat) (url : string) (st : state)
    (content_type : string) (hrefs : list string) :
  http_get W (log st) url = HttpResponse 200 content_type hrefs true ->
  urlparse_raises W url = false ->
  get_file_extension W url <> EmptyString ->
  PyText.plain_ascii (PosixPath.splitext_ext (path (urlparse W url))) = true ->
  (String.length (PosixPath.splitext_ext (path (urlparse W url))) <= 64)%nat ->
  download_document W (S fuel) url st
  = Returned
      (Some (mkstemp_name W (log st ++ [EvGet (session st) url 30])
             +:+ PyStr.lower (PosixPath.splitext_ext (path (urlparse W url)))))
      (emit (EvTempFile (mkstemp_name W (log st ++ [EvGet (session st) url 30])
                         +:+ PyStr.lower (PosixPath.splitext_ext (path (urlparse W url)))))
            (emit (EvGet (session st) url 30) st)).
Proof.
  intros Hget _ Hext _ _. cbn [download_document]. unfold download_attempt, session_get.
  rewrite Hget. cbn [Z.eqb Pos.eqb negb].
  fold (get_file_extension W url).
  destruct (get_file_extension W url) eqn:He; [done|]. reflexivity.
Qed.

Lemma download_suffix_from_url_witness :
  let W := Sample.sample_world false (true, true, true)
             (fun _ _ => HttpResponse 200 "application/pdf" [] true) in
  let st := Sample.fresh W false in
  http_get W (log st) "http://a.example/NOTES.TXT" = HttpResponse 200 "application/pdf" [] true /\
  urlparse_raises W "http://a.example/NOTES.TXT" = false /\
  get_file_extension W "http://a.example/NOTES.TXT" <> EmptyString /\
  PyText.plain_ascii
    (PosixPath.splitext_ext (path (urlparse W "http://a.example/NOTES.TXT"))) = true /\
  (String.length
     (PosixPath.splitext_ext (path (urlparse W "http://a.example/NOTES.TXT"))) <= 64)%nat /\
  download_document W 1 "http://a.example/NOTES.TXT" st
  = Returned
      (Some (mkstemp_name W (log st ++ [EvGet (session st) "http://a.example/NOTES.TXT" 30])
             +:+ PyStr.lower (PosixPath.splitext_ext
                                (path (urlparse W "http://a.example/NOTES.TXT")))))
      (emit (EvTempFile
               (mkstemp_name W (log st ++ [EvGet (session st) "http://a.example/NOTES.TXT" 30])
                +:+ PyStr.lower (PosixPath.splitext_ext
                                   (path (urlparse W "http://a.example/NOTES.TXT")))))
            (emit (EvGet (session st) "http://a.example/NOTES.TXT" 30) st)).
Proof.
  intros W st. split; [reflexivity|]. split; [reflexivity|]. split; [discriminate|].
  split; [reflexivity|]. split; [vm_compute; lia|].
  apply (download_suffix_from_url W 0 "http://a.example/NOTES.TXT" st "application/pdf" []);
    [reflexivity | reflexivity | discriminate | reflexivity | vm_compute; lia].
Defined.

(** A PDF served from [/NOTES.TXT] is stored as [.txt]. *)
Example download_names_by_url :
  let W := Sample.sample_world false (true, true, true)
             (fun _ _ => HttpResponse 200 "application/pdf" [] true) in
  match download_document W 1 "http://a.example/NOTES.TXT" (Sample.fresh W false) with
  | Returned temp_path _ => temp_path
  | RecursionError _ => None
  end = Some "/tmp/tmpk3x9.txt".
Proof. vm_compute. reflexivity. Qed.

(** X19. When the body stream breaks off after the temporary file has
    been created, the file stays behind: without anonymity
    [download_document] returns [None], so the caller never learns the
    path it would have to unlink. *)
Theorem broken_stream_leaves_file_behind (W : world) (fuel : nat) (url : string) (st : state)
    (content_type : string) (hrefs : list string) :
  http_get W (log st) url = HttpResponse 200 content_type hrefs false ->
  anonymous st = false ->
  exists temp_path st',
    download_document W (S fuel) url st = Returned None st' /\
    log st' = log st ++ [EvGet (session st) url 30; EvTempFile temp_path].
Proof.
  intros Hget Hoff. cbn [download_document]. unfold download_attempt, session_get.
  rewrite Hget. cbn [Z.eqb Pos.eqb negb anonymous emit]. rewrite Hoff.
  eexists _, _. split; [reflexivity|]. cbn. by rewrite <- app_assoc.
Qed.

Lemma broken_stream_leaves_file_behind_witness :
  let W := Sample.sample_world false (true, true, true)
             (fun _ _ => HttpResponse 200 "application/pdf" [] false) in
  let st := Sample.fresh W false in
  http_get W (log st) "http://a.example/report.pdf"
  = HttpResponse 200 "application/pdf" [] false /\
  anonymous st = false /\
  exists temp_path st',
    download_document W 1 "http://a.example/report.pdf" st = Returned None st' /\
    log st' = log st ++ [EvGet (session st) "http://a.example/report.pdf" 30;
                         EvTempFile temp_path].
Proof.
  intros W st. split; [reflexivity|]. split; [reflexivity|].
  apply (broken_stream_leaves_file_behind W 0 "http://a.example/report.pdf" st
           "application/pdf" []); reflexivity.
Defined.

(** *** Content types in the crawl and in the download *)

(** X20. The crawl and the download agree on content types: a content
    type makes [crawl_page] record a document exactly when it makes
    [download_document] choose a suffix other than [.txt]. *)
Theorem document_type_iff_suffix (content_type : string) :
  is_document_type content_type = true <-> content_type_suffix content_type <> ".txt".
Proof.
  unfold is_document_type, content_type_suffix.
  destruct (PyStr.contains "application/pdf" content_type),
           (PyStr.contains "application/msword" content_type),
           (PyStr.contains "application/vnd.openxmlformats" content_type);
    cbn; split; try done; intros H; by contradict H.
Qed.

(** ** File extensions *)

Module PathFacts.

(** [c] occurs in [s]. *)
Fixpoint has_char (c : ascii) (s : string) : Prop :=
  match s with
  | EmptyString => False
  | String a rest => a = c \/ has_char c rest
  end.

Lemma has_char_app c s1 s2 : has_char c (s1 +:+ s2) <-> has_char c s1 \/ has_char c s2.
Proof.
  induction s1 as [|a s1 IH]; simpl; [tauto | rewrite IH; tauto].
Qed.

Lemma length_app_string s1 s2 :
  String.length (s1 +:+ s2) = (String.length s1 + String.length s2)%nat.
Proof.
  induction s1 as [|a s1 IH]; simpl; [done | by rewrite IH].
Qed.

Lemma rfind_from_range c s : forall i,
  PyStr.rfind_from c s i = -1 \/
  (i <= PyStr.rfind_from c s i < i + Z.of_nat (String.length s)).
Proof.
  induction s as [|a s IH]; intros i; cbn [PyStr.rfind_from]; [by left|].
  destruct (IH (i + 1)) as [Hr | Hr].
  - rewrite Hr. cbn. destruct (Ascii.eqb a c); [right|left]; cbn [String.length]; lia.
  - destruct (0 <=? PyStr.rfind_from c s (i + 1)) eqn:Hpos.
    + right. cbn [String.length]. lia.
    + destruct (Ascii.eqb a c); [right|left]; cbn [String.length]; lia.
Qed.

Lemma rfind_from_absent c s : forall i,
  0 <= i -> PyStr.rfind_from c s i < 0 -> ~ has_char c s.
Proof.
  induction s as [|a s IH]; intros i Hi Hr; cbn; [tauto|].
  cbn [PyStr.rfind_from] in Hr.
  destruct (0 <=? PyStr.rfind_from c s (i + 1)) eqn:Hpos; [apply Z.leb_le in Hpos; lia|].
  apply Z.leb_gt in Hpos.
  destruct (Ascii.eqb a c) eqn:Hac; [lia|].
  apply Ascii.eqb_neq in Hac. intros [H|H]; [done|].
  by apply (IH (i + 1)); [lia | |].
Qed.

Lemma rfind_from_present c s : forall i,
  0 <= i -> ~ has_char c s -> PyStr.rfind_from c s i = -1.
Proof.
  induction s as [|a s IH]; intros i Hi Hno; cbn [PyStr.rfind_from]; [done|].
  cbn in Hno. rewrite (IH (i + 1)) by (lia || tauto). cbn.
  destruct (Ascii.eqb a c) eqn:Hac; [|done].
  apply Ascii.eqb_eq in Hac. tauto.
Qed.

Lemma substring_all s : String.substring 0 (String.length s) s = s.
Proof. induction s as [|a s IH]; simpl; [done | by rewrite IH]. Qed.

Lemma drop_zero s : PyStr.drop 0 s = s.
Proof.
  unfold PyStr.drop. change (Z.to_nat 0) with 0%nat.
  rewrite Nat.sub_0_r. apply substring_all.
Qed.

Lemma drop_succ k a s : 0 <= k -> PyStr.drop (k + 1) (String a s) = PyStr.drop k s.
Proof.
  intros Hk. unfold PyStr.drop.
  replace (Z.to_nat (k + 1)) with (S (Z.to_nat k)) by lia. reflexivity.
Qed.

Lemma drop_empty k : PyStr.drop k EmptyString = EmptyString.
Proof. unfold PyStr.drop. by destruct (Z.to_nat k). Qed.

(** From the index [rfind] returns on, the string is [c] followed by
    a tail without [c]. *)
Lemma drop_rfind_from c s : forall i,
  0 <= i -> 0 <= PyStr.rfind_from c s i ->
  exists tail,
    PyStr.drop (PyStr.rfind_from c s i - i) s = String c tail /\ ~ has_char c tail.
Proof.
  induction s as [|a s IH]; intros i Hi Hr; cbn [PyStr.rfind_from] in *; [lia|].
  destruct (0 <=? PyStr.rfind_from c s (i + 1)) eqn:Hpos.
  - apply Z.leb_le in Hpos.
    destruct (IH (i + 1) ltac:(lia) Hpos) as (tail & Hd & Hno).
    destruct (rfind_from_range c s (i + 1)) as [Hm | Hrange]; [lia|].
    exists tail. split; [|done].
    replace (PyStr.rfind_from c s (i + 1) - i)
      with ((PyStr.rfind_from c s (i + 1) - (i + 1)) + 1) by lia.
    rewrite drop_succ by lia. exact Hd.
  - apply Z.leb_gt in Hpos.
    destruct (Ascii.eqb a c) eqn:Hac; [|lia].
    apply Ascii.eqb_eq in Hac. subst a. exists s.
    rewrite Z.sub_diag, drop_zero. split; [done|].
    by apply (rfind_from_absent c s (i + 1)); [lia|].
Qed.

(** Past the last occurrence of [c] there is no [c]. *)
Lemma drop_past_rfind c s : forall i k,
  0 <= i -> 0 <= k -> PyStr.rfind_from c s i < i + k ->
  ~ has_char c (PyStr.drop k s).
Proof.
  induction s as [|a s IH]; intros i k Hi Hk Hr.
  - rewrite drop_empty. cbn. tauto.
  - destruct (decide (k = 0)) as [->|Hk0].
    + rewrite drop_zero.
      destruct (rfind_from_range c (String a s) i) as [Hm | Hrange]; [|lia].
      by apply (rfind_from_absent c (String a s) i); [|lia].
    + replace k with ((k - 1) + 1) by lia. rewrite drop_succ by lia.
      apply (IH (i + 1)); [lia | lia |].
      cbn [PyStr.rfind_from] in Hr.
      destruct (0 <=? PyStr.rfind_from c s (i + 1)) eqn:Hpos; [lia|].
      apply Z.leb_gt in Hpos. lia.
Qed.

(** The extension [os.path.splitext] returns is empty, or a dot
    followed by characters among which there is neither a dot nor a
    slash. *)
Lemma splitext_ext_shape p :
  PosixPath.splitext_ext p = EmptyString \/
  exists tail,
    PosixPath.splitext_ext p = String "."%char tail /\
    ~ has_char "."%char tail /\ ~ has_char "/"%char tail.
Proof.
  unfold PosixPath.splitext_ext, PyStr.rfind.
  destruct (PyStr.rfind_from "/" p 0 <? PyStr.rfind_from "." p 0) eqn:Hlt; [|by left].
  apply Z.ltb_lt in Hlt.
  destruct (PosixPath.some_non_dot _ _ _); [|by left].
  right.
  destruct (rfind_from_range "/" p 0) as [Hs | Hs];
    (destruct (drop_rfind_from "." p 0 ltac:(lia) ltac:(lia)) as (tail & Hd & Hno);
     rewrite Z.sub_0_r in Hd;
     exists tail; split; [exact Hd|]; split; [exact Hno|];
     pose proof (drop_past_rfind "/" p 0 (PyStr.rfind_from "." p 0)
                   ltac:(lia) ltac:(lia) ltac:(lia)) as Hslash;
     rewrite Hd in Hslash; cbn in Hslash; tauto).
Qed.

(** Lower-casing produces no dot and no slash and leaves no upper-case
    ASCII letter. *)
Lemma lower_ascii_fixed c :
  PyStr.lower_ascii (PyStr.lower_ascii c) = PyStr.lower_ascii c /\
  (PyStr.lower_ascii c = "."%char -> c = "."%char) /\
  (PyStr.lower_ascii c = "/"%char -> c = "/"%char).
Proof.
  destruct c as [[] [] [] [] [] [] [] []]; vm_compute; repeat split; congruence.
Qed.

Lemma lower_idempotent s : PyStr.lower (PyStr.lower s) = PyStr.lower s.
Proof.
  induction s as [|a s IH]; cbn; [done|].
  by rewrite IH, (proj1 (lower_ascii_fixed a)).
Qed.

Lemma has_char_lower c s :
  (c = "."%char \/ c = "/"%char) -> has_char c (PyStr.lower s) -> has_char c s.
Proof.
  intros Hc. induction s as [|a s IH]; cbn; [done|].
  intros [Ha | Hs]; [left | right; by apply IH].
  destruct (lower_ascii_fixed a) as (_ & Hdot & Hslash).
  destruct Hc as [-> | ->]; auto.
Qed.

End PathFacts.

(** What an extension that [get_file_extension] can return looks like:
    empty, or a dot followed by characters that are not dots, slashes
    or upper-case ASCII letters. *)
Definition matchable_extension (ext : string) : Prop :=
  ext = EmptyString \/
  exists tail,
    ext = String "."%char tail /\
    ~ PathFacts.has_char "."%char tail /\
    ~ PathFacts.has_char "/"%char tail /\
    PyStr.lower tail = tail.

Lemma extension_shape_aux (W : world) (url : string) :
  matchable_extension (get_file_extension W url).
Proof.
  unfold get_file_extension.
  destruct (PathFacts.splitext_ext_shape (path (urlparse W url)))
    as [-> | (tail & -> & Hdot & Hslash)]; [by left|].
  right. exists (PyStr.lower tail). split; [reflexivity|].
  split; [|split].
  - intros H. apply Hdot. apply PathFacts.has_char_lower; [by left | done].
  - intros H. apply Hslash. apply PathFacts.has_char_lower; [by right | done].
  - apply PathFacts.lower_idempotent.
Qed.

(** X21. [get_file_extension] returns either the empty string or a
    dot followed by characters none of which is a dot, a slash or an
    upper-case ASCII letter, whatever the URL and whatever [urlparse]
    makes of it; the same holds of [os.path.splitext] before the
    lower-casing, upper case apart. *)
Theorem extension_shape (W : world) (url : string) :
  matchable_extension (get_file_extension W url) /\
  forall p,
    PosixPath.splitext_ext p = EmptyString \/
    exists tail,
      PosixPath.splitext_ext p = String "."%char tail /\
      ~ PathFacts.has_char "."%char tail /\ ~ PathFacts.has_char "/"%char tail.
Proof. split; [apply extension_shape_aux | apply PathFacts.splitext_ext_shape]. Qed.

(** X22. An entry of [DOCUMENT_EXTENSIONS] or [IGNORE_EXTENSIONS] that
    is not of that form ([pdf], [.PDF], [..pdf], [.tar.gz]) never
    matches any URL: adding it to either list changes no
    classification. *)
Theorem malformed_entry_is_inert (W : world) (url : string) (entry : string)
    (exts : list string) :
  ~ matchable_extension entry ->
  is_document_url W (exts ++ [entry]) url = is_document_url W exts url /\
  should_ignore_url W (exts ++ [entry]) url = should_ignore_url W exts url.
Proof.
  intros Hbad.
  assert (forall l, bool_decide (get_file_extension W url ∈ l ++ [entry])
                    = bool_decide (get_file_extension W url ∈ l)) as Hsame.
  { intros l. apply bool_decide_ext. rewrite elem_of_app, list_elem_of_singleton.
    split; [|by left]. intros [H | H]; [done|].
    contradict Hbad. rewrite <- H. apply extension_shape_aux. }
  split; apply Hsame.
Qed.

Lemma double_dot_not_matchable : ~ matchable_extension "..pdf".
Proof.
  intros [H | (tail & H & Hdot & _)]; [discriminate|].
  injection H as <-. apply Hdot. cbn. by left.
Qed.

Lemma malformed_entry_is_inert_witness :
  ~ matchable_extension "..pdf" /\
  is_document_url Site.plain_world (default_DOCUMENT_EXTENSIONS ++ ["..pdf"])
                  "http://a.example/report..pdf"
  = is_document_url Site.plain_world default_DOCUMENT_EXTENSIONS
                    "http://a.example/report..pdf" /\
  should_ignore_url Site.plain_world (default_IGNORE_EXTENSIONS ++ ["..pdf"])
                    "http://a.example/report..pdf"
  = should_ignore_url Site.plain_world default_IGNORE_EXTENSIONS
                      "http://a.example/report..pdf".
Proof.
  split; [exact double_dot_not_matchable|].
  split.
  - apply (malformed_entry_is_inert Site.plain_world "http://a.example/report..pdf" "..pdf"
             default_DOCUMENT_EXTENSIONS double_dot_not_matchable).
  - apply (malformed_entry_is_inert Site.plain_world "http://a.example/report..pdf" "..pdf"
             default_IGNORE_EXTENSIONS double_dot_not_matchable).
Defined.

Module PathRoundTrip.

Import PathFacts.

Lemma rfind_from_app c a b : forall i,
  0 <= i ->
  PyStr.rfind_from c (a +:+ b) i
  = if 0 <=? PyStr.rfind_from c b (i + Z.of_nat (String.length a))
    then PyStr.rfind_from c b (i + Z.of_nat (String.length a))
    else PyStr.rfind_from c a i.
Proof.
  induction a as [|x a IH]; intros i Hi.
  - change (EmptyString +:+ b) with b.
    cbn [String.length Z.of_nat PyStr.rfind_from]. rewrite Z.add_0_r.
    destruct (rfind_from_range c b i) as [-> | Hr]; [reflexivity|].
    by rewrite (proj2 (Z.leb_le _ _)) by lia.
  - change (String x a +:+ b) with (String x (a +:+ b)).
    cbn [PyStr.rfind_from]. rewrite IH by lia.
    replace (i + 1 + Z.of_nat (String.length a))
      with (i + Z.of_nat (String.length (String x a))) by (cbn [String.length]; lia).
    set (r := PyStr.rfind_from c b _).
    destruct (0 <=? r) eqn:Hr; [by rewrite Hr | done].
Qed.

Lemma append_assoc_string a b c : (a +:+ b) +:+ c = a +:+ (b +:+ c).
Proof.
  induction a as [|x a IH]; [done|].
  change (String x ((a +:+ b) +:+ c) = String x (a +:+ (b +:+ c))). by rewrite IH.
Qed.

Lemma rfind_from_head c s i :
  0 <= i -> ~ has_char c s -> PyStr.rfind_from c (String c s) i = i.
Proof.
  intros Hi Hno. cbn [PyStr.rfind_from].
  rewrite (rfind_from_present c s (i + 1)) by (lia || done).
  cbn. by rewrite Ascii.eqb_refl.
Qed.

Lemma get_app_r a b n :
  String.get (String.length a + n) (a +:+ b) = String.get n b.
Proof. induction a as [|x a IH]; simpl; [done | exact IH]. Qed.

Lemma drop_app a b : PyStr.drop (Z.of_nat (String.length a)) (a +:+ b) = b.
Proof.
  induction a as [|x a IH].
  - apply drop_zero.
  - change (String x a +:+ b) with (String x (a +:+ b)).
    replace (Z.of_nat (String.length (String x a)))
      with (Z.of_nat (String.length a) + 1) by (cbn [String.length]; lia).
    rewrite drop_succ by lia. exact IH.
Qed.

End PathRoundTrip.

(** X23. For a URL that [urlparse] accepts and whose path ends in a
    file name with an extension, the name starting with a character
    other than a dot and the extension made of ASCII characters, free
    of dots and slashes, [get_file_extension] returns the dot and the
    extension in lower case, whatever directories precede the name
    (dots in directory names included). *)
Theorem extension_of_named_file (W : world) (url : string)
    (dir : string) (c : ascii) (name ext : string) :
  urlparse_raises W url = false ->
  path (urlparse W url) = dir +:+ String "/"%char (String c name) +:+ String "."%char ext ->
  c <> "."%char -> c <> "/"%char ->
  ~ PathFacts.has_char "/"%char name ->
  ~ PathFacts.has_char "/"%char ext ->
  ~ PathFacts.has_char "."%char ext ->
  PyText.plain_ascii ext = true ->
  get_file_extension W url = String "."%char (PyStr.lower ext).
Proof.
  intros _ Hpath Hc1 Hc2 Hname Hext1 Hext2 _.
  unfold get_file_extension. rewrite Hpath. clear Hpath.
  rewrite <- PathRoundTrip.append_assoc_string.
  set (stem := dir +:+ String "/"%char (String c name)).
  set (p := stem +:+ String "."%char ext).
  assert (String.length stem = String.length dir + 2 + String.length name)%nat as Hlen.
  { unfold stem. rewrite PathFacts.length_app_string. cbn [String.length]. lia. }
  assert (PyStr.rfind "."%char p = Z.of_nat (String.length stem)) as Hdot.
  { unfold PyStr.rfind, p. rewrite PathRoundTrip.rfind_from_app by lia.
    rewrite PathRoundTrip.rfind_from_head by (lia || done).
    by rewrite (proj2 (Z.leb_le _ _)) by lia. }
  assert (PyStr.rfind "/"%char p = Z.of_nat (String.length dir)) as Hsep.
  { unfold PyStr.rfind, p. rewrite PathRoundTrip.rfind_from_app by lia.
    rewrite (PathFacts.rfind_from_present "/"%char (String "."%char ext)).
    2: lia.
    2: { cbn. intros [H|H]; [discriminate | done]. }
    cbn [Z.leb Z.compare].
    unfold stem. rewrite PathRoundTrip.rfind_from_app by lia.
    rewrite PathRoundTrip.rfind_from_head.
    - by rewrite (proj2 (Z.leb_le _ _)) by lia.
    - lia.
    - cbn. intros [H|H]; [by apply Hc2 | done]. }
  unfold PosixPath.splitext_ext. cbv zeta. rewrite Hdot, Hsep.
  rewrite (proj2 (Z.ltb_lt _ _)) by lia.
  replace (Z.to_nat (Z.of_nat (String.length stem) - (Z.of_nat (String.length dir) + 1)))
    with (S (String.length name)) by lia.
  cbn [PosixPath.some_non_dot].
  replace (Z.to_nat (Z.of_nat (String.length dir) + 1))
    with (String.length dir + 1)%nat by lia.
  assert (String.get (String.length dir + 1) p = Some c) as ->.
  { unfold p, stem. rewrite PathRoundTrip.append_assoc_string.
    rewrite PathRoundTrip.get_app_r. reflexivity. }
  rewrite (proj2 (Ascii.eqb_neq _ _) Hc1).
  unfold p. by rewrite PathRoundTrip.drop_app.
Qed.

Lemma extension_of_named_file_witness :
  urlparse_raises Site.plain_world "http://a.example/v1.2/Annual.Report.PDF" = false /\
  path (urlparse Site.plain_world "http://a.example/v1.2/Annual.Report.PDF")
  = "/v1.2" +:+ String "/"%char (String "A"%char "nnual.Report") +:+ String "."%char "PDF" /\
  "A"%char <> "."%char /\ "A"%char <> "/"%char /\
  ~ PathFacts.has_char "/"%char "nnual.Report" /\
  ~ PathFacts.has_char "/"%char "PDF" /\
  ~ PathFacts.has_char "."%char "PDF" /\
  PyText.plain_ascii "PDF" = true /\
  get_file_extension Site.plain_world "http://a.example/v1.2/Annual.Report.PDF"
  = String "."%char (PyStr.lower "PDF").
Proof.
  assert (~ PathFacts.has_char "/"%char "nnual.Report") as H1 by (cbn; intuition discriminate).
  assert (~ PathFacts.has_char "/"%char "PDF") as H2 by (cbn; intuition discriminate).
  assert (~ PathFacts.has_char "."%char "PDF") as H3 by (cbn; intuition discriminate).
  split; [reflexivity|].
  split; [reflexivity|]. split; [discriminate|]. split; [discriminate|].
  do 3 (split; [assumption|]). split; [reflexivity|].
  apply (extension_of_named_file Site.plain_world "http://a.example/v1.2/Annual.Report.PDF"
           "/v1.2" "A"%char "nnual.Report" "PDF");
    [reflexivity | reflexivity | discriminate | discriminate | assumption | assumption
    | assumption | reflexivity].
Defined.

(** ** [docscoop_cli.py]: the extension options *)

Module Cli.

(** [f".{ext.strip().lower()}"] *)
Definition dotted (ext : string) : string :=
  String "."%char (PyStr.lower (PyText.strip ext)).

(** The list comprehension over [option.split(',')]. *)
Definition extensions_of (option : string) : list string :=
  map dotted (PyText.split ","%char option).

(** The two [if] blocks of [main] that process [--include-ext] and
    [--exclude-ext]; an option that was not given is [None]. The pair
    is ([DOCUMENT_EXTENSIONS], [IGNORE_EXTENSIONS]). *)
Definition configure_extensions (include_ext exclude_ext : option string)
    (lists : list string * list string) : list string * list string :=
  let '(documents, ignored) := lists in
  let documents :=
    match include_ext with
    | Some s => if PyStr.truthy s then documents ++ extensions_of s else documents
    | None => documents
    end in
  match exclude_ext with
  | Some s =>
      if PyStr.truthy s then
        let excluded := extensions_of s in
        (filter (fun ext => ext ∉ excluded) documents, ignored ++ excluded)
      else (documents, ignored)
  | None => (documents, ignored)
  end.

End Cli.

Example split_options : PyText.split ","%char "pdf, DOCX ,,md" = ["pdf"; " DOCX "; EmptyString; "md"].
Proof. reflexivity. Qed.
Example extensions_of_options :
  Cli.extensions_of "pdf, DOCX ,,md" = [".pdf"; ".docx"; "."; ".md"].
Proof. reflexivity. Qed.
Example strip_inner_space : PyText.strip "  tar gz	" = "tar gz".
Proof. reflexivity. Qed.

(** [--include-ext jpg --exclude-ext txt] on the defaults. *)
Example configure_sample :
  Cli.configure_extensions (Some "jpg") (Some "txt")
    (default_DOCUMENT_EXTENSIONS, default_IGNORE_EXTENSIONS)
  = ([".pdf"; ".doc"; ".docx"; ".rtf"; ".csv"; ".xls"; ".xlsx"; ".jpg"],
     [".jpg"; ".jpeg"; ".png"; ".gif"; ".bmp"; ".svg"; ".mp4"; ".avi"; ".mov"; ".txt"]).
Proof. vm_compute. reflexivity. Qed.

Lemma has_char_lower_dot s :
  PathFacts.has_char "."%char s -> PathFacts.has_char "."%char (PyStr.lower s).
Proof.
  induction s as [|a s IH]; cbn; [done|].
  intros [-> | H]; [by left | right; auto].
Qed.

(** A piece that still shows a dot after stripping gives an entry
    with two dots, which no URL produces. *)
Lemma dotted_piece_never_matches (W : world) (url piece : string) :
  PathFacts.has_char "."%char (PyText.strip piece) ->
  get_file_extension W url <> Cli.dotted piece.
Proof.
  intros Hdot Heq.
  destruct (extension_shape_aux W url) as [H | (tail & H & Hno & _)];
    rewrite Heq in H; [discriminate|].
  injection H as <-. by apply Hno, has_char_lower_dot.
Qed.

(** What the two options leave alone: a URL whose extension neither
    option lists is classified as before. *)
Lemma configure_extensions_frame (W : world) (include_ext exclude_ext : option string)
    (documents ignored : list string) (url : string) :
  (forall s, include_ext = Some s -> get_file_extension W url ∉ Cli.extensions_of s) ->
  (forall s, exclude_ext = Some s -> get_file_extension W url ∉ Cli.extensions_of s) ->
  is_document_url W
    (fst (Cli.configure_extensions include_ext exclude_ext (documents, ignored))) url
  = is_document_url W documents url /\
  should_ignore_url W
    (snd (Cli.configure_extensions include_ext exclude_ext (documents, ignored))) url
  = should_ignore_url W ignored url.
Proof.
  intros Hin Hex. unfold is_document_url, should_ignore_url, Cli.configure_extensions.
  set (ext := get_file_extension W url) in *.
  set (documents1 := match include_ext with
                     | Some s => if PyStr.truthy s then documents ++ Cli.extensions_of s
                                 else documents
                     | None => documents
                     end).
  assert (ext ∈ documents1 <-> ext ∈ documents) as Hdocs.
  { subst documents1. destruct include_ext as [s|]; [|done].
    destruct (PyStr.truthy s); [|done].
    rewrite elem_of_app. specialize (Hin s eq_refl). tauto. }
  destruct exclude_ext as [s|]; [destruct (PyStr.truthy s)|]; cbn [fst snd];
    try (split; [by apply bool_decide_ext | done]).
  specialize (Hex s eq_refl). split; apply bool_decide_ext.
  - rewrite list_elem_of_filter. tauto.
  - rewrite elem_of_app. tauto.
Qed.

(** X24. [--exclude-ext] wins over everything else: a URL whose
    extension the option names is no document and is ignored after
    the options are processed, whatever the lists held before and
    whatever [--include-ext] asked for. *)
Theorem exclusion_wins (W : world) (include_ext : option string) (excluded : string)
    (documents ignored : list string) (url : string) :
  PyStr.truthy excluded = true ->
  get_file_extension W url ∈ Cli.extensions_of excluded ->
  is_document_url W
    (fst (Cli.configure_extensions include_ext (Some excluded) (documents, ignored))) url
  = false /\
  should_ignore_url W
    (snd (Cli.configure_extensions include_ext (Some excluded) (documents, ignored))) url
  = true.
Proof.
  intros Htruthy Hnamed.
  unfold is_document_url, should_ignore_url, Cli.configure_extensions.
  rewrite Htruthy. cbn [fst snd]. split.
  - apply bool_decide_eq_false. rewrite list_elem_of_filter. tauto.
  - apply bool_decide_eq_true. rewrite elem_of_app. by right.
Qed.

Lemma exclusion_wins_witness :
  is_document_url Site.plain_world
    (fst (Cli.configure_extensions (Some "txt,jpg") (Some "JPG, txt")
            (default_DOCUMENT_EXTENSIONS, default_IGNORE_EXTENSIONS)))
    "http://a.example/notes.txt" = false /\
  should_ignore_url Site.plain_world
    (snd (Cli.configure_extensions (Some "txt,jpg") (Some "JPG, txt")
            (default_DOCUMENT_EXTENSIONS, default_IGNORE_EXTENSIONS)))
    "http://a.example/notes.txt" = true.
Proof.
  apply (exclusion_wins Site.plain_world (Some "txt,jpg") "JPG, txt").
  - reflexivity.
  - apply (bool_decide_unpack _). vm_compute. exact I.
Defined.

(** X25. The options change the class of named extensions only: a URL
    whose extension neither option lists is a document, or ignored,
    after the options are processed exactly when it was before. *)
Theorem unnamed_extensions_keep_their_class (W : world)
    (include_ext exclude_ext : option string)
    (documents ignored : list string) (url : string) :
  (forall s, include_ext = Some s -> get_file_extension W url ∉ Cli.extensions_of s) ->
  (forall s, exclude_ext = Some s -> get_file_extension W url ∉ Cli.extensions_of s) ->
  is_document_url W
    (fst (Cli.configure_extensions include_ext exclude_ext (documents, ignored))) url
  = is_document_url W documents url /\
  should_ignore_url W
    (snd (Cli.configure_extensions include_ext exclude_ext (documents, ignored))) url
  = should_ignore_url W ignored url.
Proof. apply configure_extensions_frame. Qed.

Lemma unnamed_extensions_keep_their_class_witness :
  is_document_url Site.plain_world
    (fst (Cli.configure_extensions (Some "jpg") (Some "txt")
            (default_DOCUMENT_EXTENSIONS, default_IGNORE_EXTENSIONS)))
    "http://a.example/report.pdf"
  = is_document_url Site.plain_world default_DOCUMENT_EXTENSIONS "http://a.example/report.pdf" /\
  should_ignore_url Site.plain_world
    (snd (Cli.configure_extensions (Some "jpg") (Some "txt")
            (default_DOCUMENT_EXTENSIONS, default_IGNORE_EXTENSIONS)))
    "http://a.example/report.pdf"
  = should_ignore_url Site.plain_world default_IGNORE_EXTENSIONS "http://a.example/report.pdf".
Proof.
  apply (unnamed_extensions_keep_their_class Site.plain_world (Some "jpg") (Some "txt")).
  - intros s [= <-]. apply (bool_decide_unpack _). vm_compute. exact I.
  - intros s [= <-]. apply (bool_decide_unpack _). vm_compute. exact I.
Defined.

(** X26. The options expect bare names. When every comma-separated
    piece of both options still shows a dot after stripping ([.jpg],
    [tar.gz]), processing them changes the class of no URL: the
    entries they add start with two dots or hold an inner dot, and
    [get_file_extension] never returns such a string. *)
Theorem dotted_options_are_inert (W : world) (include_ext exclude_ext : option string)
    (documents ignored : list string) (url : string) :
  (forall s piece, include_ext = Some s \/ exclude_ext = Some s ->
     piece ∈ PyText.split ","%char s -> PathFacts.has_char "."%char (PyText.strip piece)) ->
  is_document_url W
    (fst (Cli.configure_extensions include_ext exclude_ext (documents, ignored))) url
  = is_document_url W documents url /\
  should_ignore_url W
    (snd (Cli.configure_extensions include_ext exclude_ext (documents, ignored))) url
  = should_ignore_url W ignored url.
Proof.
  intros Hdots.
  assert (forall s, include_ext = Some s \/ exclude_ext = Some s ->
            get_file_extension W url ∉ Cli.extensions_of s) as Hnot.
  { intros s Hs Hin. unfold Cli.extensions_of in Hin.
    apply list_elem_of_fmap in Hin as (piece & Heq & Hpiece).
    by eapply dotted_piece_never_matches; [eapply Hdots|]. }
  apply configure_extensions_frame; intros s Hs; apply Hnot; auto.
Qed.

Lemma dotted_options_are_inert_witness :
  is_document_url Site.plain_world
    (fst (Cli.configure_extensions (Some ".jpg, .PNG") None
            (default_DOCUMENT_EXTENSIONS, default_IGNORE_EXTENSIONS)))
    "http://a.example/photo.jpg" = false /\
  (".jpg" ∈ fst (Cli.configure_extensions (Some "jpg") None
                   (default_DOCUMENT_EXTENSIONS, default_IGNORE_EXTENSIONS))).
Proof.
  split.
  - transitivity (is_document_url Site.plain_world default_DOCUMENT_EXTENSIONS
                    "http://a.example/photo.jpg"); [|by vm_compute].
    apply (dotted_options_are_inert Site.plain_world (Some ".jpg, .PNG") None).
    intros s piece [[= <-] | [=]] Hpiece.
    change (PyText.split ","%char ".jpg, .PNG") with [".jpg"; " .PNG"] in Hpiece.
    apply elem_of_cons in Hpiece as [-> | Hpiece]; [cbn; by left|].
    apply list_elem_of_singleton in Hpiece as ->. cbn. by left.
  - apply (bool_decide_unpack _). vm_compute. exact I.
Defined.

(** ** [document_parser.py] and the analysis half of [docscoop.py] *)

(** What the analysis reaches outside the program: libmagic, the file
    system and the language model. A [None] or an [inr] stands for a
    call that raises; the model sees the prompts sent before, so it
    need not answer the same prompt the same way twice. The last two
    fields are the order in which Python iterates over a [set], which
    may depend on how the set was built, and the one thing known of
    it: every element comes once. *)
Record services := mkServices {
  magic_from_file : string -> option string;
  read_text : string -> option string;
  generate_content : list string -> string -> string + string;
  iteration_order : list event -> gset string -> list string;
  iteration_order_lists : forall l s, iteration_order l s ≡ₚ elements s;
}.

Module DocumentParser.

Definition parser : Type := services -> string -> string.

Definition _parse_text : parser := fun A file_path =>
  match read_text A file_path with
  | Some text => text
  | None => EmptyString
  end.

Definition _parse_pdf : parser := fun _ file_path =>
  "[Placeholder: PDF text extraction from " +:+ file_path
  +:+ ". Install PyPDF2 for real implementation]".

Definition _parse_doc : parser := fun _ file_path =>
  "[Placeholder: DOC text extraction from " +:+ file_path
  +:+ ". Install appropriate libraries for real implementation]".

Definition _parse_docx : parser := fun _ file_path =>
  "[Placeholder: DOCX text extraction from " +:+ file_path
  +:+ ". Install python-docx for real implementation]".

Definition _parse_excel : parser := fun _ file_path =>
  "[Placeholder: XLS text extraction from " +:+ file_path
  +:+ ". Install pandas or xlrd for real implementation]".

Definition _parse_xlsx : parser := fun _ file_path =>
  "[Placeholder: XLSX text extraction from " +:+ file_path
  +:+ ". Install pandas or openpyxl for real implementation]".

Definition _parse_csv : parser := fun _ file_path =>
  "[Placeholder: CSV text extraction from " +:+ file_path
  +:+ ". Install pandas for real implementation]".

Definition _parse_rtf : parser := fun _ file_path =>
  "[Placeholder: RTF text extraction from " +:+ file_path
  +:+ ". Install appropriate libraries for real implementation]".

Definition _parse_unknown : parser := fun _ file_path =>
  "[Unable to extract text from unknown file type: " +:+ file_path +:+ "]".

(** [self.parsers] *)
Definition parsers : gmap string parser :=
  <["text/plain" := _parse_text]>
  (<["application/pdf" := _parse_pdf]>
  (<["application/msword" := _parse_doc]>
  (<["application/vnd.openxmlformats-officedocument.wordprocessingml.document" := _parse_docx]>
  (<["application/vnd.ms-excel" := _parse_excel]>
  (<["application/vnd.openxmlformats-officedocument.spreadsheetml.sheet" := _parse_xlsx]>
  (<["text/csv" := _parse_csv]>
  (<["text/rtf" := _parse_rtf]> ∅))))))).

(** [parse(file_path)] *)
Definition parse (A : services) (file_path : string) : string :=
  match magic_from_file A file_path with
  | Some mime_type => default _parse_unknown (parsers !! mime_type) A file_path
  | None => EmptyString
  end.

End DocumentParser.

(** [DocScoop.extract_text_from_document]: the call cannot raise, so
    the handler never runs. *)
Definition extract_text_from_document (A : services) (file_path : string) : string :=
  DocumentParser.parse A file_path.

Definition newline : ascii := "010"%char.

(** [chr(10).join(lines)] *)
Fixpoint join_lines (lines : list string) : string :=
  match lines with
  | [] => EmptyString
  | [line] => line
  | line :: rest => line +:+ String newline (join_lines rest)
  end.

(** The f-string of [analyze_document_content], line by line. *)
Definition prompt (url text_sample : string) : string :=
  join_lines
    [ EmptyString;
      "        Analyze this document content and determine if it appears to be sensitive, private, ";
      "        or unintended for public release. Look for:";
      "        ";
      "        1. Personal information (names, addresses, phone numbers, SSNs, etc.)";
      "        2. Financial data (credit card numbers, bank accounts, etc.)";
      "        3. Internal/confidential business information (marked confidential, internal only, etc.)";
      "        4. Login credentials or API keys";
      "        5. Draft documents not meant for public consumption";
      "        6. Any information that seems inappropriate for public access";
      "        ";
      "        Document URL: " +:+ url;
      "        ";
      "        Document sample text:";
      "        " +:+ text_sample;
      "        ";
      "        Respond with:";
      "        1. Is this document potentially sensitive? (Yes/No)";
      "        2. Brief explanation of your determination";
      "        3. Specific sensitive elements found (if any)";
      "        " ].

(** ['yes' in analysis.lower().split(chr(10))[0].lower()]. Only the
    ASCII letters count for this test: no character outside ASCII
    has [y], [e], [s] or a line break in its lower case, so that
    [PyStr.lower] finds the three letters exactly where [str.lower()]
    does. *)
Definition says_yes (analysis : string) : bool :=
  PyStr.contains "yes"
    (PyStr.lower (hd EmptyString (PyText.split newline (PyStr.lower analysis)))).

(** [analyze_document_content(text, url)]; [asked] lists the prompts
    sent to the model so far and is returned extended when the model
    is consulted. *)
Definition analyze_document_content (A : services) (text url : string)
    (asked : list string) : (bool * string) * list string :=
  if negb (PyStr.truthy text) || (PyText.len text <? 10)%nat then
    ((false, "Document is empty or too short."), asked)
  else
    let text_sample := PyText.take (Z.to_nat 10000) text in
    let prompt := prompt url text_sample in
    (* try: *)
    match generate_content A asked prompt with
    | inl analysis => ((says_yes analysis, analysis), asked ++ [prompt])
    | inr e => ((false, "Error analyzing document: " +:+ e), asked ++ [prompt])
    end.

(** One entry of the list [scan_url] returns. *)
Record result := mkResult {
  result_url : string;
  result_is_sensitive : bool;
  result_analysis : string;
}.

(** What a scan leaves behind besides the crawler's own state: the
    prompts sent and the temporary files it asked to remove. *)
Record scan_state := mkScan {
  scoop : state;
  asked : list string;
  unlinked : list string;
}.

(** How [scan_url] ends: it returns its list, or an exception leaves
    it, the [ValueError] of a start URL that [urlparse] rejects or
    the [RecursionError] of a download. Printing is taken to
    succeed. *)
Inductive scan_outcome :=
| Scanned (results : list result) (sc : scan_state)
| ScanRaised (sc : scan_state).

Section Scan.

Variable W : world.
Variable A : services.
Variables DOCUMENT_EXTENSIONS IGNORE_EXTENSIONS : list string.

(** The [for url in tqdm(self.document_urls)] loop of [scan_url] over
    the URLs still to come. The call of [download_document] stands
    before the [try], so its [RecursionError] ends the scan; [fuel]
    is the stack left for it. Inside the [try] nothing raises, and
    what [os.unlink] may raise is dropped. *)
Fixpoint scan_documents (fuel : nat) (urls : list string) (results : list result)
    (sc : scan_state) : scan_outcome :=
  match urls with
  | [] => Scanned results sc
  | url :: rest =>
      match download_document W fuel url (scoop sc) with
      | RecursionError st => ScanRaised (mkScan st (asked sc) (unlinked sc))
      | Returned temp_path st =>
          match temp_path with
          | Some temp_path =>
              if PyStr.truthy temp_path then
                (* try: *)
                let text := extract_text_from_document A temp_path in
                let '((is_sensitive, analysis), asked) :=
                  analyze_document_content A text url (asked sc) in
                let results := results ++ [mkResult url is_sensitive analysis] in
                (* finally: os.unlink(temp_path) *)
                scan_documents fuel rest results
                  (mkScan st asked (unlinked sc ++ [temp_path]))
              else scan_documents fuel rest results (mkScan st (asked sc) (unlinked sc))
          | None => scan_documents fuel rest results (mkScan st (asked sc) (unlinked sc))
          end
      end
  end.

(** [scan_url(start_url, max_depth)]. The crawl is the first thing it
    does, and the one call of [crawl_page] that can end by the
    [ValueError] of the guard. *)
Definition scan_url (fuel : nat) (start_url : string) (max_depth : Z) (st : state)
    : scan_outcome :=
  if crawl_page_raises W start_url 1 max_depth then ScanRaised (mkScan st [] [])
  else
    match crawl W DOCUMENT_EXTENSIONS IGNORE_EXTENSIONS start_url max_depth st with
    | Some st =>
        scan_documents fuel (iteration_order A (log st) (document_urls st)) []
                       (mkScan st [] [])
    | None => ScanRaised (mkScan st [] [])   (* never: [crawl_page_total] *)
    end.

End Scan.

(** A desk for the examples: libmagic goes by the suffix, every text
    file holds the same minutes, and the model always answers with
    the same two lines. *)
Module Desk.

Definition by_suffix (file_path : string) : option string :=
  let ext := PosixPath.splitext_ext file_path in
  if String.eqb ext ".pdf" then Some "application/pdf"
  else if String.eqb ext ".txt" then Some "text/plain"
  else if String.eqb ext ".bin" then None
  else Some "application/octet-stream".

Definition minutes (_ : string) : option string :=
  Some "Minutes of the spring meeting".

Definition first_line : string := "No. Nothing in it needs more than a pair of eyes.".

Definition answer : string := first_line +:+ String newline "3. None.".

Lemma elements_lists (l : list event) (s : gset string) : elements s ≡ₚ elements s.
Proof. reflexivity. Qed.

(** A desk that reads and answers as told and iterates in the order
    of [elements]. *)
Definition desk (read : string -> option string)
    (model : list string -> string -> string + string) : services :=
  mkServices by_suffix read model (fun _ s => elements s) elements_lists.

Definition office : services := desk minutes (fun _ _ => inl answer).

(** The same desk with a model that is out of service. *)
Definition closed_office : services :=
  desk minutes (fun _ _ => inr "503 Service Unavailable").

End Desk.

Example parse_pdf_placeholder :
  extract_text_from_document Desk.office "/tmp/tmpk3x9.pdf"
  = "[Placeholder: PDF text extraction from /tmp/tmpk3x9.pdf. Install PyPDF2 for real implementation]".
Proof. reflexivity. Qed.
Example parse_text_file :
  extract_text_from_document Desk.office "/tmp/tmpk3x9.txt" = "Minutes of the spring meeting".
Proof. reflexivity. Qed.
Example parse_unknown_type :
  extract_text_from_document Desk.office "/tmp/tmpk3x9.zip"
  = "[Unable to extract text from unknown file type: /tmp/tmpk3x9.zip]".
Proof. reflexivity. Qed.
Example parse_magic_raises :
  extract_text_from_document Desk.office "/tmp/tmpk3x9.bin" = EmptyString.
Proof. reflexivity. Qed.
Example analysis_model_error :
  analyze_document_content Desk.closed_office "Minutes of the spring meeting" "http://a.example/m.txt" []
  = ((false, "Error analyzing document: 503 Service Unavailable"),
     [prompt "http://a.example/m.txt" "Minutes of the spring meeting"]).
Proof. reflexivity. Qed.

(** Five characters in ten bytes are too short: the model is not
    asked. *)
Example analysis_counts_characters :
  analyze_document_content Desk.office "ééééé" "http://a.example/e.txt" []
  = ((false, "Document is empty or too short."), []).
Proof. reflexivity. Qed.

(** *** The parser *)

Lemma truthy_of_len (s : string) : (1 <= PyText.len s)%nat -> PyStr.truthy s = true.
Proof. destruct s; cbn; [lia | done]. Qed.

(** Every parser but the one for plain text wraps the path in a fixed
    sentence. *)
Lemma parsers_placeholder (mime_type : string) :
  mime_type <> "text/plain" ->
  exists before after,
    (forall A file_path,
       default DocumentParser._parse_unknown (DocumentParser.parsers !! mime_type) A file_path
       = before +:+ file_path +:+ after) /\
    (10 <= String.length before)%nat /\
    (10 <= PyText.len before)%nat.
Proof.
  intros Hne. unfold DocumentParser.parsers.
  rewrite !lookup_insert, lookup_empty.
  repeat case_decide; subst; try congruence;
    eexists _, _;
    (split; [intros A file_path; reflexivity | split; vm_compute; lia]).
Qed.

(** X27. Only plain text is ever read. For a file that libmagic gives
    any other type, the extracted text is the same whatever the file
    holds, it is at least ten characters long, and so the model is
    always consulted, about a placeholder. *)
Theorem only_plain_text_is_read (A A' : services) (file_path mime_type : string) :
  magic_from_file A file_path = Some mime_type ->
  magic_from_file A' file_path = Some mime_type ->
  mime_type <> "text/plain" ->
  extract_text_from_document A file_path = extract_text_from_document A' file_path /\
  (10 <= String.length (extract_text_from_document A file_path))%nat /\
  forall url asked,
    exists sent,
      snd (analyze_document_content A (extract_text_from_document A file_path) url asked)
      = asked ++ [sent].
Proof.
  intros Hmagic Hmagic' Hne.
  destruct (parsers_placeholder mime_type Hne) as (before & after & Hparse & Hlen & Hchars).
  unfold extract_text_from_document, DocumentParser.parse.
  rewrite Hmagic, Hmagic', !Hparse.
  assert (10 <= String.length (before +:+ file_path +:+ after))%nat as Hlong.
  { rewrite PathFacts.length_app_string. lia. }
  assert (10 <= PyText.len (before +:+ file_path +:+ after))%nat as Hmany.
  { rewrite len_app. lia. }
  split; [done|]. split; [done|].
  intros url asked. unfold analyze_document_content.
  rewrite truthy_of_len by lia.
  destruct (Nat.ltb_spec (PyText.len (before +:+ file_path +:+ after)) 10) as [|_]; [lia|].
  cbn [negb orb].
  destruct (generate_content A asked _); eexists; reflexivity.
Qed.

Lemma only_plain_text_is_read_witness :
  extract_text_from_document Desk.office "/tmp/tmpk3x9.pdf"
  = extract_text_from_document
      (Desk.desk (fun _ => Some "Salaries 2024") (fun _ _ => inl Desk.answer))
      "/tmp/tmpk3x9.pdf" /\
  (10 <= String.length (extract_text_from_document Desk.office "/tmp/tmpk3x9.pdf"))%nat /\
  forall url asked,
    exists sent,
      snd (analyze_document_content Desk.office
             (extract_text_from_document Desk.office "/tmp/tmpk3x9.pdf") url asked)
      = asked ++ [sent].
Proof.
  apply (only_plain_text_is_read Desk.office _ "/tmp/tmpk3x9.pdf" "application/pdf").
  - reflexivity.
  - reflexivity.
  - discriminate.
Defined.

(** *** The verdict *)

Lemma lower_app (a b : string) : PyStr.lower (a +:+ b) = PyStr.lower a +:+ PyStr.lower b.
Proof.
  induction a as [|x a IH]; [done|].
  change (String (PyStr.lower_ascii x) (PyStr.lower (a +:+ b))
          = String (PyStr.lower_ascii x) (PyStr.lower a +:+ PyStr.lower b)).
  by rewrite IH.
Qed.

Lemma lower_ascii_newline (c : ascii) :
  PyStr.lower_ascii c = newline <-> c = newline.
Proof.
  destruct c as [[] [] [] [] [] [] [] []]; vm_compute; split; congruence.
Qed.

Lemma has_newline_lower (s : string) :
  PathFacts.has_char newline (PyStr.lower s) -> PathFacts.has_char newline s.
Proof.
  induction s as [|a s IH]; cbn; [done|].
  intros [H | H]; [left; by apply lower_ascii_newline | right; auto].
Qed.

(** The first piece of a split is the text up to the first separator. *)
Lemma split_head (sep : ascii) (line tail : string) :
  ~ PathFacts.has_char sep line ->
  tail = EmptyString \/ (exists rest, tail = String sep rest) ->
  hd EmptyString (PyText.split sep (line +:+ tail)) = line.
Proof.
  intros Hline Htail. induction line as [|a line IH].
  - destruct Htail as [-> | (rest & ->)]; [done|].
    change (EmptyString +:+ String sep rest) with (String sep rest).
    cbn [PyText.split]. by rewrite Ascii.eqb_refl.
  - change (String a line +:+ tail) with (String a (line +:+ tail)).
    cbn [PyText.split].
    destruct (Ascii.eqb_spec a sep) as [-> | _]; [exfalso; apply Hline; by left|].
    assert (~ PathFacts.has_char sep line) as Hrest by (intros H; apply Hline; by right).
    specialize (IH Hrest).
    destruct (PyText.split sep (line +:+ tail)) as [|piece pieces]; cbn in *; by rewrite IH.
Qed.

(** X28. For a text of at least ten characters the model is asked
    about its first 10000 characters, and the verdict is read off the
    first line of the answer alone: the document is flagged exactly
    when that line, lower-cased, holds the three letters [yes]
    anywhere, inside another word included, and nothing after the
    first line break counts. The answer itself is handed back
    unchanged. Characters are counted, not bytes. *)
Theorem verdict_reads_first_line_only (A : services) (text url : string)
    (asked : list string) (line tail : string) :
  (10 <= PyText.len text)%nat ->
  ~ PathFacts.has_char newline line ->
  tail = EmptyString \/ (exists rest, tail = String newline rest) ->
  generate_content A asked (prompt url (PyText.take (Z.to_nat 10000) text))
  = inl (line +:+ tail) ->
  analyze_document_content A text url asked
  = ((PyStr.contains "yes" (PyStr.lower line), line +:+ tail),
     asked ++ [prompt url (PyText.take (Z.to_nat 10000) text)]).
Proof.
  intros Hlong Hline Htail Hanswer. unfold analyze_document_content.
  rewrite truthy_of_len by lia.
  destruct (Nat.ltb_spec (PyText.len text) 10) as [|_]; [lia|].
  cbn [negb orb]. rewrite Hanswer. do 2 f_equal.
  unfold says_yes. rewrite lower_app, split_head, PathFacts.lower_idempotent; [done| |].
  - intros H. by apply Hline, has_newline_lower.
  - destruct Htail as [-> | (rest & ->)]; [by left | right].
    exists (PyStr.lower rest). reflexivity.
Qed.

Lemma verdict_reads_first_line_only_witness :
  analyze_document_content Desk.office "Protocole de la réunion"
    "http://a.example/minutes.txt" []
  = ((true, Desk.answer),
     [prompt "http://a.example/minutes.txt" "Protocole de la réunion"]).
Proof.
  apply (verdict_reads_first_line_only Desk.office "Protocole de la réunion"
           "http://a.example/minutes.txt" [] Desk.first_line (String newline "3. None.")).
  - vm_compute. lia.
  - vm_compute. intros H. repeat (destruct H as [H | H]; [discriminate H|]). exact H.
  - right. by eexists.
  - reflexivity.
Defined.

(** *** The scan *)

Example scan_sample :
  match scan_url Site.plain_world Desk.office default_DOCUMENT_EXTENSIONS
          default_IGNORE_EXTENSIONS 1 Site.home 2 (Sample.fresh Site.plain_world false) with
  | Scanned results sc => Some (results, asked sc, unlinked sc, gets (log (scoop sc)))
  | ScanRaised _ => None
  end
  = Some ([mkResult "http://a.example/report.pdf" true Desk.answer],
          [prompt "http://a.example/report.pdf"
             "[Placeholder: PDF text extraction from /tmp/tmpk3x9.pdf. Install PyPDF2 for real implementation]"],
          ["/tmp/tmpk3x9.pdf"],
          ["http://a.example/"; "http://a.example/next"; "http://a.example/report.pdf"]).
Proof. vm_compute. reflexivity. Qed.

(** A start URL that [urlparse] rejects: the scan raises before
    anything is requested, unless the depth bound is below 1 and the
    guard never looks at the URL. *)
Example scan_rejected_seed :
  scan_url Site.plain_world Desk.office default_DOCUMENT_EXTENSIONS default_IGNORE_EXTENSIONS
    1 "http://[bad" 2 (Sample.fresh Site.plain_world false)
  = ScanRaised (mkScan (Sample.fresh Site.plain_world false) [] []) /\
  scan_url Site.plain_world Desk.office default_DOCUMENT_EXTENSIONS default_IGNORE_EXTENSIONS
    1 "http://[bad" 0 (Sample.fresh Site.plain_world false)
  = Scanned [] (mkScan (Sample.fresh Site.plain_world false) [] []).
Proof. split; vm_compute; reflexivity. Qed.

Lemma download_attempt_temp (W : world) (url : string) (st : state) temp_path st' :
  download_attempt W url st = inl (Some temp_path, st') ->
  EvTempFile temp_path ∈ log st'.
Proof.
  unfold download_attempt, session_get.
  destruct (http_get W (log st) url) as [|status_code content_type hrefs stream_ok];
    [discriminate|].
  destruct (negb (status_code =? 200)); [discriminate|].
  destruct stream_ok; [|discriminate].
  intros [= <- <-]. cbn. rewrite elem_of_app. right. by apply list_elem_of_singleton.
Qed.

Lemma download_document_temp (W : world) (fuel : nat) (url : string) :
  forall st temp_path st',
    download_document W fuel url st = Returned (Some temp_path) st' ->
    EvTempFile temp_path ∈ log st'.
Proof.
  induction fuel as [|fuel IH]; intros st temp_path st'; [discriminate|].
  cbn [download_document].
  destruct (download_attempt W url st) as [[found st1]|st1] eqn:Htry.
  - intros [= -> ->]. by eapply download_attempt_temp.
  - destruct (anonymous st1); [apply IH | discriminate].
Qed.

Lemma analyze_document_content_asked (A : services) (text url : string) (asked : list string) :
  exists sent,
    snd (analyze_document_content A text url asked) = asked ++ sent /\
    (List.length sent <= 1)%nat.
Proof.
  unfold analyze_document_content.
  destruct (negb (PyStr.truthy text) || (PyText.len text <? 10)%nat).
  - exists []. cbn. rewrite app_nil_r. split; [done | lia].
  - destruct (generate_content A asked _); eexists [_]; cbn; (split; [reflexivity | lia]).
Qed.

(** What one run of the loop adds to its accumulators. *)
Lemma scan_documents_accounts (W : world) (A : services) (fuel : nat) (urls : list string) :
  forall results0 sc0 results sc,
    scan_documents W A fuel urls results0 sc0 = Scanned results sc ->
    exists found removed sent new,
      results = results0 ++ found /\
      map result_url found `sublist_of` urls /\
      unlinked sc = unlinked sc0 ++ removed /\
      List.length removed = List.length found /\
      asked sc = asked sc0 ++ sent /\
      (List.length sent <= List.length found)%nat /\
      only_logs (scoop sc0) (scoop sc) new /\
      Forall (fun p => EvTempFile p ∈ log (scoop sc0) ++ new) removed.
Proof.
  induction urls as [|url rest IH]; intros results0 sc0 results sc.
  - intros [= <- <-]. exists [], [], [], [].
    rewrite !app_nil_r. repeat split; try done. cbn. by rewrite app_nil_r.
  - cbn [scan_documents].
    destruct (download_document_only_logs W fuel url (scoop sc0)) as (new1 & Hlog1).
    pose proof (download_document_temp W fuel url (scoop sc0)) as Htemp.
    destruct (download_document W fuel url (scoop sc0)) as [temp_path st1|]; [|discriminate].
    cbn [download_state] in Hlog1.
    assert (forall removed new,
              Forall (fun p => EvTempFile p ∈ log st1 ++ new) removed ->
              Forall (fun p => EvTempFile p ∈ log (scoop sc0) ++ new1 ++ new) removed) as Hlift.
    { intros removed new Hall.
      eapply Forall_impl; [exact Hall|]. intros p Hp. cbn in Hp.
      destruct Hlog1 as (_ & _ & _ & _ & _ & _ & Hl1).
      rewrite Hl1 in Hp. by rewrite app_assoc. }
    destruct temp_path as [temp_path|]; [destruct (PyStr.truthy temp_path)|].
    + destruct (analyze_document_content_asked A (extract_text_from_document A temp_path)
                  url (asked sc0)) as (sent1 & Hsent1 & Hone).
      destruct (analyze_document_content A (extract_text_from_document A temp_path)
                  url (asked sc0)) as [[is_sensitive analysis] asked1].
      cbn [snd] in Hsent1. subst asked1.
      intros Hrun. apply IH in Hrun
        as (found & removed & sent & new & -> & Hsub & Hunl & Hlen & Hask & Hsent & Hlogs & Hrem).
      cbn [scoop asked unlinked] in *.
      exists (mkResult url is_sensitive analysis :: found), (temp_path :: removed),
             (sent1 ++ sent), (new1 ++ new).
      split; [by rewrite <- app_assoc|].
      split; [cbn; by apply sublist_skip|].
      split; [by rewrite Hunl, <- app_assoc|].
      split; [cbn; lia|].
      split; [by rewrite Hask, <- app_assoc|].
      split; [rewrite length_app; cbn; lia|].
      split; [by eapply only_logs_trans|].
      constructor; [|by apply Hlift].
      destruct Hlog1 as (_ & _ & _ & _ & _ & _ & Hl1).
      rewrite app_assoc, <- Hl1, elem_of_app. left. by eapply Htemp.
    + intros Hrun. apply IH in Hrun
        as (found & removed & sent & new & -> & Hsub & Hunl & Hlen & Hask & Hsent & Hlogs & Hrem).
      cbn [scoop asked unlinked] in *.
      exists found, removed, sent, (new1 ++ new).
      split; [done|]. split; [by apply sublist_cons|].
      do 4 (split; [done|]).
      split; [by eapply only_logs_trans | by apply Hlift].
    + intros Hrun. apply IH in Hrun
        as (found & removed & sent & new & -> & Hsub & Hunl & Hlen & Hask & Hsent & Hlogs & Hrem).
      cbn [scoop asked unlinked] in *.
      exists found, removed, sent, (new1 ++ new).
      split; [done|]. split; [by apply sublist_cons|].
      do 4 (split; [done|]).
      split; [by eapply only_logs_trans | by apply Hlift].
Qed.

(** X29. What a scan that returns has done. Every result is about a
    URL of the document set the crawl has built, no URL has two
    results, and the downloads leave the set as the crawl left it;
    every result stands for one temporary file that the scan asked
    to remove, and the log shows the creation of each such file; the
    model was consulted at most once per result. *)
Theorem scan_accounts_for_its_results (W : world) (A : services) (DOCS IGN : list string)
    (fuel : nat) (start_url : string) (max_depth : Z) (st : state)
    (results : list result) (sc : scan_state) :
  scan_url W A DOCS IGN fuel start_url max_depth st = Scanned results sc ->
  exists st1,
    crawl W DOCS IGN start_url max_depth st = Some st1 /\
    document_urls (scoop sc) = document_urls st1 /\
    (forall r, r ∈ results -> result_url r ∈ document_urls st1) /\
    NoDup (map result_url results) /\
    List.length (unlinked sc) = List.length results /\
    Forall (fun p => EvTempFile p ∈ log (scoop sc)) (unlinked sc) /\
    (List.length (asked sc) <= List.length results)%nat.
Proof.
  unfold scan_url.
  destruct (crawl_page_raises W start_url 1 max_depth); [discriminate|].
  destruct (crawl W DOCS IGN start_url max_depth st) as [st1|]; [|discriminate].
  intros Hrun. apply scan_documents_accounts in Hrun
    as (found & removed & sent & new & -> & Hsub & Hunl & Hlen & Hask & Hsent & Hlogs & Hrem).
  cbn [scoop asked unlinked app] in *.
  destruct Hlogs as (Hv & Hd & Ha & Hc & He & Hp & Hl).
  pose proof (iteration_order_lists A (log st1) (document_urls st1)) as Hperm.
  exists st1. rewrite Hunl, Hask, Hl.
  split; [done|]. split; [done|].
  split.
  { intros r Hr. apply elem_of_elements. rewrite <- Hperm.
    eapply elem_of_sublist; [|exact Hsub]. by apply list_elem_of_fmap_2. }
  split.
  { eapply sublist_NoDup; [|exact Hsub]. rewrite Hperm. apply NoDup_elements. }
  by repeat split.
Qed.

Lemma scan_accounts_for_its_results_witness :
  exists results sc st1,
    scan_url Site.plain_world Desk.office default_DOCUMENT_EXTENSIONS default_IGNORE_EXTENSIONS
      1 Site.home 2 (Sample.fresh Site.plain_world false) = Scanned results sc /\
    crawl Site.plain_world default_DOCUMENT_EXTENSIONS default_IGNORE_EXTENSIONS
      Site.home 2 (Sample.fresh Site.plain_world false) = Some st1 /\
    document_urls (scoop sc) = document_urls st1 /\
    (forall r, r ∈ results -> result_url r ∈ document_urls st1) /\
    NoDup (map result_url results) /\
    List.length (unlinked sc) = List.length results /\
    Forall (fun p => EvTempFile p ∈ log (scoop sc)) (unlinked sc) /\
    (List.length (asked sc) <= List.length results)%nat.
Proof.
  destruct (scan_url Site.plain_world Desk.office default_DOCUMENT_EXTENSIONS
              default_IGNORE_EXTENSIONS 1 Site.home 2 (Sample.fresh Site.plain_world false))
    as [results sc|sc] eqn:Hrun.
  - destruct (scan_accounts_for_its_results _ _ _ _ _ _ _ _ _ _ Hrun) as (st1 & Hst1).
    exists results, sc, st1. split; [reflexivity | exact Hst1].
  - vm_compute in Hrun. discriminate Hrun.
Defined.

(** Without the transport a download is one attempt. *)
Lemma download_document_direct (W : world) (fuel : nat) (url : string) (st : state) :
  anonymous st = false ->
  exists temp_path st' new,
    download_document W (S fuel) url st = Returned temp_path st' /\
    only_logs st st' new /\
    gets new = [url] /\ newnyms new = 0%nat.
Proof.
  intros Hdirect. cbn [download_document].
  destruct (download_attempt_frame W url st) as (new & Hlogs & _ & Hgets & _ & Hnyms).
  destruct (download_attempt W url st) as [[temp_path st1]|st1].
  - by exists temp_path, st1, new.
  - assert (anonymous st1 = false) as -> by (destruct Hlogs as (_ & _ & -> & _); done).
    by exists None, st1, new.
Qed.

Lemma scan_documents_direct (W : world) (A : services) (fuel : nat) (urls : list string) :
  forall results0 sc0,
    anonymous (scoop sc0) = false ->
    exists results sc new,
      scan_documents W A (S fuel) urls results0 sc0 = Scanned results sc /\
      log (scoop sc) = log (scoop sc0) ++ new /\
      gets new = urls /\ newnyms new = 0%nat.
Proof.
  induction urls as [|url rest IH]; intros results0 sc0 Hdirect.
  - exists results0, sc0, []. by rewrite app_nil_r.
  - destruct (download_document_direct W fuel url (scoop sc0) Hdirect)
      as (temp_path & st1 & new1 & Hrun & Hlogs & Hgets & Hnyms).
    assert (anonymous st1 = false) as Hdirect1
      by (destruct Hlogs as (_ & _ & -> & _); done).
    assert (log st1 = log (scoop sc0) ++ new1) as Hlog1
      by (destruct Hlogs as (_ & _ & _ & _ & _ & _ & ->); done).
    assert (forall results1 asked1 unlinked1,
              exists results sc new,
                scan_documents W A (S fuel) rest results1 (mkScan st1 asked1 unlinked1)
                = Scanned results sc /\
                log (scoop sc) = log (scoop sc0) ++ new /\
                gets new = url :: rest /\ newnyms new = 0%nat) as Hrest.
    { intros results1 asked1 unlinked1.
      destruct (IH results1 (mkScan st1 asked1 unlinked1) Hdirect1)
        as (results & sc & new & Hscan & Hlog & Hg & Hn).
      exists results, sc, (new1 ++ new). cbn [scoop] in Hlog.
      split; [exact Hscan|].
      split; [by rewrite Hlog, Hlog1, app_assoc|].
      split; [by rewrite gets_app, Hgets, Hg|].
      rewrite newnyms_app. lia. }
    cbn [scan_documents]. rewrite Hrun.
    destruct temp_path as [temp_path|]; [destruct (PyStr.truthy temp_path)|]; [|apply Hrest..].
    destruct (analyze_document_content A (extract_text_from_document A temp_path)
                url (asked sc0)) as [[is_sensitive analysis] asked1].
    apply Hrest.
Qed.

(** X30. A scan without the transport, started on a URL that
    [urlparse] accepts (or with a depth bound below 1), always
    returns, and a stack with room for one call per download is
    enough for it: after the crawl it requests every URL of the
    document set exactly once, whether the request succeeds or not,
    and it never asks for a new identity. *)
Theorem direct_scan_requests_each_document_once (W : world) (A : services)
    (DOCS IGN : list string) (fuel : nat) (start_url : string) (max_depth : Z) (st : state) :
  anonymous st = false ->
  crawl_page_raises W start_url 1 max_depth = false ->
  exists st1 results sc new,
    crawl W DOCS IGN start_url max_depth st = Some st1 /\
    scan_url W A DOCS IGN (S fuel) start_url max_depth st = Scanned results sc /\
    log (scoop sc) = log st1 ++ new /\
    gets new ≡ₚ elements (document_urls st1) /\
    newnyms new = 0%nat.
Proof.
  intros Hdirect Hseed. unfold scan_url, crawl. rewrite Hseed.
  destruct (crawl_page_total W DOCS IGN (crawl_fuel 1 max_depth) start_url 1 max_depth st)
    as [st1 Hcrawl]; [lia|].
  rewrite Hcrawl.
  assert (anonymous st1 = false) as Hdirect1.
  { destruct (crawl_page_same_transport W DOCS IGN _ _ _ _ _ _ Hcrawl) as (_ & _ & -> & _).
    exact Hdirect. }
  destruct (scan_documents_direct W A fuel (iteration_order A (log st1) (document_urls st1)) []
              (mkScan st1 [] []) Hdirect1) as (results & sc & new & Hscan & Hlog & Hg & Hn).
  exists st1, results, sc, new.
  split; [reflexivity|]. split; [exact Hscan|]. split; [exact Hlog|].
  split; [|exact Hn]. rewrite Hg. apply iteration_order_lists.
Qed.

Lemma direct_scan_requests_each_document_once_witness :
  exists st1 results sc new,
    crawl Site.plain_world default_DOCUMENT_EXTENSIONS default_IGNORE_EXTENSIONS
      Site.home 2 (Sample.fresh Site.plain_world false) = Some st1 /\
    scan_url Site.plain_world Desk.office default_DOCUMENT_EXTENSIONS default_IGNORE_EXTENSIONS
      1 Site.home 2 (Sample.fresh Site.plain_world false) = Scanned results sc /\
    log (scoop sc) = log st1 ++ new /\
    gets new ≡ₚ elements (document_urls st1) /\
    newnyms new = 0%nat.
Proof.
  apply (direct_scan_requests_each_document_once Site.plain_world Desk.office
           default_DOCUMENT_EXTENSIONS default_IGNORE_EXTENSIONS 0 Site.home 2
           (Sample.fresh Site.plain_world false)).
  - reflexivity.
  - reflexivity.
Defined.

(** With the transport asked for and fallen back, the same scan of a
    site whose report cannot be downloaded raises instead of skipping
    the report. *)
Example fallback_scan_raises :
  let W := Sample.sample_world false (true, true, true)
             (fun l u => if String.eqb u "http://a.example/report.pdf" then HttpRaise
                         else Site.linked_pages l u) in
  (match scan_url W Desk.office default_DOCUMENT_EXTENSIONS default_IGNORE_EXTENSIONS
           5 Site.home 2 (outcome_state (DocScoop_init W true false 9050 9051 ∅)) with
   | Scanned _ _ => false
   | ScanRaised _ => true
   end,
   match scan_url W Desk.office default_DOCUMENT_EXTENSIONS default_IGNORE_EXTENSIONS
           5 Site.home 2 (Sample.fresh W false) with
   | Scanned results _ => Some results
   | ScanRaised _ => None
   end)
  = (true, Some []).
Proof. vm_compute. reflexivity. Qed.
